(** * Popcorn GPS collar gateway: ingestion and derivation pipeline

    The repository holds three generations of the gateway server:
    - the V6.0 server ([V60] below): nested firmware payload, checksum over
      the serialized payload, anomaly de-duplication, walk sessions that are
      started and later ended by id, penalty grading;
    - the V6.1 "anti-cheat" server ([V61] below): flat payload, checksum over
      three fields rendered in hexadecimal, walk sessions synthesized at
      walk end from a supplied quality score;
    - a minimal server with a single status upsert ([Minimal] below).

    Both servers are Express handlers talking to a Supabase store.  The
    handlers are embedded as computations in a small state monad over the
    store, with early responses and thrown exceptions as outcomes.

    Numbers are the rationals that the doubles hold, extended with NaN and
    the infinities; the arithmetic operators round their exact result to
    the nearest double.  The sign of zero is not represented.  Instants are
    integers (milliseconds since the epoch, UTC). *)

From Stdlib Require Import ZArith QArith Qround Qminmax Qabs Qpower Lqa.
From Stdlib Require Import List String Ascii.
From Stdlib Require Import Bool Lia RelationClasses DecimalString.
Import ListNotations.

Set Warnings "-register-all".
Local Open Scope Z_scope.

(* ================================================================== *)
(** * JavaScript values *)

Module JS.

(** A JavaScript string: its sequence of UTF-16 code units. *)
Definition jsstring := list Z.

Definition str (s : string) : jsstring :=
  map (fun c => Z.of_nat (nat_of_ascii c)) (list_ascii_of_string s).

Fixpoint jsstring_eqb (a b : jsstring) : bool :=
  match a, b with
  | [], [] => true
  | x :: a', y :: b' => (x =? y) && jsstring_eqb a' b'
  | _, _ => false
  end.

(** ** Numbers *)

Inductive number :=
| Fin (q : Q)
| NaN
| PInf
| NInf.

Definition sign (a : number) : option comparison :=
  match a with
  | Fin q => Some (Qnum q ?= 0)
  | PInf => Some Gt
  | NInf => Some Lt
  | NaN => None
  end.

Definition inf_of (c : comparison) : number :=
  match c with Gt => PInf | Lt => NInf | Eq => NaN end.

Definition cmul (c d : comparison) : comparison :=
  match c, d with
  | Eq, _ | _, Eq => Eq
  | Gt, Gt | Lt, Lt => Gt
  | _, _ => Lt
  end.

(** ** Rounding to the doubles

    A double holds 53 significant bits, with exponents that reach from the
    subnormals (multiples of [2^-1074]) up to, but not including,
    [2^1024]. *)

(** The largest [e] with [2^e <= |q|], for [q] other than zero. *)
Definition ilog2 (q : Q) : Z :=
  let e := Z.log2 (Z.abs (Qnum q)) - Z.log2 (Zpos (Qden q)) in
  if Qle_bool (2 ^ e) (Qabs q) then e else e - 1.

(** The integer nearest to [x], the even one when two are as near. *)
Definition nearest_even (x : Q) : Z :=
  let f := Qfloor x in
  match (x - inject_Z f ?= 1 # 2)%Q with
  | Lt => f
  | Gt => f + 1
  | Eq => if Z.even f then f else f + 1
  end.

(** The exponent of the last bit of the doubles next to [q]. *)
Definition last_bit (q : Q) : Z := Z.max (ilog2 q - 52) (-1074).

(** The double nearest to [q], ties going to the even one (the rounding of
    every arithmetic operator); a result of magnitude [2^1024] or more
    overflows to an infinity. *)
Definition round64 (q : Q) : number :=
  if Qeq_bool q 0 then Fin 0
  else
    let u := last_bit q in
    let r := (inject_Z (nearest_even (q / 2 ^ u)) * 2 ^ u)%Q in
    if Qle_bool (2 ^ 1024) (Qabs r)
    then (if Qnum q <? 0 then NInf else PInf)
    else Fin (Qred r).

Definition nneg (a : number) : number :=
  match a with
  | Fin q => Fin (- q)
  | NaN => NaN
  | PInf => NInf
  | NInf => PInf
  end.

Definition nadd (a b : number) : number :=
  match a, b with
  | Fin x, Fin y => round64 (x + y)
  | NaN, _ | _, NaN => NaN
  | PInf, NInf | NInf, PInf => NaN
  | PInf, _ | _, PInf => PInf
  | NInf, _ | _, NInf => NInf
  end.

Definition nsub (a b : number) : number :=
  match a, b with
  | Fin x, Fin y => round64 (x - y)
  | _, _ => nadd a (nneg b)
  end.

Definition nmul (a b : number) : number :=
  match a, b with
  | Fin x, Fin y => round64 (x * y)
  | _, _ =>
      match sign a, sign b with
      | Some s, Some t => inf_of (cmul s t)
      | _, _ => NaN
      end
  end.

Definition ndiv (a b : number) : number :=
  match a, b with
  | Fin x, Fin y =>
      if Qeq_bool y 0 then inf_of (Qnum x ?= 0) else round64 (x / y)
  | Fin _, (PInf | NInf) => Fin 0
  | (PInf | NInf), Fin y =>
      match sign a with
      | Some s => inf_of (cmul s (if Qeq_bool y 0 then Gt else (Qnum y ?= 0)))
      | None => NaN
      end
  | _, _ => NaN
  end.

(** [a < b]; every comparison with NaN is false. *)
Definition nlt (a b : number) : bool :=
  match a, b with
  | Fin x, Fin y => negb (Qle_bool y x)
  | NaN, _ | _, NaN => false
  | NInf, (Fin _ | PInf) => true
  | Fin _, PInf => true
  | _, _ => false
  end.

(** [a >= b]. *)
Definition nge (a b : number) : bool :=
  match a, b with
  | Fin x, Fin y => Qle_bool y x
  | NaN, _ | _, NaN => false
  | _, NInf => true
  | PInf, _ => true
  | _, _ => false
  end.

Definition Math_max (a b : number) : number :=
  match a, b with
  | NaN, _ | _, NaN => NaN
  | _, _ => if nlt a b then b else a
  end.

Definition Math_min (a b : number) : number :=
  match a, b with
  | NaN, _ | _, NaN => NaN
  | _, _ => if nlt b a then b else a
  end.

Definition Math_round (a : number) : number :=
  match a with
  | Fin q => Fin (inject_Z (Qfloor (q + (1 # 2))))
  | _ => a
  end.

Definition num (z : Z) : number := Fin (inject_Z z).

(** ** 32-bit integer conversions and operators *)

Definition two32 : Z := 4294967296.
Definition two31 : Z := 2147483648.

Definition ToUint32 (z : Z) : Z := z mod two32.
Definition ToInt32 (z : Z) : Z := (z + two31) mod two32 - two31.

(** [a << n] *)
Definition shl32 (a n : Z) : Z :=
  ToInt32 (Z.shiftl (ToInt32 a) (n mod 32)).

(** [a & b] *)
Definition and32 (a b : Z) : Z :=
  ToInt32 (Z.land (ToInt32 a) (ToInt32 b)).

(** [a >>> 0] *)
Definition ushr0 (a : Z) : Z := ToUint32 a.

(** The integer part of a number, as the 32-bit operators see it. *)
Definition trunc (a : number) : Z :=
  match a with
  | Fin q => Z.quot (Qnum q) (Zpos (Qden q))
  | _ => 0
  end.

(** ** Values *)

(** [JTime t] is the ISO-8601 string [new Date(t).toISOString()] and
    [JDay d] the string ['YYYY-MM-DD'] of the UTC day number [d]; both are
    kept abstract so that the store can compare them as instants.  JSON
    arrays do not occur in the device payloads and are left out. *)
Inductive JVal :=
| JUndefined
| JNull
| JBool (b : bool)
| JNum (n : number)
| JStr (s : jsstring)
| JTime (t : Z)
| JDay (d : Z)
| JObj (fields : list (string * JVal)).

Definition jnum (z : Z) : JVal := JNum (num z).
Definition jstr (s : string) : JVal := JStr (str s).

Definition truthy (v : JVal) : bool :=
  match v with
  | JUndefined | JNull => false
  | JBool b => b
  | JNum (Fin q) => negb (Qeq_bool q 0)
  | JNum NaN => false
  | JNum _ => true
  | JStr [] => false
  | JStr _ => true
  | JTime _ | JDay _ => true
  | JObj _ => true
  end.

Definition nullish (v : JVal) : bool :=
  match v with JUndefined | JNull => true | _ => false end.

(** [a || b] *)
Definition jor (a b : JVal) : JVal := if truthy a then a else b.

(** [a ?? b] *)
Definition jcoalesce (a b : JVal) : JVal := if nullish a then b else a.

Fixpoint lookup (k : string) (fs : list (string * JVal)) : JVal :=
  match fs with
  | [] => JUndefined
  | (k', v) :: fs' => if String.eqb k k' then v else lookup k fs'
  end.

(** [v?.k] *)
Definition oprop (v : JVal) (k : string) : JVal :=
  match v with
  | JObj fs => lookup k fs
  | _ => JUndefined
  end.

(** [v.k]: [None] is the TypeError raised on [undefined] and [null]. *)
Definition prop (v : JVal) (k : string) : option JVal :=
  if nullish v then None else Some (oprop v k).

(** [{...v}] followed by [delete copy.k] *)
Definition without (k : string) (v : JVal) : JVal :=
  match v with
  | JObj fs => JObj (filter (fun kv => negb (String.eqb k (fst kv))) fs)
  | _ => JObj []
  end.

(** [a === b] on the values compared by the handlers (never two objects). *)
Definition strict_eq (a b : JVal) : bool :=
  match a, b with
  | JUndefined, JUndefined | JNull, JNull => true
  | JBool x, JBool y => Bool.eqb x y
  | JNum (Fin x), JNum (Fin y) => Qeq_bool x y
  | JNum PInf, JNum PInf | JNum NInf, JNum NInf => true
  | JStr x, JStr y => jsstring_eqb x y
  | JTime x, JTime y | JDay x, JDay y => x =? y
  | _, _ => false
  end.

(** What [JSON.stringify] followed by parsing keeps of a value: fields
    holding [undefined] are dropped, non-finite numbers become [null]. *)
Fixpoint wire (v : JVal) : JVal :=
  match v with
  | JNum (Fin q) => v
  | JNum _ => JNull
  | JObj fs =>
      JObj ((fix go (l : list (string * JVal)) : list (string * JVal) :=
               match l with
               | [] => []
               | (k, JUndefined) :: l' => go l'
               | (k, x) :: l' => (k, wire x) :: go l'
               end) fs)
  | _ => v
  end.

(** The fields that [wire] keeps of an object. *)
Fixpoint wire_fields (l : list (string * JVal)) : list (string * JVal) :=
  match l with
  | [] => []
  | (k, JUndefined) :: l' => wire_fields l'
  | (k, x) :: l' => (k, wire x) :: wire_fields l'
  end.

(** The field read as [v] holds the number [q], an absent field counting
    as zero. *)
Definition holds (v : JVal) (q : Q) : Prop :=
  v = JNum (Fin q) \/ (nullish v = true /\ (q == 0)%Q).

(** The parts of the JavaScript runtime that are not written out here. *)
Class Runtime := {
  JSON_stringify : JVal -> jsstring;
  ToString : JVal -> jsstring;
  parseInt : JVal -> number;
  StringToNumber : jsstring -> number
}.

Section WithRuntime.
Context {rt : Runtime}.

Definition ToNumber (v : JVal) : number :=
  match v with
  | JUndefined => NaN
  | JNull => Fin 0
  | JBool b => if b then Fin 1 else Fin 0
  | JNum n => n
  | JStr s => StringToNumber s
  | JTime _ | JDay _ => NaN
  | JObj _ => NaN
  end.

End WithRuntime.

End JS.

(* ================================================================== *)
(** * The store and the handler monad *)

Module Db.
Import JS.

Inductive Table :=
| device_status | locations | scratch_events | scratch_daily
| anomaly_log | walk_sessions.

Record Store := {
  tbl_device_status : list JVal;
  tbl_locations : list JVal;
  tbl_scratch_events : list JVal;
  tbl_scratch_daily : list JVal;
  tbl_anomaly_log : list JVal;
  tbl_walk_sessions : list JVal;
  next_id : Z
}.

Definition rows (t : Table) (s : Store) : list JVal :=
  match t with
  | device_status => tbl_device_status s
  | locations => tbl_locations s
  | scratch_events => tbl_scratch_events s
  | scratch_daily => tbl_scratch_daily s
  | anomaly_log => tbl_anomaly_log s
  | walk_sessions => tbl_walk_sessions s
  end.

Definition set_rows (t : Table) (l : list JVal) (s : Store) : Store :=
  match t with
  | device_status =>
      {| tbl_device_status := l; tbl_locations := tbl_locations s;
         tbl_scratch_events := tbl_scratch_events s;
         tbl_scratch_daily := tbl_scratch_daily s;
         tbl_anomaly_log := tbl_anomaly_log s;
         tbl_walk_sessions := tbl_walk_sessions s; next_id := next_id s |}
  | locations =>
      {| tbl_device_status := tbl_device_status s; tbl_locations := l;
         tbl_scratch_events := tbl_scratch_events s;
         tbl_scratch_daily := tbl_scratch_daily s;
         tbl_anomaly_log := tbl_anomaly_log s;
         tbl_walk_sessions := tbl_walk_sessions s; next_id := next_id s |}
  | scratch_events =>
      {| tbl_device_status := tbl_device_status s;
         tbl_locations := tbl_locations s; tbl_scratch_events := l;
         tbl_scratch_daily := tbl_scratch_daily s;
         tbl_anomaly_log := tbl_anomaly_log s;
         tbl_walk_sessions := tbl_walk_sessions s; next_id := next_id s |}
  | scratch_daily =>
      {| tbl_device_status := tbl_device_status s;
         tbl_locations := tbl_locations s;
         tbl_scratch_events := tbl_scratch_events s; tbl_scratch_daily := l;
         tbl_anomaly_log := tbl_anomaly_log s;
         tbl_walk_sessions := tbl_walk_sessions s; next_id := next_id s |}
  | anomaly_log =>
      {| tbl_device_status := tbl_device_status s;
         tbl_locations := tbl_locations s;
         tbl_scratch_events := tbl_scratch_events s;
         tbl_scratch_daily := tbl_scratch_daily s; tbl_anomaly_log := l;
         tbl_walk_sessions := tbl_walk_sessions s; next_id := next_id s |}
  | walk_sessions =>
      {| tbl_device_status := tbl_device_status s;
         tbl_locations := tbl_locations s;
         tbl_scratch_events := tbl_scratch_events s;
         tbl_scratch_daily := tbl_scratch_daily s;
         tbl_anomaly_log := tbl_anomaly_log s; tbl_walk_sessions := l;
         next_id := next_id s |}
  end.

Definition bump_id (s : Store) : Store :=
  {| tbl_device_status := tbl_device_status s;
     tbl_locations := tbl_locations s;
     tbl_scratch_events := tbl_scratch_events s;
     tbl_scratch_daily := tbl_scratch_daily s;
     tbl_anomaly_log := tbl_anomaly_log s;
     tbl_walk_sessions := tbl_walk_sessions s; next_id := next_id s + 1 |}.

Definition empty_store : Store :=
  {| tbl_device_status := []; tbl_locations := []; tbl_scratch_events := [];
     tbl_scratch_daily := []; tbl_anomaly_log := []; tbl_walk_sessions := [];
     next_id := 1 |}.

Definition ms_per_day : Z := 86400000.

(** The UTC calendar day of an instant. *)
Definition day_of (t : Z) : Z := t / ms_per_day.

(** Modelled from the spec: the table definitions of the store are not part
    of the sources.  An anomaly entry carries the instant at which it was
    recorded ("an existing AnomalyLogEntry ... whose timestamp falls within
    the current calendar day"), and anomaly entries and walk sessions carry
    an identifier given by the store ("create a WalkSession ...; return its
    identifier to the caller"). *)
Definition column_defaults (t : Table) (now id : Z) : list (string * JVal) :=
  match t with
  | anomaly_log => [("id", jnum id); ("detected_at", JTime now)]
  | walk_sessions => [("id", jnum id)]
  | _ => []
  end%string.

Definition has_key (k : string) (fs : list (string * JVal)) : bool :=
  existsb (fun kv => String.eqb k (fst kv)) fs.

(** The fields of [old] overwritten and extended by those of [new]. *)
Definition merge_fields (old new : list (string * JVal))
  : list (string * JVal) :=
  filter (fun kv => negb (has_key (fst kv) new)) old ++ new.

Definition fields_of (v : JVal) : list (string * JVal) :=
  match wire v with JObj fs => fs | _ => [] end.

Definition merge_row (old new : JVal) : JVal :=
  match old with
  | JObj fs => JObj (merge_fields fs (fields_of new))
  | _ => JObj (fields_of new)
  end.

(** [.eq(column, v)]: the comparison of a stored column with a value; as in
    SQL, nothing equals an absent value. *)
Definition sql_eq (col v : JVal) : bool :=
  match col, v with
  | JUndefined, _ | JNull, _ | _, JUndefined | _, JNull => false
  | _, _ => strict_eq col v
  end.

(** [.gte(column, v)] on instants and days. *)
Definition sql_gte (col v : JVal) : bool :=
  match col, v with
  | JTime t, JTime u => u <=? t
  | JTime t, JDay d => d * ms_per_day <=? t
  | JDay c, JDay d => d <=? c
  | JDay c, JTime u => u <=? c * ms_per_day
  | JNum a, JNum b => nge a b
  | _, _ => false
  end.

Definition project (cols : option (list string)) (row : JVal) : JVal :=
  match cols with
  | None => row
  | Some ks => JObj (map (fun k => (k, jcoalesce (oprop row k) JNull)) ks)
  end.

(** The calls the handlers make to the store, one name per call site. *)
Inductive Site :=
| status_upsert | location_insert | scratch_insert | scratch_daily_upsert
| anomaly_select | anomaly_insert
| status_select | walk_select | walk_update | walk_insert.

Definition Site_eqb (a b : Site) : bool :=
  match a, b with
  | status_upsert, status_upsert | location_insert, location_insert
  | scratch_insert, scratch_insert
  | scratch_daily_upsert, scratch_daily_upsert
  | anomaly_select, anomaly_select | anomaly_insert, anomaly_insert
  | status_select, status_select | walk_select, walk_select
  | walk_update, walk_update | walk_insert, walk_insert => true
  | _, _ => false
  end.

Definition is_write (s : Site) : bool :=
  match s with
  | anomaly_select | status_select | walk_select => false
  | _ => true
  end.

(** The environment of one request: the clock, and for each call to the
    store whether it fails and with which message. *)
Record Env := {
  now : Z;
  faults : Site -> option jsstring
}.

Definition no_faults : Site -> option jsstring := fun _ => None.

Inductive Level := log_info | log_warn | log_error.

Record World := {
  db : Store;
  journal : list (Site * bool);
  console : list (Level * string)
}.

Definition fresh (s : Store) : World :=
  {| db := s; journal := []; console := [] |}.

Record Response := { status : Z; body : JVal }.

Inductive Outcome (A : Type) :=
| Ret (a : A)
| Sent (r : Response)
| Thrown.
Arguments Ret {A} a.
Arguments Sent {A} r.
Arguments Thrown {A}.

Definition M (A : Type) : Type := World -> Outcome A * World.

Definition ret {A} (a : A) : M A := fun w => (Ret a, w).

Definition bind {A B} (m : M A) (k : A -> M B) : M B :=
  fun w =>
    match m w with
    | (Ret a, w') => k a w'
    | (Sent r, w') => (Sent r, w')
    | (Thrown, w') => (Thrown, w')
    end.

Definition throw {A} : M A := fun w => (Thrown, w).

(** [res.status(code).json(b)], which ends the handler. *)
Definition respond {A} (code : Z) (b : JVal) : M A :=
  fun w => (Sent {| status := code; body := wire b |}, w).

Definition when (c : bool) (m : M unit) : M unit :=
  if c then m else ret tt.

Definition print (l : Level) (text : string) : M unit :=
  fun w => (Ret tt, {| db := db w; journal := journal w;
                       console := console w ++ [(l, text)] |}).

(** [v.k], raising the TypeError of a member access on [undefined]. *)
Definition get (v : JVal) (k : string) : M JVal :=
  match prop v k with Some x => ret x | None => throw end.

Definition no_response : Response := {| status := 0; body := JUndefined |}.

(** [try { body } catch (error) { handler }] around a whole route. *)
Definition try_catch (body handler : M Empty_set) (w : World)
  : Response * World :=
  match body w with
  | (Sent r, w') => (r, w')
  | (Thrown, w') =>
      match handler w' with
      | (Sent r, w'') => (r, w'')
      | (_, w'') => (no_response, w'')
      end
  | (Ret e, _) => match e with end
  end.

Record Reply (D : Type) := { data : D; error : JVal }.
Arguments data {D} r.
Arguments error {D} r.

Definition failure (msg : jsstring) : JVal :=
  JObj [("message"%string, JStr msg)].

Section Calls.
Variable env : Env.

Definition call {A} (site : Site) (failed : jsstring -> A)
           (run : Store -> A * Store) : M A :=
  fun w =>
    match faults env site with
    | Some msg =>
        (Ret (failed msg),
         {| db := db w; journal := journal w ++ [(site, false)];
            console := console w |})
    | None =>
        let (a, s) := run (db w) in
        (Ret a, {| db := s; journal := journal w ++ [(site, true)];
                   console := console w |})
    end.

Definition stored (t : Table) (row : JVal) (s : Store) : JVal :=
  JObj (merge_fields (column_defaults t (now env) (next_id s))
                     (fields_of row)).

(** The store after [row] was added to table [t]. *)
Definition inserted (t : Table) (row : JVal) (s : Store) : Store :=
  bump_id (set_rows t (rows t s ++ [stored t row s]) s).

(** [.from(t).insert(row)] *)
Definition insert (site : Site) (t : Table) (row : JVal) : M JVal :=
  call site failure (fun s => (JNull, inserted t row s)).

(** [.from(t).insert(row).select().single()] *)
Definition insert_returning (site : Site) (t : Table) (row : JVal)
  : M (Reply JVal) :=
  call site (fun msg => {| data := JNull; error := failure msg |})
       (fun s => ({| data := stored t row s; error := JNull |},
                  inserted t row s)).

Definition conflicts (keys : list string) (new old : JVal) : bool :=
  forallb (fun k => sql_eq (oprop old k) (oprop new k)) keys.

(** The store after [row] was merged into the rows of [t] that agree with
    it on [keys], or added when there is none. *)
Definition upserted (t : Table) (keys : list string) (row : JVal)
           (s : Store) : Store :=
  let new := wire row in
  if existsb (conflicts keys new) (rows t s)
  then set_rows t (map (fun old => if conflicts keys new old
                                   then merge_row old row
                                   else old) (rows t s)) s
  else inserted t row s.

(** [.from(t).upsert(row, { onConflict: keys })] *)
Definition upsert (site : Site) (t : Table) (keys : list string)
           (row : JVal) : M JVal :=
  call site failure (fun s => (JNull, upserted t keys row s)).

(** The store after the rows of [t] selected by [sel] took [fields]. *)
Definition updated (t : Table) (sel : JVal -> bool) (fields : JVal)
           (s : Store) : Store :=
  set_rows t (map (fun old => if sel old then merge_row old fields
                              else old) (rows t s)) s.

(** [.from(t).update(fields).eq(...)] *)
Definition update (site : Site) (t : Table) (sel : JVal -> bool)
           (fields : JVal) : M JVal :=
  call site failure (fun s => (JNull, updated t sel fields s)).

(** [.from(t).select(cols).eq(...).single()]: an error unless exactly one
    row is selected. *)
Definition select_single (site : Site) (t : Table)
           (cols : option (list string)) (sel : JVal -> bool)
  : M (Reply JVal) :=
  call site (fun msg => {| data := JNull; error := failure msg |})
       (fun s =>
          match filter sel (rows t s) with
          | [row] => ({| data := project cols row; error := JNull |}, s)
          | _ => ({| data := JNull;
                     error := failure (str "no single row") |}, s)
          end).

(** [.from(t).select(cols).eq(...).limit(n)]; [None] is [data: null]. *)
Definition select_many (site : Site) (t : Table)
           (cols : option (list string)) (sel : JVal -> bool) (n : nat)
  : M (Reply (option (list JVal))) :=
  call site (fun msg => {| data := None; error := failure msg |})
       (fun s =>
          ({| data := Some (firstn n (map (project cols)
                                          (filter sel (rows t s))));
              error := JNull |}, s)).

End Calls.

End Db.

Declare Scope gw_scope.
Notation "x <- m ;; k" := (Db.bind m (fun x => k))
  (at level 61, m at next level, right associativity) : gw_scope.
Notation "m ;; k" := (Db.bind m (fun _ => k))
  (at level 61, right associativity) : gw_scope.
Notation "{{ x ; .. ; y }}" := (JS.JObj (cons x .. (cons y nil) ..))
  : gw_scope.
Notation "k =: v" := (pair k%string v)
  (at level 60, no associativity, only parsing) : gw_scope.

(* ================================================================== *)
(** * The V6.0 server *)

Module V60.
Import JS Db.
Local Open Scope gw_scope.
Local Open Scope string_scope.

(** [process.env.HMAC_KEY] *)
Record Config := { HMAC_KEY : option jsstring }.

Record Request := { params_deviceId : jsstring; req_body : JVal }.

Section Server.
Context {rt : Runtime}.
Variable cfg : Config.
Variable env : Env.

Definition key_set : bool :=
  match HMAC_KEY cfg with
  | Some (_ :: _) => true
  | _ => false
  end.

Definition key_units : jsstring :=
  match HMAC_KEY cfg with Some k => k | None => [] end.

(** One turn of either loop of [verifyHMAC]:
    [hash = ((hash << 5) + hash) + s.charCodeAt(i); hash = hash >>> 0]. *)
Definition djb2_step (hash c : Z) : Z :=
  let hash := (shl32 hash 5 + hash) + c in
  ushr0 hash.

Definition calculatedSignature (payload : JVal) : Z :=
  let payloadCopy := without "signature" payload in
  let dataString := JSON_stringify payloadCopy in
  let hash := 5381 in
  let hash := fold_left djb2_step dataString hash in
  let hash := fold_left djb2_step key_units hash in
  ushr0 hash.

Definition verifyHMAC (payload providedSignature : JVal) : M bool :=
  if negb key_set then
    print log_warn "[SECURITY] WARNING: HMAC_KEY not configured - skipping verification";;
    ret true
  else if negb (truthy providedSignature) then
    print log_warn "[SECURITY] No signature provided";;
    ret false
  else
    let matches :=
      strict_eq (jnum (calculatedSignature payload))
                (JNum (parseInt providedSignature)) in
    when (negb matches) (print log_warn "[SECURITY] Signature mismatch");;
    ret matches.

Definition statusUpdate (payload deviceId : JVal) : JVal :=
  let gps := oprop payload "gps" in
  let accel := oprop payload "accel" in
  let activity := oprop payload "activity" in
  let location := oprop payload "location" in
  let battery := oprop payload "battery" in
  let network := oprop payload "network" in
  let sleep := oprop payload "sleep" in
  let walk := oprop payload "walk" in
  let scratch := oprop payload "scratch" in
  let health := oprop payload "health" in
  {{ "device_id" =: deviceId;
     "latitude" =: jor (oprop gps "lat") JNull;
     "longitude" =: jor (oprop gps "lon") JNull;
     "altitude" =: jor (oprop gps "alt") JNull;
     "speed" =: jor (oprop gps "speed") JNull;
     "hdop" =: jor (oprop gps "hdop") JNull;
     "satellites" =: jor (oprop gps "satellites") (jnum 0);
     "gps_valid" =: jor (oprop gps "valid") (JBool false);
     "accel_x" =: jor (oprop accel "x") JNull;
     "accel_y" =: jor (oprop accel "y") JNull;
     "accel_z" =: jor (oprop accel "z") JNull;
     "accel_magnitude" =: jor (oprop accel "magnitude") JNull;
     "accel_variance" =: jor (oprop accel "variance") JNull;
     "activity_class" =: jcoalesce (oprop activity "class") (jnum 0);
     "activity_name" =: jor (oprop activity "name") (jstr "unknown");
     "session_steps" =: jor (oprop activity "session_steps") (jnum 0);
     "today_steps" =: jor (oprop activity "today_steps") (jnum 0);
     "is_home" =: jcoalesce (oprop location "is_home") (JBool true);
     "is_escaped" =: jcoalesce (oprop location "is_escaped") (JBool false);
     "distance_from_home" =: jor (oprop location "distance_home") JNull;
     "battery_voltage" =: jor (oprop battery "voltage") JNull;
     "battery_percent" =: jor (oprop battery "percent") JNull;
     "signal_strength" =: jor (oprop network "signal") JNull;
     "network_operator" =: jor (oprop network "operator") JNull;
     "sleep_active" =: jor (oprop sleep "active") (JBool false);
     "sleep_quality" =: jor (oprop sleep "quality") JNull;
     "respiratory_rate" =: jor (oprop sleep "respiratory_rate") JNull;
     "restless_count" =: jor (oprop sleep "restless_count") (jnum 0);
     "walk_active" =: jor (oprop walk "active") (JBool false);
     "walk_duration" =: jor (oprop walk "duration") (jnum 0);
     "walk_distance" =: jor (oprop walk "distance") (jnum 0);
     "walk_stops" =: jor (oprop walk "stops") (jnum 0);
     "scratch_detected" =: jor (oprop scratch "detected") (JBool false);
     "today_scratch_count" =: jor (oprop scratch "today_count") (jnum 0);
     "anomaly_detected" =: jor (oprop health "anomaly") (JBool false);
     "anomaly_type" =: jor (oprop health "anomaly_type") JNull;
     "activity_deviation" =: jor (oprop health "deviation") JNull;
     "boot_count" =: jor (oprop payload "boot_count") (jnum 0);
     "firmware_version" =: jor (oprop payload "firmware") JNull;
     "last_seen_at" =: JTime (now env);
     "updated_at" =: JTime (now env) }}.

(** Update device status (upsert) *)
Definition update_status (payload deviceId : JVal) : M unit :=
  statusError <- upsert env status_upsert device_status ["device_id"]
                        (statusUpdate payload deviceId);;
  when (truthy statusError)
       (print log_error "[TELEMETRY] Status update error:").

Definition gps_fix (payload : JVal) : bool :=
  let gps := oprop payload "gps" in
  truthy (oprop gps "valid") && truthy (oprop gps "lat")
  && truthy (oprop gps "lon").

Definition locationRecord (payload deviceId : JVal) : JVal :=
  let gps := oprop payload "gps" in
  {{ "device_id" =: deviceId;
     "latitude" =: oprop gps "lat";
     "longitude" =: oprop gps "lon";
     "altitude" =: oprop gps "alt";
     "speed" =: oprop gps "speed";
     "hdop" =: oprop gps "hdop";
     "satellites" =: oprop gps "satellites";
     "activity_class" =: oprop (oprop payload "activity") "class";
     "is_home" =: oprop (oprop payload "location") "is_home";
     "is_escaped" =: oprop (oprop payload "location") "is_escaped" }}.

(** Insert location record if GPS valid *)
Definition insert_location (payload deviceId : JVal) : M unit :=
  when (gps_fix payload)
       (locationError <- insert env location_insert locations
                                (locationRecord payload deviceId);;
        when (truthy locationError)
             (print log_error "[TELEMETRY] Location insert error:")).

(** Record scratch event if detected *)
Definition record_scratch (payload deviceId : JVal) : M unit :=
  let scratch := oprop payload "scratch" in
  when (truthy (oprop scratch "detected"))
       (scratchError <- insert env scratch_insert scratch_events
          {{ "device_id" =: deviceId;
             "frequency_hz" =: oprop scratch "frequency";
             "confidence" =: oprop scratch "confidence";
             "latitude" =: oprop (oprop payload "gps") "lat";
             "longitude" =: oprop (oprop payload "gps") "lon" }};;
        when (truthy scratchError)
             (print log_error "[TELEMETRY] Scratch insert error:");;
        let today := JDay (day_of (now env)) in
        upsert env scratch_daily_upsert scratch_daily ["device_id"; "date"]
          {{ "device_id" =: deviceId;
             "date" =: today;
             "total_count" =: oprop scratch "today_count";
             "max_frequency" =: oprop scratch "frequency" }};;
        ret tt).

(** The rows the de-duplication query selects. *)
Definition logged_today (deviceId anomaly_type today : JVal) (row : JVal)
  : bool :=
  sql_eq (oprop row "device_id") deviceId
  && sql_eq (oprop row "anomaly_type") anomaly_type
  && sql_gte (oprop row "detected_at") today.

(** Record anomaly if detected *)
Definition record_anomaly (payload deviceId : JVal) : M unit :=
  let health := oprop payload "health" in
  when (truthy (oprop health "anomaly"))
       (let today := JDay (day_of (now env)) in
        r <- select_many env anomaly_select anomaly_log (Some ["id"])
               (logged_today deviceId (oprop health "anomaly_type") today)
               1;;
        let existing := data r in
        when (match existing with
              | None => true
              | Some l => Z.eqb (Z.of_nat (List.length l)) 0
              end)
             (insert env anomaly_insert anomaly_log
                {{ "device_id" =: deviceId;
                   "anomaly_type" =: oprop health "anomaly_type";
                   "deviation_percent" =: oprop health "deviation" }};;
              ret tt)).

Definition internal_error (tag : string) : M Empty_set :=
  print log_error tag;;
  respond 500 {{ "error" =: jstr "Internal server error" }}.

(** [app.post('/telemetry', ...)].  After the first member access the
    payload is neither [undefined] nor [null], and the plain member
    accesses further down are guarded by the optional chains tested just
    before them, so that none of them can raise. *)
Definition telemetry_body (body : JVal) : M Empty_set :=
  let payload := body in
  device_id <- get payload "device_id";;
  if negb (truthy device_id) then
    respond 400 {{ "error" =: jstr "Missing device_id" }}
  else
    ok <- verifyHMAC payload (oprop payload "signature");;
    if negb ok then
      print log_warn "[TELEMETRY] Invalid signature";;
      respond 401 {{ "error" =: jstr "Invalid signature" }}
    else
      let deviceId := device_id in
      print log_info "[TELEMETRY] Valid payload";;
      update_status payload deviceId;;
      insert_location payload deviceId;;
      record_scratch payload deviceId;;
      record_anomaly payload deviceId;;
      respond 200 {{ "status" =: jstr "ok";
                     "device_id" =: deviceId;
                     "timestamp" =: JTime (now env) }}.

Definition telemetry (body : JVal) (w : World) : Response * World :=
  try_catch (telemetry_body body) (internal_error "[TELEMETRY] Error:") w.

(** Calculate grade: the penalty score ... *)
Definition gradeScore_of (duration distance stops : JVal) : number :=
  let gradeScore := num 100 in
  let gradeScore := nsub gradeScore (nmul (ToNumber stops) (num 5)) in
  let gradeScore :=
    if nlt (ToNumber duration) (num 900) then nsub gradeScore (num 20)
    else gradeScore in
  let gradeScore :=
    if nlt (ToNumber distance) (num 500) then nsub gradeScore (num 15)
    else gradeScore in
  Math_max (num 0) (Math_min (num 100) gradeScore).

(** ... and its letter. *)
Definition grade_of (gradeScore : number) : string :=
  let grade := "A" in
  let grade := if nlt gradeScore (num 90) then "B" else grade in
  let grade := if nlt gradeScore (num 70) then "C" else grade in
  let grade := if nlt gradeScore (num 50) then "F" else grade in
  grade.

Definition sessionUpdate (status duration distance stops : JVal)
           (grade : string) (gradeScore : number) : JVal :=
  {{ "ended_at" =: JTime (now env);
     "duration_seconds" =: duration;
     "distance_meters" =: distance;
     "end_lat" =: oprop status "latitude";
     "end_lon" =: oprop status "longitude";
     "stop_count" =: stops;
     "grade" =: jstr grade;
     "grade_score" =: JNum gradeScore }}.

Definition walk_end_body (req : Request) : M Empty_set :=
  let deviceId := JStr (params_deviceId req) in
  walk_id <- get (req_body req) "walk_id";;
  s <- select_single env status_select device_status
         (Some ["latitude"; "longitude"; "walk_duration"; "walk_distance";
                "walk_stops"])
         (fun row => sql_eq (oprop row "device_id") deviceId);;
  let status := data s in
  r <- select_single env walk_select walk_sessions None
         (fun row => sql_eq (oprop row "id") walk_id);;
  let walk := data r in
  if negb (truthy walk) then
    respond 404 {{ "error" =: jstr "Walk session not found" }}
  else
    let duration := jor (oprop status "walk_duration") (jnum 0) in
    let distance := jor (oprop status "walk_distance") (jnum 0) in
    let stops := jor (oprop status "walk_stops") (jnum 0) in
    let gradeScore := gradeScore_of duration distance stops in
    let grade := grade_of gradeScore in
    error <- update env walk_update walk_sessions
               (fun row => sql_eq (oprop row "id") walk_id)
               (sessionUpdate status duration distance stops grade
                              gradeScore);;
    if truthy error then
      respond 500 {{ "error" =: oprop error "message" }}
    else
      respond 200
        {{ "status" =: jstr "ok";
           "walk_id" =: walk_id;
           "grade" =: jstr grade;
           "grade_score" =: JNum gradeScore;
           "duration_minutes" =:
             JNum (Math_round (ndiv (ToNumber duration) (num 60)));
           "distance_meters" =: JNum (Math_round (ToNumber distance)) }}.

Definition walk_end (req : Request) (w : World) : Response * World :=
  try_catch (walk_end_body req) (internal_error "[WALK END] Error:") w.

End Server.

End V60.

(* ================================================================== *)
(** * The V6.1 server *)

Module V61.
Import JS Db.
Local Open Scope gw_scope.
Local Open Scope string_scope.

(** [process.env.HMAC_KEY], and whether the store client could be created
    ([SUPABASE_URL] and [SUPABASE_SERVICE_KEY] both set). *)
Record Config := { env_HMAC_KEY : option jsstring; supabase : bool }.

Record Request := { params_deviceId : jsstring; req_body : JVal }.

(** [z.toString(16).padStart(8, '0')] for [0 <= z < 2^32]: the eight
    hexadecimal digits of [z], lower case. *)
Definition hex_digit (d : Z) : Z :=
  if Z.ltb d 10 then 48 + d else 87 + d.

Definition hex8 (z : Z) : jsstring :=
  map (fun i => hex_digit (Z.modulo (Z.div z (Z.pow 16 i)) 16))
      [7; 6; 5; 4; 3; 2; 1; 0]%Z.

(** [labels.join(', ')] *)
Fixpoint join (labels : list jsstring) : jsstring :=
  match labels with
  | [] => []
  | [l] => l
  | l :: rest => (l ++ str ", " ++ join rest)%list
  end.

Section Server.
Context {rt : Runtime}.
Variable cfg : Config.
Variable env : Env.

(** [const hmacKey = process.env.HMAC_KEY || ''] *)
Definition hmacKey : jsstring :=
  match env_HMAC_KEY cfg with Some k => k | None => [] end.

Definition key_set : bool :=
  match hmacKey with [] => false | _ => true end.

Definition message (data : JVal) : jsstring :=
  (ToString (oprop data "device_id") ++ str ":"
   ++ ToString (oprop data "timestamp") ++ str ":"
   ++ ToString (oprop data "boot_count"))%list.

(** One turn of the loop of [verifyHMAC]:
    [hash = ((hash << 5) + hash) + combined.charCodeAt(i);
     hash = hash & 0xFFFFFFFF]. *)
Definition djb2_step (hash c : Z) : Z :=
  let hash := (shl32 hash 5 + hash) + c in
  and32 hash 4294967295.

Definition checksum (data : JVal) : Z :=
  let hash := 5381%Z in
  let combined := (message data ++ hmacKey)%list in
  let hash := fold_left djb2_step combined hash in
  ushr0 hash.

Definition verifyHMAC (data providedSignature : JVal) : bool :=
  if negb key_set then true
  else
    let expected := hex8 (checksum data) in
    strict_eq (JStr expected) providedSignature.

Definition statusUpdate (data : JVal) : JVal :=
  {{ "device_id" =: oprop data "device_id";
     "latitude" =: oprop data "latitude";
     "longitude" =: oprop data "longitude";
     "altitude" =: oprop data "altitude";
     "speed" =: oprop data "speed";
     "hdop" =: oprop data "hdop";
     "satellites" =: oprop data "satellites";
     "gps_valid" =: oprop data "gps_valid";
     "accel_x" =: oprop data "accel_x";
     "accel_y" =: oprop data "accel_y";
     "accel_z" =: oprop data "accel_z";
     "accel_magnitude" =: oprop data "accel_magnitude";
     "accel_variance" =: oprop data "accel_variance";
     "activity_class" =: oprop data "activity_class";
     "activity_name" =: oprop data "activity_name";
     "session_steps" =: oprop data "session_steps";
     "today_steps" =: oprop data "today_steps";
     "is_home" =: oprop data "is_home";
     "is_escaped" =: oprop data "is_escaped";
     "distance_from_home" =: oprop data "distance_from_home";
     "battery_voltage" =: oprop data "battery_voltage";
     "battery_percent" =: oprop data "battery_percent";
     "signal_strength" =: oprop data "signal_strength";
     "network_operator" =: oprop data "network_operator";
     "sleep_active" =: oprop data "sleep_active";
     "sleep_quality" =: oprop data "sleep_quality";
     "respiratory_rate" =: oprop data "respiratory_rate";
     "restless_count" =: oprop data "restless_count";
     "walk_active" =: oprop data "walk_active";
     "walk_duration" =: oprop data "walk_duration";
     "walk_distance" =: oprop data "walk_distance";
     "walk_stops" =: oprop data "walk_stops";
     "walk_verification_status" =:
       jor (oprop data "walk_verification_status") (jstr "not_walking");
     "walk_quality_score" =: jor (oprop data "walk_quality_score") (jnum 0);
     "carried_seconds" =: jor (oprop data "carried_seconds") (jnum 0);
     "vehicle_seconds" =: jor (oprop data "vehicle_seconds") (jnum 0);
     "actual_walk_seconds" =:
       jor (oprop data "actual_walk_seconds") (jnum 0);
     "cheat_flags" =: jor (oprop data "cheat_flags") (jnum 0);
     "scratch_detected" =: oprop data "scratch_detected";
     "today_scratch_count" =: oprop data "today_scratch_count";
     "anomaly_detected" =: oprop data "anomaly_detected";
     "anomaly_type" =: oprop data "anomaly_type";
     "boot_count" =: oprop data "boot_count";
     "firmware_version" =: oprop data "firmware_version";
     "last_seen_at" =: JTime (now env) }}.

(** Upsert device status with anti-cheat fields *)
Definition update_status (data : JVal) : M unit :=
  statusError <- upsert env status_upsert device_status ["device_id"]
                        (statusUpdate data);;
  when (truthy statusError) (print log_error "Status upsert error:").

Definition gps_fix (data : JVal) : bool :=
  truthy (oprop data "gps_valid") && truthy (oprop data "latitude")
  && truthy (oprop data "longitude").

Definition locationRecord (data : JVal) : JVal :=
  {{ "device_id" =: oprop data "device_id";
     "latitude" =: oprop data "latitude";
     "longitude" =: oprop data "longitude";
     "altitude" =: oprop data "altitude";
     "speed" =: oprop data "speed";
     "hdop" =: oprop data "hdop";
     "satellites" =: oprop data "satellites";
     "activity_class" =: oprop data "activity_class";
     "is_home" =: oprop data "is_home";
     "is_escaped" =: oprop data "is_escaped" }}.

(** Insert location if GPS valid *)
Definition insert_location (data : JVal) : M unit :=
  when (gps_fix data)
       (insert env location_insert locations (locationRecord data);;
        ret tt).

(** Insert scratch event if detected *)
Definition insert_scratch (data : JVal) : M unit :=
  when (truthy (oprop data "scratch_detected"))
       (insert env scratch_insert scratch_events
          {{ "device_id" =: oprop data "device_id";
             "intensity" =: jor (oprop data "scratch_intensity") (jnum 1);
             "duration_ms" =:
               jor (oprop data "scratch_duration") (jnum 500) }};;
        ret tt).

(** Insert anomaly if detected *)
Definition insert_anomaly (data : JVal) : M unit :=
  when (truthy (oprop data "anomaly_detected")
        && truthy (oprop data "anomaly_type"))
       (insert env anomaly_insert anomaly_log
          {{ "device_id" =: oprop data "device_id";
             "anomaly_type" =: oprop data "anomaly_type";
             "severity" =: jor (oprop data "anomaly_severity")
                               (jstr "medium");
             "details" =:
               {{ "deviation" =: oprop data "activity_deviation" }} }};;
        ret tt).

Definition internal_error (tag : string) : M Empty_set :=
  print log_error tag;;
  respond 500 {{ "error" =: jstr "Internal server error" }}.

(** [app.post('/telemetry', ...)] *)
Definition telemetry_body (body : JVal) : M Empty_set :=
  let data := body in
  if negb (truthy data) || negb (truthy (oprop data "device_id")) then
    respond 400 {{ "error" =: jstr "Missing device_id" }}
  else
    (* Verify HMAC *)
    (if key_set && truthy (oprop data "signature") then
       if negb (verifyHMAC data (oprop data "signature")) then
         print log_info "HMAC verification failed";;
         respond 401 {{ "error" =: jstr "Invalid signature" }}
       else ret tt
     else ret tt);;
    if negb (supabase cfg) then
      respond 500 {{ "error" =: jstr "Database not configured" }}
    else
      update_status data;;
      insert_location data;;
      insert_scratch data;;
      insert_anomaly data;;
      respond 200 {{ "status" =: jstr "ok";
                     "received" =: JTime (now env) }}.

Definition telemetry (body : JVal) (w : World) : Response * World :=
  try_catch (telemetry_body body) (internal_error "Telemetry error:") w.

(** Calculate grade based on quality score *)
Definition grade_of (score : JVal) : string :=
  if nge (ToNumber score) (num 90) then "A"
  else if nge (ToNumber score) (num 70) then "B"
  else if nge (ToNumber score) (num 50) then "C"
  else "F".

(** Calculate carried percentage *)
Definition totalSeconds_of (walkData : JVal) : JVal :=
  jor (oprop walkData "duration_seconds") (jnum 1).

Definition carriedPercent_of (walkData : JVal) : number :=
  nmul (ndiv (ToNumber (jor (oprop walkData "carried_seconds") (jnum 0)))
             (ToNumber (totalSeconds_of walkData)))
       (num 100).

Definition actualWalkPercent_of (walkData : JVal) : number :=
  nmul (ndiv (ToNumber (jor (oprop walkData "actual_walk_seconds")
                            (jnum 0)))
             (ToNumber (totalSeconds_of walkData)))
       (num 100).

(** [flags & mask] *)
Definition flag_bits (flags : JVal) (mask : Z) : Z :=
  and32 (trunc (ToNumber flags)) mask.

(** Build cheat summary *)
Definition cheatSummary_of (flags : JVal) : list jsstring :=
  ((if Z.eqb (flag_bits flags 1) 0 then [] else [str "carrying_detected"])
   ++ (if Z.eqb (flag_bits flags 2) 0 then []
       else [str "vehicle_detected"])
   ++ (if Z.eqb (flag_bits flags 4) 0 then [] else [str "excessive_stops"])
   ++ (if Z.eqb (flag_bits flags 8) 0 then [] else [str "leash_only"]))%list.

(** [new Date(n).toISOString()], which raises a RangeError outside the
    range of dates. *)
Definition Date_toISOString (n : number) : M JVal :=
  match n with
  | Fin q =>
      let t := trunc n in
      if Z.leb (Z.abs t) 8640000000000000 then ret (JTime t) else throw
  | _ => throw
  end.

Definition walk_end_body (req : Request) : M Empty_set :=
  if negb (supabase cfg) then
    respond 500 {{ "error" =: jstr "Database not configured" }}
  else
    let deviceId := JStr (params_deviceId req) in
    let walkData := req_body req in
    score <- (q <- get walkData "quality_score";; ret (jor q (jnum 0)));;
    let grade := grade_of score in
    let carriedPercent := carriedPercent_of walkData in
    let actualWalkPercent := actualWalkPercent_of walkData in
    let flags := jor (oprop walkData "cheat_flags") (jnum 0) in
    let cheatSummary := cheatSummary_of flags in
    started_at <-
      (if truthy (oprop walkData "started_at")
       then ret (oprop walkData "started_at")
       else Date_toISOString
              (nsub (num (now env))
                    (nmul (ToNumber (oprop walkData "duration_seconds"))
                          (num 1000))));;
    r <- insert_returning env walk_insert walk_sessions
           {{ "device_id" =: deviceId;
              "started_at" =: started_at;
              "ended_at" =: JTime (now env);
              "duration_seconds" =: oprop walkData "duration_seconds";
              "distance_meters" =: oprop walkData "distance_meters";
              "stop_count" =: oprop walkData "stop_count";
              "grade" =: jstr grade;
              "grade_score" =: score;
              "verification_status" =:
                jor (oprop walkData "verification_status") (jstr "pending");
              "quality_score" =: score;
              "carried_seconds" =:
                jor (oprop walkData "carried_seconds") (jnum 0);
              "carried_percent" =: JNum carriedPercent;
              "vehicle_seconds" =:
                jor (oprop walkData "vehicle_seconds") (jnum 0);
              "vehicle_detected" =:
                JBool (negb (Z.eqb (flag_bits flags 2) 0));
              "actual_walk_seconds" =:
                jor (oprop walkData "actual_walk_seconds") (jnum 0);
              "actual_walk_percent" =: JNum actualWalkPercent;
              "cheat_flags" =: flags;
              "cheat_summary" =: jor (JStr (join cheatSummary)) JNull }};;
    if truthy (error r) then
      print log_error "Walk session error:";;
      respond 500 {{ "error" =: oprop (error r) "message" }}
    else
      respond 200 {{ "status" =: jstr "ok";
                     "walk" =: data r;
                     "grade" =: jstr grade }}.

Definition walk_end (req : Request) (w : World) : Response * World :=
  try_catch (walk_end_body req) (internal_error "Walk end error:") w.

End Server.

End V61.

(* ================================================================== *)
(** * The specification's formulas, as the specification words them *)

Module Spec.
Import JS.

(** [hash_0 = 5381; hash_i = ((hash_(i-1) << 5) + hash_(i-1) + byte_i)
    mod 2^32], over the message followed by the key. *)
Definition djb2_step (hash byte : Z) : Z :=
  (Z.shiftl hash 5 + hash + byte) mod 2 ^ 32.

Definition djb2 (message key : jsstring) : Z :=
  fold_left djb2_step (message ++ key) 5381.

Definition indicator (b : bool) : Q := if b then 1%Q else 0%Q.

Definition clamp (x lo hi : Q) : Q := Qmax lo (Qmin hi x).

(** [clamp(100 - 5*stopCount - 20*[duration<900] - 15*[distance<500],
    0, 100)] *)
Definition penalty_score (duration distance stopCount : Q) : Q :=
  clamp (100 - 5 * stopCount
         - 20 * indicator (negb (Qle_bool 900 duration))
         - 15 * indicator (negb (Qle_bool 500 distance)))%Q 0%Q 100%Q.

(** [100 * part / max(1, totalDurationSeconds)] *)
Definition percent (part total : Q) : Q :=
  (100 * part / Qmax 1 total)%Q.

(** The same with the server's [total || 1] in place of [max(1, total)]. *)
Definition or_one (total : Q) : Q :=
  if Qeq_bool total 0 then 1%Q else total.

Definition percent_or_one (part total : Q) : Q :=
  (100 * part / or_one total)%Q.

End Spec.

(* ================================================================== *)
(** * Concrete configurations, payloads and stores *)

Module Samples.
Import JS Db.
Local Open Scope gw_scope.
Local Open Scope string_scope.

Definition unstr (s : jsstring) : string :=
  string_of_list_ascii (map (fun c => ascii_of_nat (Z.to_nat c)) s).

Definition decimal (z : Z) : jsstring :=
  str (NilZero.string_of_int (Z.to_int z)).

Definition parse_decimal (s : jsstring) : number :=
  match s with
  | [] => NaN
  | _ => match NilZero.int_of_string (unstr s) with
         | Some i => num (Z.of_int i)
         | None => NaN
         end
  end.

Definition print_number (n : number) : jsstring :=
  match n with
  | Fin q =>
      match Qden q with
      | 1%positive => decimal (Qnum q)
      | d => (decimal (Qnum q) ++ str "/" ++ decimal (Zpos d))%list
      end
  | NaN => str "NaN"
  | PInf => str "Infinity"
  | NInf => str "-Infinity"
  end.

Definition quote (s : jsstring) : jsstring := ([34%Z] ++ s ++ [34%Z])%list.

Fixpoint print_json (v : JVal) : jsstring :=
  match v with
  | JUndefined | JNull => str "null"
  | JBool true => str "true"
  | JBool false => str "false"
  | JNum n => print_number n
  | JStr s => quote s
  | JTime t => quote (decimal t)
  | JDay d => quote (decimal d)
  | JObj fs =>
      (str "{"
       ++ (fix go (l : list (string * JVal)) : jsstring :=
             match l with
             | [] => []
             | (k, x) :: l' =>
                 quote (str k) ++ str ":" ++ print_json x
                 ++ match l' with [] => [] | _ => str "," end ++ go l'
             end) fs
       ++ str "}")%list
  end.

(** A runtime for the closed examples: exact on the strings, integers and
    objects that they use. *)
Definition rt0 : Runtime :=
  {| JSON_stringify := fun v => print_json (wire v);
     ToString := fun v =>
       match v with
       | JStr s => s
       | JNum n => print_number n
       | JUndefined => str "undefined"
       | JNull => str "null"
       | JBool true => str "true"
       | JBool false => str "false"
       | JTime t => decimal t
       | JDay d => decimal d
       | JObj _ => str "[object Object]"
       end;
     parseInt := fun v =>
       match v with
       | JNum (Fin q) => num (trunc (Fin q))
       | JStr s => parse_decimal s
       | _ => NaN
       end;
     StringToNumber := fun s =>
       match s with [] => Fin 0 | _ => parse_decimal s end |}.

Definition quiet (t : Z) : Env := {| now := t; faults := no_faults |}.

Definition failing (site : Site) (t : Z) : Env :=
  {| now := t;
     faults := fun s => if Site_eqb s site then Some (str "store error")
                        else None |}.

(** 2026-01-01T08:00:00Z, two hours later, and the same hour a day later. *)
Definition morning : Z := 1767254400000.
Definition later_that_day : Z := 1767261600000.
Definition next_morning : Z := 1767340800000.

Definition keyed60 : V60.Config := {| V60.HMAC_KEY := Some (str "secret") |}.
Definition open60 : V60.Config := {| V60.HMAC_KEY := None |}.
Definition keyed61 : V61.Config :=
  {| V61.env_HMAC_KEY := Some (str "secret"); V61.supabase := true |}.
Definition open61 : V61.Config :=
  {| V61.env_HMAC_KEY := None; V61.supabase := true |}.

(** An unsigned V6.0 report with a fix and an anomaly. *)
Definition report60 : JVal :=
  {{ "device_id" =: jstr "collar-1";
     "gps" =: {{ "lat" =: JNum (Fin (286139 # 10000));
                 "lon" =: JNum (Fin (772090 # 10000));
                 "valid" =: JBool true }};
     "health" =: {{ "anomaly" =: JBool true;
                    "anomaly_type" =: jstr "low_activity";
                    "deviation" =: jnum 40 }};
     "boot_count" =: jnum 3 }}.

(** The same report taken on the equator. *)
Definition equator60 : JVal :=
  {{ "device_id" =: jstr "collar-1";
     "gps" =: {{ "lat" =: jnum 0;
                 "lon" =: JNum (Fin (772090 # 10000));
                 "valid" =: JBool true }};
     "boot_count" =: jnum 3 }}.

(** An unsigned V6.1 report with an anomaly, and one on the equator. *)
Definition report61 : JVal :=
  {{ "device_id" =: jstr "collar-1";
     "timestamp" =: jnum 1767254400;
     "boot_count" =: jnum 3;
     "latitude" =: JNum (Fin (286139 # 10000));
     "longitude" =: JNum (Fin (772090 # 10000));
     "gps_valid" =: JBool true;
     "anomaly_detected" =: JBool true;
     "anomaly_type" =: jstr "low_activity" }}.

Definition equator61 : JVal :=
  {{ "device_id" =: jstr "collar-1";
     "latitude" =: jnum 0;
     "longitude" =: JNum (Fin (772090 # 10000));
     "gps_valid" =: JBool true }}.

(** A store holding one device and one walk session, open or ended. *)
Definition status_row : JVal :=
  {{ "device_id" =: jstr "collar-1";
     "latitude" =: JNum (Fin (286139 # 10000));
     "longitude" =: JNum (Fin (772090 # 10000));
     "walk_duration" =: jnum 800;
     "walk_distance" =: jnum 600;
     "walk_stops" =: jnum 2 }}.

Definition ended_walk : JVal :=
  {{ "id" =: jnum 7;
     "device_id" =: jstr "collar-1";
     "started_at" =: JTime 1767250000000;
     "ended_at" =: JTime morning;
     "grade" =: jstr "A";
     "grade_score" =: jnum 100 }}.

Definition store_with_walk : Store :=
  {| tbl_device_status := [status_row]; tbl_locations := [];
     tbl_scratch_events := []; tbl_scratch_daily := [];
     tbl_anomaly_log := []; tbl_walk_sessions := [ended_walk];
     next_id := 8 |}.

Definition end_walk60 (id : Z) : V60.Request :=
  {| V60.params_deviceId := str "collar-1";
     V60.req_body := {{ "walk_id" =: jnum id }} |}.

(** The walk-end reports of the V6.1 format: one that names a walk, one
    of zero seconds with thirty seconds carried, one of half a second. *)
Definition walk_report : JVal :=
  {{ "walk_id" =: jnum 9;
     "duration_seconds" =: jnum 800;
     "distance_meters" =: jnum 600;
     "stop_count" =: jnum 2;
     "quality_score" =: jnum 70 }}.

Definition zero_second_walk : JVal :=
  {{ "duration_seconds" =: jnum 0;
     "carried_seconds" =: jnum 30;
     "actual_walk_seconds" =: jnum 0 }}.

Definition half_second_walk : JVal :=
  {{ "duration_seconds" =: JNum (Fin (1 # 2));
     "carried_seconds" =: jnum 30;
     "actual_walk_seconds" =: jnum 0 }}.

Definition end_walk61 (walkData : JVal) : V61.Request :=
  {| V61.params_deviceId := str "collar-1"; V61.req_body := walkData |}.

End Samples.

(* ================================================================== *)
(** * The notions the properties are stated with *)

Module Props.
Import JS Db.

(** A computation that neither responds nor raises. *)
Definition returns {A} (m : M A) : Prop :=
  forall w, exists a, fst (m w) = Ret a.

(** A relation that holds between the world before and the world after. *)
Definition keeps {A} (R : World -> World -> Prop) (m : M A) : Prop :=
  forall w, R w (snd (m w)).

Definition same_table (t : Table) (w w' : World) : Prop :=
  rows t (db w') = rows t (db w).

Definition same_db (w w' : World) : Prop := db w' = db w.

(** The calls journalled between [w] and [w'] all satisfy [P]. *)
Definition journal_adds (P : Site * bool -> Prop) (w w' : World) : Prop :=
  exists j, journal w' = journal w ++ j /\ Forall P j.

(** A report that passes the device id check and the signature check of
    the V6.0 server. *)
Definition accepted60 {rt : Runtime} (cfg : V60.Config) (body : JVal)
  : Prop :=
  truthy (oprop body "device_id") = true
  /\ forall w, fst (V60.verifyHMAC cfg body (oprop body "signature") w)
               = Ret true.

(** A report that passes the device id check of the V6.1 server and, when a
    key is set and the report is signed, its signature check, the store
    being configured. *)
Definition accepted61 {rt : Runtime} (cfg : V61.Config) (body : JVal)
  : Prop :=
  truthy (oprop body "device_id") = true
  /\ (V61.key_set cfg && truthy (oprop body "signature") = true ->
      V61.verifyHMAC cfg body (oprop body "signature") = true)
  /\ V61.supabase cfg = true.

(** The world in which the V6.0 server starts to persist an accepted
    report: the verifier and the handler have written to the console. *)
Definition persisting60 {rt : Runtime} (cfg : V60.Config) (body : JVal)
           (w : World) : World :=
  snd (Db.bind (V60.verifyHMAC cfg body (oprop body "signature"))
               (fun _ => print log_info "[TELEMETRY] Valid payload") w).

(** The calls a handler run from [w] has added to the journal. *)
Definition calls_since (w w' : World) : list (Site * bool) :=
  skipn (List.length (journal w)) (journal w').

Definition called (site : Site) (j : list (Site * bool)) : Prop :=
  In site (map fst j).

Definition succeeds (env : Env) (site : Site) : bool :=
  match faults env site with None => true | Some _ => false end.

(** No string occurs twice. *)
Fixpoint distinct (l : list string) : bool :=
  match l with
  | [] => true
  | k :: l' => negb (existsb (String.eqb k) l') && distinct l'
  end.

(** A report of the V6.0 format that is accepted and flags an anomaly of
    type [t] for the device [d]. *)
Definition flags60 {rt : Runtime} (cfg : V60.Config) (body : JVal)
           (d t : jsstring) : Prop :=
  accepted60 cfg body
  /\ oprop body "device_id" = JStr d
  /\ truthy (oprop (oprop body "health") "anomaly") = true
  /\ oprop (oprop body "health") "anomaly_type" = JStr t.

(** An anomaly entry of type [t] for the device [d], recorded at [at_]. *)
Definition entry (e : JVal) (d t : jsstring) (at_ : Z) : Prop :=
  oprop e "device_id" = JStr d
  /\ oprop e "anomaly_type" = JStr t
  /\ oprop e "detected_at" = JTime at_.

(** Two anomaly entries for the same device, of the same type, recorded on
    the same calendar day. *)
Definition same_slot (x y : JVal) : bool :=
  sql_eq (oprop x "device_id") (oprop y "device_id")
  && sql_eq (oprop x "anomaly_type") (oprop y "anomaly_type")
  && match oprop x "detected_at", oprop y "detected_at" with
     | JTime a, JTime b => day_of a =? day_of b
     | _, _ => false
     end.

(** At most one anomaly entry per device, type and calendar day. *)
Definition deduplicated (log : list JVal) : Prop :=
  ForallOrdPairs (fun x y => same_slot x y = false) log.

(** What the V6.0 walk-end handler reads of the device: the row of the
    status query, or [null]. *)
Definition snapshot (env : Env) (deviceId : jsstring) (s : Store) : JVal :=
  match faults env status_select with
  | Some _ => JNull
  | None =>
      match filter (fun row => sql_eq (oprop row "device_id") (JStr deviceId))
                   (rows device_status s) with
      | [row] =>
          project (Some ["latitude"; "longitude"; "walk_duration";
                         "walk_distance"; "walk_stops"]%string) row
      | _ => JNull
      end
  end.

End Props.

(* ================================================================== *)
(** * The other routes of the V6.0 server *)

Module Routes60.
Import JS Db.
Local Open Scope gw_scope.
Local Open Scope string_scope.

Section Server.
Context {rt : Runtime}.
Variable cfg : V60.Config.
Variable env : Env.

(** [app.get('/health', ...)].  A server that runs has [SUPABASE_URL] set:
    the process exits at start otherwise. *)
Definition health : Response :=
  {| status := 200;
     body := wire {{ "status" =: jstr "ok";
                     "service" =: jstr "Popcorn GPS Collar Gateway";
                     "version" =: jstr "6.0.0";
                     "timestamp" =: JTime (now env);
                     "supabase" =: jstr "configured";
                     "hmac" =: if V60.key_set cfg then jstr "configured"
                               else jstr "disabled" }} |}.

(** [app.get('/device/:deviceId/status', ...)] *)
Definition device_status_body (deviceId : jsstring) : M Empty_set :=
  r <- select_single env status_select device_status None
         (fun row => sql_eq (oprop row "device_id") (JStr deviceId));;
  if truthy (error r) || negb (truthy (data r)) then
    respond 404 {{ "error" =: jstr "Device not found" }}
  else
    respond 200 (data r).

Definition device_status_route (deviceId : jsstring) (w : World)
  : Response * World :=
  try_catch (device_status_body deviceId)
            (V60.internal_error "[STATUS] Error:") w.

(** [app.post('/device/:deviceId/walk/start', ...)] *)
Definition walk_start_body (deviceId : jsstring) : M Empty_set :=
  (* Get current device status *)
  s <- select_single env status_select device_status
         (Some ["latitude"; "longitude"])
         (fun row => sql_eq (oprop row "device_id") (JStr deviceId));;
  let status := data s in
  (* Create walk session *)
  r <- insert_returning env walk_insert walk_sessions
         {{ "device_id" =: JStr deviceId;
            "started_at" =: JTime (now env);
            "start_lat" =: oprop status "latitude";
            "start_lon" =: oprop status "longitude" }};;
  if truthy (error r) then
    respond 500 {{ "error" =: oprop (error r) "message" }}
  else
    walk_id <- get (data r) "id";;
    started_at <- get (data r) "started_at";;
    respond 200 {{ "status" =: jstr "ok";
                   "walk_id" =: walk_id;
                   "started_at" =: started_at }}.

Definition walk_start (deviceId : jsstring) (w : World)
  : Response * World :=
  try_catch (walk_start_body deviceId)
            (V60.internal_error "[WALK START] Error:") w.

End Server.

End Routes60.

(* ================================================================== *)
(** * The other routes of the V6.1 server *)

Module Routes61.
Import JS Db.
Local Open Scope gw_scope.
Local Open Scope string_scope.

(** [n.toFixed(digits)], which is not written out here. *)
Class Formatter := { toFixed : number -> Z -> jsstring }.

(** The reply of [supabase.rpc('get_walker_stats', ...)] and the rows that
    the fallback query returns for a given lower bound on [started_at]
    ([None] is [data: null]): the route is modelled from these replies. *)
Record StatsReplies := {
  rpc_reply : Reply (option (list JVal));
  walks_since : JVal -> option (list JVal)
}.

Section Server.
Context {rt : Runtime}.
Context {fmt : Formatter}.
Variable cfg : V61.Config.
Variable env : Env.

(** [app.get('/health', ...)]; the constant array [features] is left out,
    arrays not being represented among the values. *)
Definition health : Response :=
  {| status := 200;
     body := wire {{ "status" =: jstr "ok";
                     "service" =: jstr "Popcorn GPS Collar Gateway";
                     "version" =: jstr "6.1.0";
                     "supabase" =: if V61.supabase cfg then jstr "configured"
                                   else jstr "missing";
                     "hmac" =: if V61.key_set cfg then jstr "configured"
                               else jstr "disabled" }} |}.

(** [app.get('/device/:deviceId/status', ...)] *)
Definition device_status_body (deviceId : jsstring) : M Empty_set :=
  if negb (V61.supabase cfg) then
    respond 500 {{ "error" =: jstr "No database" }}
  else
    r <- select_single env status_select device_status None
           (fun row => sql_eq (oprop row "device_id") (JStr deviceId));;
    if truthy (error r) then
      respond 404 {{ "error" =: jstr "Device not found" }}
    else
      respond 200 (data r).

Definition device_status_route (deviceId : jsstring) (w : World)
  : Response * World :=
  try_catch (device_status_body deviceId)
            (respond 500 {{ "error" =: jstr "Internal server error" }}) w.

(** [a + b]: the concatenation of strings as soon as one side is a string
    or an object, the sum of numbers otherwise. *)
Definition stringy (v : JVal) : bool :=
  match v with
  | JStr _ | JTime _ | JDay _ | JObj _ => true
  | _ => false
  end.

Definition jplus (a b : JVal) : JVal :=
  if stringy a || stringy b then JStr (ToString a ++ ToString b)%list
  else JNum (nadd (ToNumber a) (ToNumber b)).

(** [rows.reduce((sum, w) => sum + (w[column] || 0), 0)], the rows being
    objects. *)
Definition sum_of (column : string) (rows : list JVal) : JVal :=
  fold_left (fun sum w => jplus sum (jor (oprop w column) (jnum 0)))
            rows (jnum 0).

(** [rows.filter(keep).length] *)
Definition count (keep : JVal -> bool) (rows : list JVal) : JVal :=
  jnum (Z.of_nat (List.length (filter keep rows))).

Definition excellent (w : JVal) : bool :=
  nge (ToNumber (oprop w "quality_score")) (num 90).

Definition good (w : JVal) : bool :=
  nge (ToNumber (oprop w "quality_score")) (num 70)
  && nlt (ToNumber (oprop w "quality_score")) (num 90).

Definition fair (w : JVal) : bool :=
  nge (ToNumber (oprop w "quality_score")) (num 50)
  && nlt (ToNumber (oprop w "quality_score")) (num 70).

Definition poor (w : JVal) : bool :=
  nlt (ToNumber (oprop w "quality_score")) (num 50).

(** The statistics computed when the stored procedure is missing; every
    [walks?.] chain yields [undefined] when the query returned no data. *)
Definition fallback_stats (walks : option (list JVal)) : JVal :=
  let length_or (d : Z) : JVal :=
    match walks with
    | Some l => jor (jnum (Z.of_nat (List.length l))) (jnum d)
    | None => jnum d
    end in
  let counted (keep : JVal -> bool) : JVal :=
    match walks with
    | Some l => jor (count keep l) (jnum 0)
    | None => jnum 0
    end in
  let summed (column : string) : JVal :=
    match walks with
    | Some l => sum_of column l
    | None => JUndefined
    end in
  {{ "total_walks" =: length_or 0;
     "avg_quality_score" =:
       JNum (ndiv (ToNumber (summed "quality_score"))
                  (ToNumber (length_or 1)));
     "excellent_walks" =: counted excellent;
     "good_walks" =: counted good;
     "fair_walks" =: counted fair;
     "poor_walks" =: counted poor;
     "total_distance_km" =:
       JStr (toFixed (ndiv (ToNumber (summed "distance_meters")) (num 1000))
                     2);
     "avg_carried_percent" =:
       JNum (ndiv (ToNumber (summed "carried_percent"))
                  (ToNumber (length_or 1)));
     "vehicle_incidents" =:
       counted (fun w => truthy (oprop w "vehicle_detected")) }}.

(** [app.get('/device/:deviceId/walker-stats', ...)], [days] being
    [req.query.days]. *)
Definition walker_stats_body (days_param : JVal) (store : StatsReplies)
  : M Empty_set :=
  if negb (V61.supabase cfg) then
    respond 500 {{ "error" =: jstr "No database" }}
  else
    let days := jor (JNum (parseInt days_param)) (jnum 7) in
    let reply := rpc_reply store in
    if truthy (error reply) then
      (* Fallback if function doesn't exist *)
      since <- V61.Date_toISOString
                 (nsub (num (now env))
                       (nmul (nmul (nmul (nmul (ToNumber days) (num 24))
                                         (num 60))
                                   (num 60))
                             (num 1000)));;
      let walks := walks_since store since in
      respond 200 (fallback_stats walks)
    else
      respond 200
        (jor (match data reply with
              | Some (first :: _) => first
              | _ => JUndefined
              end)
             (JObj [])).

Definition walker_stats (days_param : JVal) (store : StatsReplies)
           (w : World) : Response * World :=
  try_catch (walker_stats_body days_param store)
            (respond 500 {{ "error" =: jstr "Internal server error" }}) w.

End Server.

End Routes61.

(* ================================================================== *)
(** * The minimal server *)

Module Minimal.
Import JS Db.
Local Open Scope gw_scope.
Local Open Scope string_scope.

(** [process.env.HMAC_KEY], and whether the store client could be
    created. *)
Record Config := { env_HMAC_KEY : option jsstring; supabase : bool }.

Section Server.
Variable cfg : Config.
Variable env : Env.

(** [const hmacKey = process.env.HMAC_KEY || ''] *)
Definition hmacKey : jsstring :=
  match env_HMAC_KEY cfg with Some k => k | None => [] end.

(** [app.get('/health', ...)] *)
Definition health : Response :=
  {| status := 200;
     body := wire {{ "status" =: jstr "ok";
                     "service" =: jstr "Popcorn GPS Collar Gateway";
                     "version" =: jstr "6.0.0";
                     "supabase" =: if supabase cfg then jstr "configured"
                                   else jstr "missing";
                     "hmac" =: if truthy (JStr hmacKey)
                               then jstr "configured"
                               else jstr "disabled" }} |}.

Definition statusUpdate (data : JVal) : JVal :=
  {{ "device_id" =: oprop data "device_id";
     "latitude" =: oprop data "latitude";
     "longitude" =: oprop data "longitude";
     "battery_percent" =: oprop data "battery_percent";
     "activity_name" =: oprop data "activity_name";
     "is_home" =: oprop data "is_home";
     "last_seen_at" =: JTime (now env) }}.

(** [app.post('/telemetry', ...)]: the reply of the upsert is not looked
    at. *)
Definition telemetry_body (body : JVal) : M Empty_set :=
  let data := body in
  if negb (truthy data) || negb (truthy (oprop data "device_id")) then
    respond 400 {{ "error" =: jstr "Missing device_id" }}
  else if negb (supabase cfg) then
    respond 500 {{ "error" =: jstr "Database not configured" }}
  else
    upsert env status_upsert device_status ["device_id"]
           (statusUpdate data);;
    respond 200 {{ "status" =: jstr "ok" }}.

Definition telemetry (body : JVal) (w : World) : Response * World :=
  try_catch (telemetry_body body)
            (print log_error "Error:";;
             respond 500 {{ "error" =: jstr "Server error" }}) w.

(** [app.get('/device/:deviceId/status', ...)], which has no [try]: an
    exception would leave the request unanswered. *)
Definition device_status_body (deviceId : jsstring) : M Empty_set :=
  if negb (supabase cfg) then
    respond 500 {{ "error" =: jstr "No database" }}
  else
    r <- select_single env status_select device_status None
           (fun row => sql_eq (oprop row "device_id") (JStr deviceId));;
    respond 200 (jor (data r) (JObj [])).

Definition device_status_route (deviceId : jsstring) (w : World)
  : Response * World :=
  try_catch (device_status_body deviceId) throw w.

End Server.

End Minimal.

(* ================================================================== *)
(** * Further notions and examples *)

Module Notions.
Import JS Db.
Local Open Scope gw_scope.
Local Open Scope string_scope.

(** [Date.now() - walkData.duration_seconds * 1000], the instant at which
    the V6.1 server takes an undated walk to have started. *)
Definition start_instant {rt : Runtime} (env : Env) (walkData : JVal)
  : number :=
  nsub (num (now env))
       (nmul (ToNumber (oprop walkData "duration_seconds")) (num 1000)).

(** The numbers that [new Date(n)] takes for a date. *)
Definition is_date (n : number) : bool :=
  match n with
  | Fin _ => Z.leb (Z.abs (trunc n)) 8640000000000000
  | _ => false
  end.

(** The value of [started_at] that the V6.1 walk-end handler stores, when
    it can be computed. *)
Definition started_at61 {rt : Runtime} (env : Env) (walkData : JVal)
  : option JVal :=
  if truthy (oprop walkData "started_at")
  then Some (oprop walkData "started_at")
  else if is_date (start_instant env walkData)
       then Some (JTime (trunc (start_instant env walkData)))
       else None.

(** The columns that a V6.0 report always sets. *)
Definition status_columns60 : list string :=
  [ "device_id"; "latitude"; "longitude"; "altitude"; "speed"; "hdop";
    "satellites"; "gps_valid"; "accel_x"; "accel_y"; "accel_z";
    "accel_magnitude"; "accel_variance"; "activity_class"; "activity_name";
    "session_steps"; "today_steps"; "is_home"; "is_escaped";
    "distance_from_home"; "battery_voltage"; "battery_percent";
    "signal_strength"; "network_operator"; "sleep_active"; "sleep_quality";
    "respiratory_rate"; "restless_count"; "walk_active"; "walk_duration";
    "walk_distance"; "walk_stops"; "scratch_detected";
    "today_scratch_count"; "anomaly_detected"; "anomaly_type";
    "activity_deviation"; "boot_count"; "firmware_version"; "last_seen_at";
    "updated_at" ].

(** The columns that a V6.1 report sets only when it has them: those
    copied from the field of the same name, without a default. *)
Definition passed_columns61 : list string :=
  [ "device_id"; "latitude"; "longitude"; "altitude"; "speed"; "hdop";
    "satellites"; "gps_valid"; "accel_x"; "accel_y"; "accel_z";
    "accel_magnitude"; "accel_variance"; "activity_class"; "activity_name";
    "session_steps"; "today_steps"; "is_home"; "is_escaped";
    "distance_from_home"; "battery_voltage"; "battery_percent";
    "signal_strength"; "network_operator"; "sleep_active"; "sleep_quality";
    "respiratory_rate"; "restless_count"; "walk_active"; "walk_duration";
    "walk_distance"; "walk_stops"; "scratch_detected";
    "today_scratch_count"; "anomaly_detected"; "anomaly_type"; "boot_count";
    "firmware_version" ].

(** The rows of the device [d]. *)
Definition of_device (d : jsstring) (row : JVal) : bool :=
  sql_eq (oprop row "device_id") (JStr d).

(** The rows of the device [d] for the day [day]. *)
Definition on_day (d : jsstring) (day : Z) (row : JVal) : bool :=
  sql_eq (oprop row "device_id") (JStr d)
  && sql_eq (oprop row "date") (JDay day).

(** The walk session with identifier [id]. *)
Definition with_id (id : JVal) (row : JVal) : bool :=
  sql_eq (oprop row "id") id.

(** The number of the walks that the V6.1 server would grade [g]. *)
Definition graded {rt : Runtime} (g : string) (walks : list JVal) : Z :=
  Z.of_nat (List.length
              (filter (fun w => String.eqb
                                  (V61.grade_of (oprop w "quality_score")) g)
                      walks)).

(** The number of the walks whose score is not a number. *)
Definition unscored {rt : Runtime} (walks : list JVal) : Z :=
  Z.of_nat (List.length
              (filter (fun w => match ToNumber (oprop w "quality_score") with
                                | NaN => true
                                | _ => false
                                end)
                      walks)).

(** [Date.now() - days * 24 * 60 * 60 * 1000], where [days] is
    [parseInt(req.query.days) || 7]: the instant from which the fallback
    of the walker statistics takes the walks. *)
Definition stats_since {rt : Runtime} (env : Env) (days_param : JVal)
  : number :=
  nsub (num (now env))
       (nmul (nmul (nmul (nmul (ToNumber (jor (JNum (parseInt days_param))
                                              (jnum 7)))
                               (num 24))
                         (num 60))
                   (num 60))
             (num 1000)).

(** A runtime formatter for the closed examples: the integer part. *)
Definition fmt0 : Routes61.Formatter :=
  {| Routes61.toFixed := fun n _ => Samples.print_number (num (trunc n)) |}.

(** A V6.0 report signed with the key of [Samples.keyed60]. *)
Definition signed60 (signature : JVal) : JVal :=
  {{ "device_id" =: jstr "collar-1";
     "boot_count" =: jnum 3;
     "signature" =: signature }}.

(** A V6.0 report with a scratch. *)
Definition scratch_report : JVal :=
  {{ "device_id" =: jstr "collar-1";
     "scratch" =: {{ "detected" =: JBool true;
                     "frequency" =: jnum 6;
                     "confidence" =: jnum 80;
                     "today_count" =: jnum 4 }} }}.

(** A walk report without [started_at] and without a duration. *)
Definition undated_walk : JVal :=
  {{ "quality_score" =: jnum 80;
     "cheat_flags" =: jnum 2 }}.

(** Three walks of scores 95, 72 and 10, and one without a score. *)
Definition four_walks : list JVal :=
  [ {{ "quality_score" =: jnum 95 }};
    {{ "quality_score" =: jnum 72 }};
    {{ "quality_score" =: jnum 10 }};
    {{ "distance_meters" =: jnum 100 }} ].

(** A store without the stored procedure, which holds these walks. *)
Definition no_procedure : Routes61.StatsReplies :=
  {| Routes61.rpc_reply :=
       {| data := None; error := failure (str "function not found") |};
     Routes61.walks_since := fun _ => Some four_walks |}.

(** A number that is at most, or at least, a rational. *)
Definition at_most (n : number) (b : Q) : Prop :=
  match n with
  | Fin r => (r <= b)%Q
  | NInf => True
  | _ => False
  end.

Definition at_least (n : number) (b : Q) : Prop :=
  match n with
  | Fin r => (b <= r)%Q
  | PInf => True
  | _ => False
  end.

(** [x] is [y] up to two roundings: within [2^-51] of it, relatively. *)
Definition near (x y : Q) : Prop :=
  (Qabs (x - y) <= Qabs y * 2 ^ (-51))%Q.

(** A quotient that is zero, or whose magnitude lies among those of the
    normal doubles and is small enough for a hundred times it to be one as
    well. *)
Definition ordinary (q : Q) : bool :=
  Qeq_bool q 0
  || (Qle_bool (2 ^ (-1022)) (Qabs q) && Qle_bool (Qabs q) (2 ^ 1000)).

(** A whole number of magnitude at most [2^46], whose hundredfold a double
    holds. *)
Definition whole (q : Q) : Prop :=
  exists k : Z, (Z.abs k <= 2 ^ 46)%Z /\ (q == inject_Z k)%Q.

(** The double next above two, [2 + 2^-51], as a stop count. *)
Definition stops_above_two : Q := 4503599627370497 # 2251799813685248.

(** A walk of a thousandth of a second with [10^308] seconds carried. *)
Definition endless_walk : JVal :=
  {{ "duration_seconds" =: JNum (Fin (1 # 1000));
     "carried_seconds" =: JNum (Fin (inject_Z (10 ^ 308)));
     "actual_walk_seconds" =: jnum 0 }}.

(** [Samples.report61] from a place a little further north. *)
Definition moved_report61 : JVal :=
  {{ "device_id" =: jstr "collar-1";
     "timestamp" =: jnum 1767254400;
     "boot_count" =: jnum 3;
     "latitude" =: JNum (Fin (286140 # 10000));
     "longitude" =: JNum (Fin (772090 # 10000));
     "gps_valid" =: JBool true;
     "anomaly_detected" =: JBool true;
     "anomaly_type" =: jstr "low_activity" }}.

End Notions.

(* ================================================================== *)
(** * Properties *)

Import Props.
(* ================================================================== *)
(** * The checksum *)

Section Checksum.
Import JS.
Context {rt : Runtime}.

Lemma ToInt32_mod z : ToInt32 z mod two32 = z mod two32.
Proof.
  unfold ToInt32. rewrite Zminus_mod, Zmod_mod, <- Zminus_mod.
  f_equal. lia.
Qed.

Lemma shl32_5_mod h : shl32 h 5 mod two32 = Z.shiftl h 5 mod two32.
Proof.
  unfold shl32. rewrite ToInt32_mod.
  change (5 mod 32) with 5. rewrite !Z.shiftl_mul_pow2 by lia.
  rewrite Zmult_mod, ToInt32_mod, <- Zmult_mod. reflexivity.
Qed.

(** The sum formed by a turn of the loop, reduced modulo 2^32, is the
    specification's step on any representative of the previous hash. *)
Lemma step_sum_mod h h' c :
  h mod two32 = h' mod two32 ->
  (shl32 h 5 + h + c) mod two32 = Spec.djb2_step h' c.
Proof.
  intros E. unfold Spec.djb2_step. change (2 ^ 32) with two32.
  rewrite <- Z.add_assoc, Zplus_mod, shl32_5_mod.
  rewrite !Z.shiftl_mul_pow2 by lia.
  rewrite (Zmult_mod h), E, <- Zmult_mod.
  rewrite (Zplus_mod h c), E, <- (Zplus_mod h' c), <- Zplus_mod.
  f_equal. lia.
Qed.

Lemma spec_step_range h c : Spec.djb2_step h c mod two32 = Spec.djb2_step h c.
Proof. unfold Spec.djb2_step. change (2 ^ 32) with two32. apply Zmod_mod. Qed.

Lemma and32_ones x : and32 x 4294967295 = ToInt32 x.
Proof.
  unfold and32. change (ToInt32 4294967295) with (-1).
  rewrite Z.land_m1_r.
  unfold ToInt32 at 1.
  rewrite Zplus_mod, ToInt32_mod, <- Zplus_mod. reflexivity.
Qed.

Lemma step60_spec h c : V60.djb2_step h c = Spec.djb2_step h c.
Proof. unfold V60.djb2_step, ushr0, ToUint32. now apply step_sum_mod. Qed.

Lemma step61_spec h h' c :
  h mod two32 = h' mod two32 ->
  V61.djb2_step h c mod two32 = Spec.djb2_step h' c.
Proof.
  intros E. unfold V61.djb2_step. rewrite and32_ones, ToInt32_mod.
  now apply step_sum_mod.
Qed.

Lemma fold_left_step {A B} (f : A -> B -> A) c l h :
  fold_left f (c :: l) h = fold_left f l (f h c).
Proof. reflexivity. Qed.

Lemma fold60_spec l : forall h,
  fold_left V60.djb2_step l h = fold_left Spec.djb2_step l h.
Proof.
  induction l as [|c l IH]; intros h; [reflexivity|].
  now rewrite !fold_left_step, step60_spec.
Qed.

Lemma fold61_spec l : forall h h',
  h mod two32 = h' mod two32 ->
  fold_left V61.djb2_step l h mod two32
  = fold_left Spec.djb2_step l h' mod two32.
Proof.
  induction l as [|c l IH]; intros h h' E; [exact E|].
  rewrite !fold_left_step. apply IH. transitivity (Spec.djb2_step h' c).
  - now apply step61_spec.
  - symmetry. apply spec_step_range.
Qed.

Lemma spec_fold_range l : forall h,
  h mod two32 = h ->
  fold_left Spec.djb2_step l h mod two32 = fold_left Spec.djb2_step l h.
Proof.
  induction l as [|c l IH]; intros h E; [exact E|].
  rewrite !fold_left_step. apply IH, spec_step_range.
Qed.

Lemma checksum60_spec cfg payload :
  V60.calculatedSignature cfg payload
  = Spec.djb2 (JSON_stringify (without "signature" payload))
              (V60.key_units cfg).
Proof.
  unfold V60.calculatedSignature, Spec.djb2, ushr0, ToUint32.
  rewrite fold_left_app, !fold60_spec.
  rewrite <- fold_left_app. now apply spec_fold_range.
Qed.

Lemma checksum61_spec cfg data :
  V61.checksum cfg data = Spec.djb2 (V61.message data) (V61.hmacKey cfg).
Proof.
  unfold V61.checksum, Spec.djb2, ushr0, ToUint32.
  rewrite (fold61_spec _ 5381 5381 eq_refl).
  now apply spec_fold_range.
Qed.

Lemma checksum_range l k : 0 <= Spec.djb2 l k < two32.
Proof.
  unfold Spec.djb2. rewrite <- spec_fold_range by reflexivity.
  apply Z.mod_pos_bound. reflexivity.
Qed.

(** The verdict of the V6.0 verifier does not depend on the world it runs
    in, and it leaves the store and the journal of calls alone. *)
Lemma verifyHMAC60_pure cfg payload sig w :
  exists verdict lines,
    V60.verifyHMAC cfg payload sig w
    = (Db.Ret verdict,
       {| Db.db := Db.db w; Db.journal := Db.journal w;
          Db.console := Db.console w ++ lines |})
    /\ verdict
       = (negb (V60.key_set cfg)
          || (truthy sig
              && strict_eq (jnum (V60.calculatedSignature cfg payload))
                           (JNum (parseInt sig)))).
Proof.
  unfold V60.verifyHMAC.
  destruct (V60.key_set cfg); cbn [negb orb].
  2:{ do 2 eexists. split; reflexivity. }
  destruct (truthy sig); cbn [negb andb].
  2:{ do 2 eexists. split; reflexivity. }
  destruct (strict_eq (jnum _) _); cbn [negb].
  - exists true, []. rewrite app_nil_r. destruct w. split; reflexivity.
  - do 2 eexists. split; reflexivity.
Qed.

End Checksum.

(** C9.  In both servers the checksum of the signature verifier is the djb2
    recurrence [hash_0 = 5381], [hash_i = ((hash_(i-1) << 5) + hash_(i-1)
    + byte_i) mod 2^32] run over the characters of the canonical message
    followed by those of the key; the result is a 32-bit unsigned number,
    and the verdict of the verifier is a function of payload, signature and
    key alone: it is the same in every world. *)
Theorem checksum_is_djb2 {rt : JS.Runtime} :
  (forall cfg payload,
      V60.calculatedSignature cfg payload
      = Spec.djb2 (JS.JSON_stringify (JS.without "signature" payload))
                  (V60.key_units cfg))
  /\ (forall cfg data,
         V61.checksum cfg data
         = Spec.djb2 (V61.message data) (V61.hmacKey cfg))
  /\ (forall message key, 0 <= Spec.djb2 message key < 2 ^ 32)
  /\ (forall cfg payload sig w1 w2,
         fst (V60.verifyHMAC cfg payload sig w1)
         = fst (V60.verifyHMAC cfg payload sig w2)).
Proof.
  split; [exact checksum60_spec|].
  split; [exact checksum61_spec|].
  split; [exact checksum_range|].
  intros cfg payload sig w1 w2.
  destruct (verifyHMAC60_pure cfg payload sig w1) as (v1 & l1 & E1 & V1).
  destruct (verifyHMAC60_pure cfg payload sig w2) as (v2 & l2 & E2 & V2).
  rewrite E1, E2. simpl. now rewrite V1, V2.
Qed.
(* ================================================================== *)
(** * Rounding *)

Section Rounding.
Import JS.
Local Open Scope Q_scope.

Lemma two_pos : 0 < 2.
Proof. reflexivity. Qed.

Lemma two_nonzero : ~ 2 == 0.
Proof. discriminate. Qed.

Lemma pow2_pos e : 0 < 2 ^ e.
Proof. apply Qpower_0_lt, two_pos. Qed.

Lemma pow2_plus a b : 2 ^ (a + b) == 2 ^ a * 2 ^ b.
Proof. apply Qpower_plus, two_nonzero. Qed.

Lemma pow2_le a b : (a <= b)%Z -> 2 ^ a <= 2 ^ b.
Proof. intros H. apply Qpower_le_compat_l; [exact H | discriminate]. Qed.

Lemma pow2_lt_inv a b : 2 ^ a < 2 ^ b -> (a < b)%Z.
Proof. intros H. apply (Qpower_lt_compat_l_inv 2); [exact H | reflexivity]. Qed.

Lemma pow2_Z n : (0 <= n)%Z -> inject_Z (2 ^ n) == 2 ^ n.
Proof. intros H. now rewrite Zpower_Qpower. Qed.

Lemma Qabs_num_den q : Qabs q * inject_Z (Zpos (Qden q))
                       == inject_Z (Z.abs (Qnum q)).
Proof.
  destruct q as [n d]. unfold Qabs, Qeq, inject_Z, Qmult.
  cbn [Qnum Qden]. rewrite Pos.mul_1_r. ring.
Qed.

(** The power of two just below a rational. *)
Lemma ilog2_spec q :
  ~ q == 0 -> 2 ^ ilog2 q <= Qabs q /\ Qabs q < 2 ^ (ilog2 q + 1).
Proof.
  intros N.
  assert (A : (0 < Z.abs (Qnum q))%Z).
  { destruct q as [n d]. unfold Qeq in N. simpl in *. lia. }
  pose proof (Z.log2_spec _ A) as [La Ua].
  pose proof (Z.log2_spec (Zpos (Qden q)) eq_refl) as [Ld Ud].
  pose proof (Z.log2_nonneg (Z.abs (Qnum q))) as Na.
  pose proof (Z.log2_nonneg (Zpos (Qden q))) as Nd.
  set (la := Z.log2 (Z.abs (Qnum q))) in *.
  set (ld := Z.log2 (Zpos (Qden q))) in *.
  rewrite Zle_Qle, pow2_Z in La, Ld by assumption.
  replace (Z.succ la) with (la + 1)%Z in Ua by lia.
  replace (Z.succ ld) with (ld + 1)%Z in Ud by lia.
  rewrite Zlt_Qlt, pow2_Z in Ua, Ud by lia.
  pose proof (Qabs_num_den q) as E.
  set (a := inject_Z (Z.abs (Qnum q))) in *.
  set (d := inject_Z (Zpos (Qden q))) in *.
  assert (Pd : 0 < d) by (unfold d; reflexivity).
  assert (Lo : 2 ^ (la - ld - 1) < Qabs q).
  { apply (Qmult_lt_r _ _ d Pd). rewrite E.
    apply Qlt_le_trans with (2 ^ (la - ld - 1) * 2 ^ (ld + 1)).
    - apply Qmult_lt_l; [apply pow2_pos | exact Ud].
    - rewrite <- pow2_plus.
      replace (la - ld - 1 + (ld + 1))%Z with la by lia. exact La. }
  assert (Hi : Qabs q < 2 ^ (la - ld + 1)).
  { apply (Qmult_lt_r _ _ d Pd). rewrite E.
    apply Qlt_le_trans with (2 ^ (la - ld + 1) * 2 ^ ld).
    - rewrite <- pow2_plus.
      replace (la - ld + 1 + ld)%Z with (la + 1)%Z by lia. exact Ua.
    - apply Qmult_le_l; [apply pow2_pos | exact Ld]. }
  unfold ilog2. fold la ld.
  destruct (Qle_bool (2 ^ (la - ld)) (Qabs q)) eqn:T.
  - apply Qle_bool_iff in T. split; [exact T | exact Hi].
  - split; [apply Qlt_le_weak; exact Lo|].
    replace (la - ld - 1 + 1)%Z with (la - ld)%Z by lia.
    apply Qnot_le_lt. intros H. apply Qle_bool_iff in H. congruence.
Qed.

Lemma ilog2_unique q e :
  2 ^ e <= Qabs q -> Qabs q < 2 ^ (e + 1) -> ilog2 q = e.
Proof.
  intros L U.
  assert (N : ~ q == 0).
  { intros E. rewrite E in L. pose proof (pow2_pos e) as P.
    change (Qabs 0) with 0 in L. lra. }
  destruct (ilog2_spec q N) as [L' U'].
  assert (ilog2 q < e + 1)%Z
    by (apply pow2_lt_inv; eapply Qle_lt_trans; eassumption).
  assert (e < ilog2 q + 1)%Z
    by (apply pow2_lt_inv; eapply Qle_lt_trans; eassumption).
  lia.
Qed.

(** The nearest integer. *)
Lemma nearest_even_near x :
  Qabs (inject_Z (nearest_even x) - x) <= 1 # 2.
Proof.
  unfold nearest_even.
  pose proof (Qfloor_le x) as L. pose proof (Qlt_floor x) as U.
  rewrite inject_Z_plus in U. change (inject_Z 1) with 1 in U.
  set (f := Qfloor x) in *.
  apply Qabs_Qle_condition.
  destruct (x - inject_Z f ?= 1 # 2) eqn:C.
  - apply Qeq_alt in C.
    destruct (Z.even f); [|rewrite inject_Z_plus;
                            change (inject_Z 1) with 1]; lra.
  - apply Qlt_alt in C. lra.
  - apply Qgt_alt in C. rewrite inject_Z_plus.
    change (inject_Z 1) with 1. lra.
Qed.

Lemma nearest_even_integer x k : x == inject_Z k -> nearest_even x = k.
Proof.
  intros E. unfold nearest_even.
  assert (F : Qfloor x = k) by (rewrite E; apply Qfloor_Z).
  rewrite F.
  assert (C : (x - inject_Z k ?= 1 # 2) = Lt)
    by (apply (proj1 (Qlt_alt _ _)); lra).
  now rewrite C.
Qed.

Lemma Qle_bool_false a b : Qle_bool a b = false -> b < a.
Proof.
  intros E. apply Qnot_le_lt. intros H.
  apply Qle_bool_iff in H. congruence.
Qed.

Lemma Qeq_bool_false a b : Qeq_bool a b = false -> ~ a == b.
Proof. intros E H. apply Qeq_bool_iff in H. congruence. Qed.

(** The result of a rounding that does not overflow. *)
Lemma round64_core q :
  ~ q == 0 ->
  Qabs (inject_Z (nearest_even (q / 2 ^ last_bit q)) * 2 ^ last_bit q)
  < 2 ^ 1024 ->
  round64 q
  = Fin (Qred (inject_Z (nearest_even (q / 2 ^ last_bit q))
               * 2 ^ last_bit q)).
Proof.
  intros N B. unfold round64.
  destruct (Qeq_bool q 0) eqn:E; [apply Qeq_bool_iff in E; contradiction|].
  cbv zeta.
  destruct (Qle_bool (2 ^ 1024) _) eqn:O; [|reflexivity].
  apply Qle_bool_iff in O. exfalso. revert O. apply Qlt_not_le. exact B.
Qed.

(** A rational that a double holds is rounded to itself. *)
Lemma round64_exact q m u :
  q == inject_Z m * 2 ^ u -> (Z.abs m < 2 ^ 53)%Z -> (-1074 <= u)%Z ->
  Qabs q < 2 ^ 1024 ->
  exists r, round64 q = Fin r /\ r == q.
Proof.
  intros E M U B.
  destruct (Qeq_bool q 0) eqn:Z0.
  { exists 0. unfold round64. rewrite Z0. split; [reflexivity|].
    apply Qeq_bool_iff in Z0. now rewrite Z0. }
  apply Qeq_bool_false in Z0.
  destruct (ilog2_spec q Z0) as [L _].
  assert (A : Qabs q < 2 ^ (53 + u)).
  { rewrite E, Qabs_Qmult, (Qabs_pos (2 ^ u))
      by (apply Qlt_le_weak, pow2_pos).
    rewrite pow2_plus. apply Qmult_lt_r; [apply pow2_pos|].
    rewrite <- pow2_Z by lia.
    change (Qabs (inject_Z m)) with (inject_Z (Z.abs m)).
    now rewrite <- Zlt_Qlt. }
  assert (I : (ilog2 q < 53 + u)%Z)
    by (apply pow2_lt_inv; eapply Qle_lt_trans; eassumption).
  assert (K : (last_bit q <= u)%Z) by (unfold last_bit; lia).
  set (v := last_bit q) in *.
  assert (X : q / 2 ^ v == inject_Z (m * 2 ^ (u - v))).
  { rewrite inject_Z_mult, pow2_Z by lia. rewrite E.
    replace u with ((u - v) + v)%Z at 1 by lia. rewrite pow2_plus.
    field. apply Qpower_not_0, two_nonzero. }
  assert (R : inject_Z (nearest_even (q / 2 ^ v)) * 2 ^ v == q).
  { rewrite (nearest_even_integer _ _ X).
    rewrite inject_Z_mult, pow2_Z by lia. rewrite E.
    replace u with ((u - v) + v)%Z at 2 by lia. rewrite pow2_plus.
    ring. }
  eexists. split.
  - apply round64_core; [exact Z0|]. fold v. now rewrite R.
  - fold v. now rewrite Qred_correct.
Qed.

Lemma round64_integer q z :
  q == inject_Z z -> (Z.abs z < 2 ^ 53)%Z ->
  exists r, round64 q = Fin r /\ r == inject_Z z.
Proof.
  intros E B.
  destruct (round64_exact q z 0) as (r & R & Er).
  - rewrite E. change (2 ^ 0) with 1. ring.
  - exact B.
  - lia.
  - rewrite E. change (Qabs (inject_Z z)) with (inject_Z (Z.abs z)).
    apply Qlt_trans with (inject_Z (2 ^ 53)).
    + now rewrite <- Zlt_Qlt.
    + reflexivity.
  - exists r. split; [exact R | now rewrite Er].
Qed.

(** Rounding moves a rational of at least normal magnitude by at most
    [2^-53] of itself. *)
Lemma round_near q :
  2 ^ (-1022) <= Qabs q ->
  Qabs (inject_Z (nearest_even (q / 2 ^ last_bit q)) * 2 ^ last_bit q - q)
  <= Qabs q * 2 ^ (-53).
Proof.
  intros Lo.
  assert (N : ~ q == 0).
  { intros E. rewrite E in Lo. change (Qabs 0) with 0 in Lo.
    pose proof (pow2_pos (-1022)). lra. }
  destruct (ilog2_spec q N) as [L U].
  assert (I : (-1022 < ilog2 q + 1)%Z)
    by (apply pow2_lt_inv; eapply Qle_lt_trans; eassumption).
  assert (V : last_bit q = (ilog2 q - 52)%Z) by (unfold last_bit; lia).
  set (e := ilog2 q) in *. set (v := last_bit q) in *.
  pose proof (nearest_even_near (q / 2 ^ v)) as Near.
  set (m := inject_Z (nearest_even (q / 2 ^ v))) in *.
  pose proof (pow2_pos v) as Pv.
  assert (D : m * 2 ^ v - q == (m - q / 2 ^ v) * 2 ^ v)
    by (field; apply Qpower_not_0, two_nonzero).
  rewrite D, Qabs_Qmult, (Qabs_pos (2 ^ v)) by now apply Qlt_le_weak.
  apply Qle_trans with ((1 # 2) * 2 ^ v).
  - apply Qmult_le_compat_r; [exact Near | now apply Qlt_le_weak].
  - apply Qle_trans with (2 ^ e * 2 ^ (-53)).
    + rewrite <- pow2_plus. rewrite V.
      replace (e - 52)%Z with (1 + (e + -53))%Z by lia.
      rewrite (pow2_plus 1). change (2 ^ 1) with 2. lra.
    + apply Qmult_le_compat_r; [exact L|].
      apply Qlt_le_weak, pow2_pos.
Qed.

Lemma normal_nonzero q : 2 ^ (-1022) <= Qabs q -> ~ q == 0.
Proof.
  intros Lo E. rewrite E in Lo. change (Qabs 0) with 0 in Lo.
  pose proof (pow2_pos (-1022)). lra.
Qed.

Lemma ulp53 : 2 ^ (-53) == 1 # 9007199254740992.
Proof. reflexivity. Qed.

(** The relative error of a rounding among the normal doubles. *)
Lemma round64_error q :
  2 ^ (-1022) <= Qabs q -> Qabs q < 2 ^ 1023 ->
  exists r, round64 q = Fin r /\ Qabs (r - q) <= Qabs q * 2 ^ (-53).
Proof.
  intros Lo Hi.
  pose proof (normal_nonzero q Lo) as N.
  pose proof (round_near q Lo) as Err.
  eexists. split.
  - apply round64_core; [exact N|].
    match type of Err with Qabs (?r - q) <= _ =>
      apply Qle_lt_trans with (Qabs q + Qabs (r - q));
      [setoid_replace r with (q + (r - q)) at 1 by ring;
       apply Qabs_triangle|]
    end.
    change (2 ^ 1024) with (2 ^ (1023 + 1)). rewrite pow2_plus.
    change (2 ^ 1) with 2.
    pose proof (Qabs_nonneg q) as P.
    rewrite ulp53 in Err. lra.
  - now rewrite Qred_correct.
Qed.

(** A rounding gives a number, and an infinity only of the sign of what
    is rounded. *)
Lemma round64_cases q :
  2 ^ (-1022) <= Qabs q ->
  (exists r, round64 q = Fin r /\ Qabs (r - q) <= Qabs q * 2 ^ (-53))
  \/ (round64 q = PInf /\ 0 < q) \/ (round64 q = NInf /\ q < 0).
Proof.
  intros Lo.
  pose proof (normal_nonzero q Lo) as N.
  pose proof (round_near q Lo) as Err.
  unfold round64.
  destruct (Qeq_bool q 0) eqn:E; [apply Qeq_bool_iff in E; contradiction|].
  cbv zeta. destruct (Qle_bool (2 ^ 1024) _).
  - right. destruct (Z.ltb_spec (Qnum q) 0) as [S | S].
    + right. split; [reflexivity|]. unfold Qlt. cbn [Qnum Qden]. lia.
    + left. split; [reflexivity|].
      assert (Qnum q <> 0)%Z
        by (intros Z0; apply N; unfold Qeq; cbn [Qnum Qden]; lia).
      unfold Qlt. cbn [Qnum Qden]. lia.
  - left. eexists. split; [reflexivity|]. now rewrite Qred_correct.
Qed.

Lemma round64_number q : round64 q <> NaN.
Proof.
  unfold round64. destruct (Qeq_bool q 0); [discriminate|].
  cbv zeta. destruct (Qle_bool _ _); [|discriminate].
  destruct (Qnum q <? 0)%Z; discriminate.
Qed.

(** Rounding keeps at least half of a magnitude of one or more. *)
Lemma round64_low q B :
  q <= - B -> 1 <= B ->
  round64 q = NInf \/ exists r, round64 q = Fin r /\ r <= - (B / 2).
Proof.
  intros L B1.
  assert (A : Qabs q == - q) by (apply Qabs_neg; lra).
  assert (Lo : 2 ^ (-1022) <= Qabs q).
  { rewrite A. apply Qle_trans with 1; [discriminate | lra]. }
  destruct (round64_cases q Lo) as [(r & E & Err) | [[E P] | [E P]]].
  - right. exists r. split; [exact E|].
    rewrite ulp53, A in Err. apply Qabs_Qle_condition in Err.
    unfold Qdiv. change (/ 2) with (1 # 2). lra.
  - exfalso. lra.
  - now left.
Qed.

Lemma round64_high q B :
  B <= q -> 1 <= B ->
  round64 q = PInf \/ exists r, round64 q = Fin r /\ B / 2 <= r.
Proof.
  intros L B1.
  assert (A : Qabs q == q) by (apply Qabs_pos; lra).
  assert (Lo : 2 ^ (-1022) <= Qabs q).
  { rewrite A. apply Qle_trans with 1; [discriminate | lra]. }
  destruct (round64_cases q Lo) as [(r & E & Err) | [[E P] | [E P]]].
  - right. exists r. split; [exact E|].
    rewrite ulp53, A in Err. apply Qabs_Qle_condition in Err.
    unfold Qdiv. change (/ 2) with (1 # 2). lra.
  - now left.
  - exfalso. lra.
Qed.

End Rounding.

(* ================================================================== *)
(** * Grades and percentages *)

Section Grading.
Import JS.
Import Notions.
Context {rt : Runtime}.
Local Open Scope Q_scope.

(** [v || 0] on a counter. *)
Lemma counter_or_zero q :
  exists q', ToNumber (jor (JNum (Fin q)) (jnum 0)) = Fin q' /\ q' == q.
Proof.
  unfold jor, truthy. destruct (Qeq_bool q 0) eqn:E; cbn [negb ToNumber].
  - exists (inject_Z 0). split; [reflexivity|].
    apply Qeq_bool_iff in E. now rewrite E.
  - exists q. split; reflexivity.
Qed.

Lemma clamp_fin x :
  exists q, Math_max (Fin (inject_Z 0))
                     (Math_min (Fin (inject_Z 100)) (Fin x)) = Fin q
            /\ q == Spec.clamp x 0 100.
Proof.
  unfold Spec.clamp, Math_min, Math_max, nlt.
  change (inject_Z 100) with 100; change (inject_Z 0) with 0.
  destruct (Qle_bool 100 x) eqn:E1; cbn [negb];
    [apply Qle_bool_iff in E1 | apply Qle_bool_false in E1];
    match goal with
    | |- context [Qle_bool ?a 0] =>
        destruct (Qle_bool a 0) eqn:E2; cbn [negb];
        [apply Qle_bool_iff in E2 | apply Qle_bool_false in E2]
    end;
    eexists; (split; [reflexivity|]);
    destruct (Q.max_spec 0 (Qmin 100 x)) as [[? Emax]|[? Emax]];
    destruct (Q.min_spec 100 x) as [[? Emin]|[? Emin]];
    rewrite Emax; rewrite Emin in *; lra.
Qed.

Lemma clamp_bounds x : 0 <= Spec.clamp x 0 100 <= 100.
Proof.
  unfold Spec.clamp.
  destruct (Q.max_spec 0 (Qmin 100 x)) as [[? ->]|[? ->]];
    destruct (Q.min_spec 100 x) as [[? E]|[? E]]; rewrite E in *; lra.
Qed.

Lemma clamp_low x : x <= 0 -> Spec.clamp x 0 100 == 0.
Proof.
  intros L. unfold Spec.clamp.
  destruct (Q.max_spec 0 (Qmin 100 x)) as [[? ->]|[? ->]];
    destruct (Q.min_spec 100 x) as [[? E]|[? E]]; rewrite E in *; lra.
Qed.

Lemma clamp_high x : 100 <= x -> Spec.clamp x 0 100 == 100.
Proof.
  intros L. unfold Spec.clamp.
  destruct (Q.max_spec 0 (Qmin 100 x)) as [[? ->]|[? ->]];
    destruct (Q.min_spec 100 x) as [[? E]|[? E]]; rewrite E in *; lra.
Qed.

(** The clamp of a number that is not finite, or out of the range. *)
Lemma clamp_at_most n :
  at_most n 0 ->
  exists q, Math_max (num 0) (Math_min (num 100) n) = Fin q /\ q == 0.
Proof.
  destruct n as [r| | |]; cbn [at_most]; intros L; try contradiction.
  - destruct (clamp_fin r) as (q & E & Eq).
    exists q. split; [exact E|]. rewrite Eq. now apply clamp_low.
  - exists 0. split; reflexivity.
Qed.

Lemma clamp_at_least n :
  at_least n 100 ->
  exists q, Math_max (num 0) (Math_min (num 100) n) = Fin q /\ q == 100.
Proof.
  destruct n as [r| | |]; cbn [at_least]; intros L; try contradiction.
  - destruct (clamp_fin r) as (q & E & Eq).
    exists q. split; [exact E|]. rewrite Eq. now apply clamp_high.
  - exists 100. split; reflexivity.
Qed.

Lemma clamp_number n :
  n <> NaN ->
  exists q, Math_max (num 0) (Math_min (num 100) n) = Fin q
            /\ 0 <= q <= 100.
Proof.
  destruct n as [r| | |]; intros N; try congruence.
  - destruct (clamp_fin r) as (q & E & Eq).
    exists q. split; [exact E|]. rewrite Eq. apply clamp_bounds.
  - exists 100. split; [reflexivity|]. split; discriminate.
  - exists 0. split; [reflexivity|]. split; discriminate.
Qed.

(** Whole numbers below [2^53] are subtracted and multiplied exactly. *)
Lemma nsub_integer x y a b :
  x == inject_Z a -> y == inject_Z b -> (Z.abs (a - b) < 2 ^ 53)%Z ->
  exists r, nsub (Fin x) (Fin y) = Fin r /\ r == inject_Z (a - b).
Proof.
  intros Ex Ey B. cbn [nsub]. apply round64_integer; [|exact B].
  rewrite Ex, Ey. unfold Z.sub. rewrite inject_Z_plus, inject_Z_opp. ring.
Qed.

Lemma nmul_integer x y a b :
  x == inject_Z a -> y == inject_Z b -> (Z.abs (a * b) < 2 ^ 53)%Z ->
  exists r, nmul (Fin x) (Fin y) = Fin r /\ r == inject_Z (a * b).
Proof.
  intros Ex Ey B. cbn [nmul]. apply round64_integer; [|exact B].
  rewrite Ex, Ey. now rewrite inject_Z_mult.
Qed.

(** Roundings and subtractions far from zero stay far from zero. *)
Lemma round64_at_most q b :
  q <= - b -> 1 <= b -> at_most (round64 q) (- ((1 # 2) * b)).
Proof.
  intros L B.
  destruct (round64_low q b L B) as [-> | (r & -> & L')]; [exact I|].
  cbn [at_most]. unfold Qdiv in L'. change (/ 2) with (1 # 2) in L'. lra.
Qed.

Lemma round64_at_least q b :
  b <= q -> 1 <= b -> at_least (round64 q) ((1 # 2) * b).
Proof.
  intros L B.
  destruct (round64_high q b L B) as [-> | (r & -> & L')]; [exact I|].
  cbn [at_least]. unfold Qdiv in L'. change (/ 2) with (1 # 2) in L'. lra.
Qed.

Lemma at_most_weaken n a b : at_most n a -> a <= b -> at_most n b.
Proof. destruct n; cbn [at_most]; trivial. intros; lra. Qed.

Lemma at_least_weaken n a b : at_least n a -> b <= a -> at_least n b.
Proof. destruct n; cbn [at_least]; trivial. intros; lra. Qed.

Lemma nsub_at_most n b c :
  at_most n (- b) -> 0 <= c -> 1 <= b ->
  at_most (nsub n (Fin c)) (- ((1 # 2) * b)).
Proof.
  destruct n as [r| | |]; cbn [at_most]; intros L C B; try contradiction.
  - cbn [nsub]. apply round64_at_most; lra.
  - exact I.
Qed.

Lemma nsub_at_least n b c :
  at_least n b -> 0 <= c <= (1 # 2) * b -> 2 <= b ->
  at_least (nsub n (Fin c)) ((1 # 4) * b).
Proof.
  destruct n as [r| | |]; cbn [at_least]; intros L C B; try contradiction.
  - cbn [nsub].
    apply (at_least_weaken _ ((1 # 2) * ((1 # 2) * b))); [|lra].
    apply round64_at_least; lra.
  - exact I.
Qed.

Lemma nsub_from_at_least c n b :
  at_least n b -> c <= (1 # 2) * b -> 2 <= b ->
  at_most (nsub (Fin c) n) (- ((1 # 4) * b)).
Proof.
  destruct n as [r| | |]; cbn [at_least]; intros L C B; try contradiction.
  - cbn [nsub].
    apply (at_most_weaken _ (- ((1 # 2) * ((1 # 2) * b)))); [|lra].
    apply round64_at_most; lra.
  - exact I.
Qed.

Lemma nsub_from_at_most c n b :
  at_most n (- b) -> 0 <= c -> 1 <= b ->
  at_least (nsub (Fin c) n) ((1 # 2) * b).
Proof.
  destruct n as [r| | |]; cbn [at_most]; intros L C B; try contradiction.
  - cbn [nsub]. apply round64_at_least; lra.
  - exact I.
Qed.

Lemma nsub_number n c : n <> NaN -> nsub n (Fin c) <> NaN.
Proof.
  destruct n; intros N; try congruence; cbn [nsub nadd nneg];
    try discriminate. apply round64_number.
Qed.

Lemma nsub_from_number c n : n <> NaN -> nsub (Fin c) n <> NaN.
Proof.
  destruct n; intros N; try congruence; cbn [nsub nadd nneg];
    try discriminate. apply round64_number.
Qed.

(** The penalties for a brief or a short walk, on a score that is a whole
    number, far below zero, or far above a hundred. *)
Lemma penalties_exact (brief short : bool) r a :
  r == inject_Z a -> (Z.abs a + 35 < 2 ^ 53)%Z ->
  exists q,
    (let g := Fin r in
     let g := if brief then nsub g (num 20) else g in
     if short then nsub g (num 15) else g) = Fin q
    /\ q == r - 20 * Spec.indicator brief - 15 * Spec.indicator short.
Proof.
  intros E B. cbv zeta. change (2 ^ 53)%Z with 9007199254740992%Z in B.
  assert (S1 : exists q1 a1,
             (if brief then nsub (Fin r) (num 20) else Fin r) = Fin q1
             /\ q1 == inject_Z a1
             /\ q1 == r - 20 * Spec.indicator brief
             /\ (Z.abs a1 + 15 < 9007199254740992)%Z).
  { destruct brief; cbn [Spec.indicator].
    - destruct (nsub_integer r (inject_Z 20) a 20 E (Qeq_refl _))
        as (q1 & E1 & Eq1).
      + change (2 ^ 53)%Z with 9007199254740992%Z. lia.
      + exists q1, (a - 20)%Z. split; [exact E1|]. split; [exact Eq1|].
        split; [|lia]. rewrite Eq1. unfold Z.sub.
        rewrite inject_Z_plus, inject_Z_opp, E.
        change (inject_Z 20) with 20. ring.
    - exists r, a. split; [reflexivity|]. split; [exact E|].
      split; [ring | lia]. }
  destruct S1 as (q1 & a1 & -> & E1 & Eq1 & B1).
  destruct short; cbn [Spec.indicator].
  - destruct (nsub_integer q1 (inject_Z 15) a1 15 E1 (Qeq_refl _))
      as (q2 & E2 & Eq2).
    + change (2 ^ 53)%Z with 9007199254740992%Z. lia.
    + exists q2. split; [exact E2|]. rewrite Eq2. unfold Z.sub.
      rewrite inject_Z_plus, inject_Z_opp, <- E1, Eq1.
      change (inject_Z 15) with 15. ring.
  - exists q1. split; [reflexivity|]. rewrite Eq1. ring.
Qed.

Lemma penalties_at_most (brief short : bool) n b :
  at_most n (- b) -> 4 <= b ->
  at_most (let g := n in
           let g := if brief then nsub g (num 20) else g in
           if short then nsub g (num 15) else g) (- ((1 # 4) * b)).
Proof.
  intros L B. cbv zeta.
  assert (L1 : at_most (if brief then nsub n (num 20) else n)
                       (- ((1 # 2) * b))).
  { destruct brief.
    - apply nsub_at_most; [exact L | discriminate | lra].
    - apply (at_most_weaken _ _ _ L). lra. }
  destruct short.
  - apply (at_most_weaken _ (- ((1 # 2) * ((1 # 2) * b)))); [|lra].
    apply nsub_at_most; [exact L1 | discriminate | lra].
  - apply (at_most_weaken _ _ _ L1). lra.
Qed.

Lemma penalties_at_least (brief short : bool) n b :
  at_least n b -> 1000 <= b ->
  at_least (let g := n in
            let g := if brief then nsub g (num 20) else g in
            if short then nsub g (num 15) else g) ((1 # 16) * b).
Proof.
  intros L B. cbv zeta.
  assert (L1 : at_least (if brief then nsub n (num 20) else n)
                        ((1 # 4) * b)).
  { destruct brief.
    - apply nsub_at_least; [exact L | | lra].
      change (inject_Z 20) with 20. lra.
    - apply (at_least_weaken _ _ _ L). lra. }
  destruct short.
  - apply (at_least_weaken _ ((1 # 4) * ((1 # 4) * b))); [|lra].
    apply nsub_at_least; [exact L1 | | lra].
    change (inject_Z 15) with 15. lra.
  - apply (at_least_weaken _ _ _ L1). lra.
Qed.

Lemma penalties_number (brief short : bool) n :
  n <> NaN ->
  (let g := n in
   let g := if brief then nsub g (num 20) else g in
   if short then nsub g (num 15) else g) <> NaN.
Proof.
  intros N. cbv zeta.
  destruct brief, short; repeat apply nsub_number; exact N.
Qed.

(** The score of the counters, for a whole number of stops. *)
Lemma penalty_score_of_counters d m z :
  exists q,
    V60.gradeScore_of (jor (JNum (Fin d)) (jnum 0))
                      (jor (JNum (Fin m)) (jnum 0))
                      (jor (JNum (Fin (inject_Z z))) (jnum 0)) = Fin q
    /\ q == Spec.penalty_score d m (inject_Z z).
Proof.
  unfold V60.gradeScore_of.
  destruct (counter_or_zero d) as (d' & -> & Ed).
  destruct (counter_or_zero m) as (m' & -> & Em).
  destruct (counter_or_zero (inject_Z z)) as (s' & -> & Es).
  unfold Spec.penalty_score. unfold num. cbn [nlt].
  change (inject_Z 900) with 900. change (inject_Z 500) with 500.
  assert (E9 : Qle_bool 900 d' = Qle_bool 900 d) by now rewrite Ed.
  assert (E5 : Qle_bool 500 m' = Qle_bool 500 m) by now rewrite Em.
  rewrite E9, E5.
  set (brief := negb (Qle_bool 900 d)).
  set (short := negb (Qle_bool 500 m)).
  assert (I0 : 0 <= Spec.indicator brief <= 1)
    by (destruct brief; cbn; split; discriminate).
  assert (I1 : 0 <= Spec.indicator short <= 1)
    by (destruct short; cbn; split; discriminate).
  cbv zeta.
  destruct (Z_lt_le_dec (Z.abs z) 1125899906842624) as [Small | Big].
  - destruct (nmul_integer s' (inject_Z 5) z 5 Es (Qeq_refl _))
      as (p & Ep & Eqp);
      [change (2 ^ 53)%Z with 9007199254740992%Z; lia|].
    rewrite Ep.
    destruct (nsub_integer (inject_Z 100) p 100 (z * 5)
                (Qeq_refl _) Eqp) as (g & Eg & Eqg);
      [change (2 ^ 53)%Z with 9007199254740992%Z; lia|].
    rewrite Eg.
    destruct (penalties_exact brief short g (100 - z * 5) Eqg)
      as (q0 & E0 & Eq0);
      [change (2 ^ 53)%Z with 9007199254740992%Z; lia|].
    cbv zeta in E0. unfold num in E0. rewrite E0.
    destruct (clamp_fin q0) as (q & E & Eq).
    exists q. split; [exact E|]. rewrite Eq. unfold Spec.clamp.
    apply Q.max_compat; [reflexivity|].
    apply Q.min_compat; [reflexivity|].
    rewrite Eq0, Eqg. unfold Z.sub.
    rewrite inject_Z_plus, inject_Z_opp, inject_Z_mult.
    change (inject_Z 100) with 100. change (inject_Z 5) with 5. ring.
  - set (K := 1125899906842624) in *.
    destruct (Z_le_gt_dec 0 z) as [Pos | Neg].
    + assert (Z : inject_Z 1125899906842624 <= inject_Z z)
        by (rewrite <- Zle_Qle; lia).
      change (inject_Z 1125899906842624) with 1125899906842624 in Z.
      assert (A : at_most
                    (let g := nsub (Fin (inject_Z 100))
                                   (nmul (Fin s') (Fin (inject_Z 5))) in
                     let g := if brief then nsub g (num 20) else g in
                     if short then nsub g (num 15) else g) 0).
      { eapply at_most_weaken.
        - apply (penalties_at_most brief short _ 1000).
          + eapply at_most_weaken.
            * apply (nsub_from_at_least _ _ 1000000).
              -- cbn [nmul]. eapply at_least_weaken.
                 ++ apply (round64_at_least _ 1125899906842624).
                    ** rewrite Es. change (inject_Z 5) with 5. lra.
                    ** discriminate.
                 ++ discriminate.
              -- discriminate.
              -- discriminate.
            * discriminate.
          + discriminate.
        - discriminate. }
      cbv zeta in A. unfold num in A.
      destruct (clamp_at_most _ A) as (q & E & Eq).
      exists q. split; [exact E|]. rewrite Eq. symmetry.
      apply clamp_low. lra.
    + assert (Z : inject_Z z <= inject_Z (- 1125899906842624))
        by (rewrite <- Zle_Qle; lia).
      change (inject_Z (- 1125899906842624))
        with (- 1125899906842624) in Z.
      assert (A : at_least
                    (let g := nsub (Fin (inject_Z 100))
                                   (nmul (Fin s') (Fin (inject_Z 5))) in
                     let g := if brief then nsub g (num 20) else g in
                     if short then nsub g (num 15) else g) 100).
      { eapply at_least_weaken.
        - apply (penalties_at_least brief short _ 1600).
          + eapply at_least_weaken.
            * apply (nsub_from_at_most _ _ 3200).
              -- cbn [nmul]. eapply at_most_weaken.
                 ++ apply (round64_at_most _ 1125899906842624).
                    ** rewrite Es. change (inject_Z 5) with 5. lra.
                    ** discriminate.
                 ++ discriminate.
              -- discriminate.
              -- discriminate.
            * discriminate.
          + discriminate.
        - discriminate. }
      cbv zeta in A. unfold num in A.
      destruct (clamp_at_least _ A) as (q & E & Eq).
      exists q. split; [exact E|]. rewrite Eq. symmetry.
      apply clamp_high. lra.
Qed.

(** The score of any counters lies between 0 and 100. *)
Lemma penalty_score_bounded d m s :
  exists q,
    V60.gradeScore_of (jor (JNum (Fin d)) (jnum 0))
                      (jor (JNum (Fin m)) (jnum 0))
                      (jor (JNum (Fin s)) (jnum 0)) = Fin q
    /\ 0 <= q <= 100.
Proof.
  unfold V60.gradeScore_of.
  destruct (counter_or_zero d) as (d' & -> & Ed).
  destruct (counter_or_zero m) as (m' & -> & Em).
  destruct (counter_or_zero s) as (s' & -> & Es).
  cbv zeta. apply (clamp_number _).
  apply (penalties_number (nlt (Fin d') (num 900))
                          (nlt (Fin m') (num 500))).
  apply nsub_from_number. cbn [nmul num]. apply round64_number.
Qed.

End Grading.

Section Percentages.
Import JS.
Import Notions.
Context {rt : Runtime}.
Local Open Scope Q_scope.

Lemma holds_or_zero v q :
  holds v q ->
  exists q', ToNumber (jor v (jnum 0)) = Fin q' /\ q' == q.
Proof.
  intros [-> | [N E]].
  - apply counter_or_zero.
  - exists (inject_Z 0). split; [|now rewrite E].
    destruct v; try discriminate; reflexivity.
Qed.

Lemma holds_or_one v t :
  holds v t ->
  exists t', ToNumber (jor v (jnum 1)) = Fin t'
             /\ t' == Spec.or_one t /\ ~ t' == 0.
Proof.
  unfold Spec.or_one. intros [-> | [N E]].
  - unfold jor, truthy. destruct (Qeq_bool t 0) eqn:E0; cbn [negb ToNumber].
    + exists (inject_Z 1).
      split; [reflexivity|]. split; [reflexivity | discriminate].
    + exists t. split; [reflexivity|]. split; [reflexivity|].
      now apply Qeq_bool_false.
  - exists (inject_Z 1).
    assert (E0 : Qeq_bool t 0 = true) by now apply Qeq_bool_iff.
    rewrite E0. split; [|split; [reflexivity | discriminate]].
    destruct v; try discriminate; reflexivity.
Qed.

Lemma or_one_max t : t == 0 \/ 1 <= t -> Spec.or_one t == Qmax 1 t.
Proof.
  unfold Spec.or_one. intros [E | L].
  - assert (E0 : Qeq_bool t 0 = true) by now apply Qeq_bool_iff.
    rewrite E0, Q.max_l; [reflexivity | rewrite E; discriminate].
  - destruct (Qeq_bool t 0) eqn:E0.
    + apply Qeq_bool_iff in E0. rewrite E0 in L. now exfalso.
    + now rewrite Q.max_r.
Qed.

Lemma percent_or_one_max part total :
  total == 0 \/ 1 <= total ->
  Spec.percent_or_one part total == Spec.percent part total.
Proof.
  intros H. unfold Spec.percent_or_one, Spec.percent.
  now rewrite (or_one_max total H).
Qed.

Lemma round64_zero q : q == 0 -> round64 q = Fin 0.
Proof.
  intros E. unfold round64.
  assert (E0 : Qeq_bool q 0 = true) by now apply Qeq_bool_iff.
  now rewrite E0.
Qed.

(** A hundred times a rounded quotient, rounded. *)
Lemma hundredfold_near q :
  2 ^ (-1022) <= Qabs q -> Qabs q <= 2 ^ 1000 ->
  exists r1 r2,
    round64 q = Fin r1 /\ round64 (r1 * inject_Z 100) = Fin r2
    /\ near r2 (100 * q).
Proof.
  intros Lo Hi.
  assert (Hi' : Qabs q < 2 ^ 1023)
    by (eapply Qle_lt_trans; [exact Hi | reflexivity]).
  destruct (round64_error q Lo Hi') as (r1 & E1 & Err1).
  assert (T : 200 * 2 ^ 1000 < 2 ^ 1023) by reflexivity.
  pose proof (pow2_pos (-1022)) as P.
  rewrite ulp53 in Err1. apply Qabs_Qle_condition in Err1.
  assert (B : 2 ^ (-1022) <= Qabs (r1 * inject_Z 100)
              /\ Qabs (r1 * inject_Z 100) < 2 ^ 1023
              /\ Qabs (r1 * inject_Z 100) <= 100 * Qabs q
                                             + 100 * Qabs q * (1 # 2)).
  { change (inject_Z 100) with 100.
    set (tiny := 2 ^ (-1022)) in *. set (huge := 2 ^ 1000) in *.
    set (top := 2 ^ 1023) in *. clearbody tiny huge top.
    destruct (Qlt_le_dec q 0) as [S | S].
    - rewrite (Qabs_neg q) in * by lra.
      rewrite (Qabs_neg (r1 * 100)) by lra. lra.
    - rewrite (Qabs_pos q) in * by lra.
      rewrite (Qabs_pos (r1 * 100)) by lra. lra. }
  destruct B as (Lo2 & Hi2 & B2).
  destruct (round64_error _ Lo2 Hi2) as (r2 & E2 & Err2).
  exists r1, r2. split; [exact E1|]. split; [exact E2|].
  unfold near.
  assert (U : 2 ^ (-51) == 1 # 2251799813685248) by reflexivity.
  rewrite U. rewrite ulp53 in Err2.
  apply Qabs_Qle_condition in Err2. apply Qabs_Qle_condition.
  change (inject_Z 100) with 100 in *.
  set (tiny := 2 ^ (-1022)) in *. set (huge := 2 ^ 1000) in *.
  set (top := 2 ^ 1023) in *. clearbody tiny huge top.
  destruct (Qlt_le_dec q 0) as [S | S].
  - rewrite (Qabs_neg q) in * by lra.
    rewrite (Qabs_neg (r1 * 100)) in * by lra.
    rewrite (Qabs_neg (100 * q)) by lra. lra.
  - rewrite (Qabs_pos q) in * by lra.
    rewrite (Qabs_pos (r1 * 100)) in * by lra.
    rewrite (Qabs_pos (100 * q)) by lra. lra.
Qed.

(** A hundred times a whole quotient. *)
Lemma hundredfold_whole q k :
  q == inject_Z k -> (Z.abs k <= 2 ^ 46)%Z ->
  exists r1 r2,
    round64 q = Fin r1 /\ round64 (r1 * inject_Z 100) = Fin r2
    /\ r2 == 100 * q.
Proof.
  intros E B. change (2 ^ 46)%Z with 70368744177664%Z in B.
  destruct (round64_integer q k E) as (r1 & E1 & Eq1);
    [change (2 ^ 53)%Z with 9007199254740992%Z; lia|].
  destruct (round64_integer (r1 * inject_Z 100) (k * 100))
    as (r2 & E2 & Eq2).
  - now rewrite Eq1, inject_Z_mult.
  - change (2 ^ 53)%Z with 9007199254740992%Z. lia.
  - exists r1, r2. split; [exact E1|]. split; [exact E2|].
    rewrite Eq2, inject_Z_mult, E. change (inject_Z 100) with 100. ring.
Qed.

Lemma near_zero x y : x == 0 -> y == 0 -> near x y.
Proof.
  intros Ex Ey. unfold near. rewrite Ex, Ey. vm_compute. discriminate.
Qed.

Lemma percent_of part total (p t : Q) :
  p == part -> t == Spec.or_one total -> ~ t == 0 ->
  ordinary (part / Spec.or_one total) = true ->
  exists r, nmul (ndiv (Fin p) (Fin t)) (num 100) = Fin r
            /\ near r (Spec.percent_or_one part total)
            /\ (whole (part / Spec.or_one total) ->
                r == Spec.percent_or_one part total).
Proof.
  intros Ep Et Nt O. unfold ndiv.
  destruct (Qeq_bool t 0) eqn:E0;
    [apply Qeq_bool_iff in E0; contradiction|].
  assert (Eq : p / t == part / Spec.or_one total) by now rewrite Ep, Et.
  assert (Ey : Spec.percent_or_one part total == 100 * (p / t)).
  { unfold Spec.percent_or_one. rewrite Eq. field.
    now rewrite <- Et. }
  unfold ordinary in O. rewrite <- Eq in O.
  assert (W : whole (part / Spec.or_one total) ->
              forall r1 r2, round64 (p / t) = Fin r1 ->
                            round64 (r1 * inject_Z 100) = Fin r2 ->
                            r2 == Spec.percent_or_one part total).
  { intros (k & B & Ek) r1 r2 E1 E2. rewrite <- Eq in Ek.
    destruct (hundredfold_whole _ k Ek B) as (r1' & r2' & E1' & E2' & R).
    rewrite E1 in E1'. injection E1' as <-.
    rewrite E2 in E2'. injection E2' as <-.
    now rewrite R, Ey. }
  apply orb_true_iff in O. destruct O as [Z0 | O].
  - apply Qeq_bool_iff in Z0.
    exists 0. split; [|split].
    + rewrite (round64_zero _ Z0). cbn [nmul num].
      apply round64_zero. reflexivity.
    + apply near_zero; [reflexivity|]. rewrite Ey, Z0. reflexivity.
    + intros _. rewrite Ey, Z0. reflexivity.
  - apply andb_true_iff in O. destruct O as [Lo Hi].
    apply Qle_bool_iff in Lo, Hi.
    destruct (hundredfold_near _ Lo Hi) as (r1 & r2 & E1 & E2 & N).
    exists r2. rewrite E1. cbn [nmul num]. split; [exact E2|]. split.
    + unfold near in *. now rewrite Ey.
    + intros Wh. exact (W Wh r1 r2 E1 E2).
Qed.

End Percentages.



(** C6.  The grade letter follows the score by non-strict descending
    thresholds, in both servers alike: A from 90, B from 70 and below 90,
    C from 50 and below 70, F below 50. *)
Theorem grade_thresholds {rt : JS.Runtime} (score : JS.JVal) (q : Q) :
  JS.ToNumber score = JS.Fin q ->
  V61.grade_of score = V60.grade_of (JS.Fin q)
  /\ ((90 <= q)%Q -> V61.grade_of score = "A"%string)
  /\ ((70 <= q /\ q < 90)%Q -> V61.grade_of score = "B"%string)
  /\ ((50 <= q /\ q < 70)%Q -> V61.grade_of score = "C"%string)
  /\ ((q < 50)%Q -> V61.grade_of score = "F"%string).
Proof.
  intros E. unfold V61.grade_of, V60.grade_of. rewrite E.
  unfold JS.nge, JS.nlt, JS.num.
  change (inject_Z 90) with 90%Q. change (inject_Z 70) with 70%Q.
  change (inject_Z 50) with 50%Q.
  destruct (Qle_bool 90 q) eqn:E90;
    [apply Qle_bool_iff in E90 | apply Qle_bool_false in E90];
    (destruct (Qle_bool 70 q) eqn:E70;
     [apply Qle_bool_iff in E70 | apply Qle_bool_false in E70]);
    (destruct (Qle_bool 50 q) eqn:E50;
     [apply Qle_bool_iff in E50 | apply Qle_bool_false in E50]);
    cbn [negb]; repeat split; intros; try reflexivity; exfalso; lra.
Qed.

(** The grades of the scores 95, 70, 50 and 49. *)
Lemma grade_thresholds_witness :
  @V61.grade_of Samples.rt0 (JS.jnum 95) = "A"%string
  /\ @V61.grade_of Samples.rt0 (JS.jnum 70) = "B"%string
  /\ @V61.grade_of Samples.rt0 (JS.jnum 50) = "C"%string
  /\ @V61.grade_of Samples.rt0 (JS.jnum 49) = "F"%string.
Proof.
  split; [|split; [|split]].
  - apply (@grade_thresholds Samples.rt0 (JS.jnum 95) 95 eq_refl).
    discriminate.
  - apply (@grade_thresholds Samples.rt0 (JS.jnum 70) 70 eq_refl).
    split; [discriminate | reflexivity].
  - apply (@grade_thresholds Samples.rt0 (JS.jnum 50) 50 eq_refl).
    split; [discriminate | reflexivity].
  - apply (@grade_thresholds Samples.rt0 (JS.jnum 49) 49 eq_refl).
    reflexivity.
Defined.

(** C7, as the server computes it.  The percentages are the doubles
    [((seconds || 0) / (totalDurationSeconds || 1)) * 100]: a total duration
    that is zero or absent counts as one second, and every other total
    duration is used as it is.  When the quotient of the seconds by that
    divisor is zero or of a magnitude from [2^-1022] to [2^1000], each
    percentage is a finite number within [2^-51], relatively, of
    [100 * seconds / (totalDurationSeconds || 1)], and it is that value
    exactly when the quotient is a whole number up to [2^46].  For a total
    duration of zero or of at least one second that value is
    [100 * seconds / max(1, totalDurationSeconds)]. *)
Theorem percent_formula {rt : JS.Runtime} (walkData : JS.JVal)
        (carried actual total : Q) :
  JS.holds (JS.oprop walkData "carried_seconds") carried ->
  JS.holds (JS.oprop walkData "actual_walk_seconds") actual ->
  JS.holds (JS.oprop walkData "duration_seconds") total ->
  Notions.ordinary (carried / Spec.or_one total) = true ->
  Notions.ordinary (actual / Spec.or_one total) = true ->
  exists carriedPercent actualWalkPercent : Q,
    V61.carriedPercent_of walkData = JS.Fin carriedPercent
    /\ V61.actualWalkPercent_of walkData = JS.Fin actualWalkPercent
    /\ Notions.near carriedPercent (Spec.percent_or_one carried total)
    /\ Notions.near actualWalkPercent (Spec.percent_or_one actual total)
    /\ (Notions.whole (carried / Spec.or_one total) ->
        (carriedPercent == Spec.percent_or_one carried total)%Q)
    /\ (Notions.whole (actual / Spec.or_one total) ->
        (actualWalkPercent == Spec.percent_or_one actual total)%Q)
    /\ ((total == 0 \/ 1 <= total)%Q ->
        (Spec.percent_or_one carried total == Spec.percent carried total)%Q
        /\ (Spec.percent_or_one actual total
            == Spec.percent actual total)%Q).
Proof.
  intros Hc Ha Ht Oc Oa.
  unfold V61.carriedPercent_of, V61.actualWalkPercent_of, V61.totalSeconds_of.
  destruct (holds_or_zero _ _ Hc) as (c' & -> & Ec).
  destruct (holds_or_zero _ _ Ha) as (a' & -> & Ea).
  destruct (holds_or_one _ _ Ht) as (t' & -> & Et & Nt).
  destruct (percent_of carried total c' t' Ec Et Nt Oc) as (p & -> & Np & Wp).
  destruct (percent_of actual total a' t' Ea Et Nt Oa) as (r & -> & Nr & Wr).
  exists p, r. repeat split; try assumption;
    now apply percent_or_one_max.
Qed.

(** A walk of zero seconds with thirty seconds carried: 3000 percent. *)
Lemma percent_formula_witness :
  @V61.carriedPercent_of Samples.rt0 Samples.zero_second_walk
  = JS.Fin 3000
  /\ exists carriedPercent actualWalkPercent : Q,
      @V61.carriedPercent_of Samples.rt0 Samples.zero_second_walk
      = JS.Fin carriedPercent
      /\ @V61.actualWalkPercent_of Samples.rt0 Samples.zero_second_walk
         = JS.Fin actualWalkPercent
      /\ (carriedPercent == Spec.percent 30 0)%Q
      /\ (actualWalkPercent == Spec.percent 0 0)%Q.
Proof.
  split; [vm_compute; reflexivity|].
  destruct (@percent_formula Samples.rt0 Samples.zero_second_walk 30 0 0
              (or_introl eq_refl) (or_introl eq_refl) (or_introl eq_refl)
              eq_refl eq_refl)
    as (p & r & Ep & Er & _ & _ & Wp & Wr & M).
  exists p, r. split; [exact Ep|]. split; [exact Er|].
  destruct (M (or_introl (Qeq_refl 0))) as [Mp Mr].
  split.
  - apply Qeq_trans with (Spec.percent_or_one 30 0); [|exact Mp].
    apply Wp. exists 30%Z. split; [discriminate | reflexivity].
  - apply Qeq_trans with (Spec.percent_or_one 0 0); [|exact Mr].
    apply Wr. exists 0%Z. split; [discriminate | reflexivity].
Defined.

(** C7 as it is stated fails for a total duration of half a second with
    thirty seconds carried: the server divides by the half second and
    finds 6000 percent, where [100 * 30 / max(1, 1/2)] is 3000. *)
Lemma percent_counterexample :
  JS.oprop Samples.half_second_walk "duration_seconds"
  = JS.JNum (JS.Fin (1 # 2))
  /\ JS.oprop Samples.half_second_walk "carried_seconds" = JS.jnum 30
  /\ @V61.carriedPercent_of Samples.rt0 Samples.half_second_walk
     = JS.Fin 6000
  /\ (Spec.percent 30 (1 # 2) == 3000)%Q.
Proof. repeat split; vm_compute; reflexivity. Qed.

(** Outside that range a percentage need not be finite: a thousandth of a
    second with [10^308] seconds carried overflows to infinity. *)
Example percent_overflows :
  @V61.carriedPercent_of Samples.rt0 Notions.endless_walk = JS.PInf.
Proof. vm_compute. reflexivity. Qed.

(* ================================================================== *)
(** * Reasoning about handlers *)

Section Frames.
Import JS Db.

Lemma bind_Ret {A B} (m : M A) (k : A -> M B) w a :
  fst (m w) = Ret a -> bind m k w = k a (snd (m w)).
Proof. unfold bind. destruct (m w) as [[x| |] w']; simpl; congruence. Qed.

Lemma bind_Sent {A B} (m : M A) (k : A -> M B) w r :
  fst (m w) = Sent r -> bind m k w = (Sent r, snd (m w)).
Proof. unfold bind. destruct (m w) as [[x| |] w']; simpl; congruence. Qed.

Lemma try_catch_Sent body handler w r :
  fst (body w) = Sent r -> try_catch body handler w = (r, snd (body w)).
Proof.
  unfold try_catch. destruct (body w) as [[[]| |] w']; simpl; congruence.
Qed.

(** ** Computations that return *)

Lemma returns_bind {A B} (m : M A) (k : A -> M B) :
  returns m -> (forall a, returns (k a)) -> returns (bind m k).
Proof.
  intros Hm Hk w. destruct (Hm w) as (a & E).
  rewrite (bind_Ret _ _ _ _ E). apply Hk.
Qed.

Lemma returns_ret {A} (a : A) : returns (ret a).
Proof. intros w. now exists a. Qed.

Lemma returns_print l text : returns (print l text).
Proof. intros w. now exists tt. Qed.

Lemma returns_when c m : returns m -> returns (when c m).
Proof. destruct c; [trivial | intros _; apply returns_ret]. Qed.

Lemma returns_call {A} env site (failed : jsstring -> A) run :
  returns (call env site failed run).
Proof.
  intros w. unfold call. destruct (faults env site).
  - eexists. reflexivity.
  - destruct (run (db w)). eexists. reflexivity.
Qed.

(** ** Relations kept between the world before and the world after *)

Lemma keeps_bind {A B} R `{PreOrder World R} (m : M A) (k : A -> M B) :
  keeps R m -> (forall a, keeps R (k a)) -> keeps R (bind m k).
Proof.
  intros Hm Hk w. unfold bind. specialize (Hm w).
  destruct (m w) as [[a| |] w'] eqn:E; simpl in *; trivial.
  specialize (Hk a w'). destruct (k a w'); simpl in *.
  etransitivity; eassumption.
Qed.

Lemma keeps_ret {A} R `{PreOrder World R} (a : A) : keeps R (ret a).
Proof. intros w. reflexivity. Qed.

Lemma keeps_throw {A} R `{PreOrder World R} : keeps R (@throw A).
Proof. intros w. reflexivity. Qed.

Lemma keeps_respond {A} R `{PreOrder World R} code b :
  keeps R (@respond A code b).
Proof. intros w. reflexivity. Qed.

Lemma keeps_when R `{PreOrder World R} c m :
  keeps R m -> keeps R (when c m).
Proof. destruct c; [trivial | intros _; now apply keeps_ret]. Qed.

Lemma keeps_get R `{PreOrder World R} v k : keeps R (get v k).
Proof.
  unfold get. destruct (prop v k); [now apply keeps_ret | now apply keeps_throw].
Qed.

#[export] Instance same_table_PreOrder t : PreOrder (same_table t).
Proof.
  split; [intros w; reflexivity|].
  intros a b c Hab Hbc. unfold same_table in *. congruence.
Qed.

#[export] Instance same_db_PreOrder : PreOrder same_db.
Proof.
  split; [intros w; reflexivity|].
  intros a b c Hab Hbc. unfold same_db in *. congruence.
Qed.

#[export] Instance journal_adds_PreOrder P : PreOrder (journal_adds P).
Proof.
  split.
  - intros w. exists []. split; [now rewrite app_nil_r | constructor].
  - intros a b c (j1 & E1 & F1) (j2 & E2 & F2). exists (j1 ++ j2).
    split; [now rewrite E2, E1, app_assoc | now apply Forall_app].
Qed.

Lemma keeps_print_table t l text : keeps (same_table t) (print l text).
Proof. intros w. reflexivity. Qed.

Lemma keeps_print_db l text : keeps same_db (print l text).
Proof. intros w. reflexivity. Qed.

Lemma keeps_print_journal P l text : keeps (journal_adds P) (print l text).
Proof.
  intros w. exists []. split; [simpl; now rewrite app_nil_r | constructor].
Qed.

Lemma keeps_call_table {A} t env site (failed : jsstring -> A) run :
  (forall s, rows t (snd (run s)) = rows t s) ->
  keeps (same_table t) (call env site failed run).
Proof.
  intros Hrun w. unfold call, same_table. destruct (faults env site).
  - reflexivity.
  - specialize (Hrun (db w)). destruct (run (db w)). exact Hrun.
Qed.

Lemma keeps_call_db {A} env site (failed : jsstring -> A) run :
  (forall s, snd (run s) = s) ->
  keeps same_db (call env site failed run).
Proof.
  intros Hrun w. unfold call, same_db. destruct (faults env site).
  - reflexivity.
  - specialize (Hrun (db w)). destruct (run (db w)). exact Hrun.
Qed.

Lemma keeps_call_journal {A} (P : Site * bool -> Prop) env site
      (failed : jsstring -> A) run :
  (forall ok, P (site, ok)) ->
  keeps (journal_adds P) (call env site failed run).
Proof.
  intros HP w. unfold call, journal_adds. destruct (faults env site).
  - eexists. split; [reflexivity | repeat constructor; apply HP].
  - destruct (run (db w)). eexists.
    split; [reflexivity | repeat constructor; apply HP].
Qed.

Lemma rows_set_rows_other t t' l s :
  t <> t' -> rows t (set_rows t' l s) = rows t s.
Proof. destruct t, t'; intros N; try reflexivity; congruence. Qed.

Lemma rows_set_rows t l s : rows t (set_rows t l s) = l.
Proof. destruct t; reflexivity. Qed.

Lemma rows_bump_id t s : rows t (bump_id s) = rows t s.
Proof. destruct t; reflexivity. Qed.

End Frames.

(* ================================================================== *)
(** * Rows *)

Section Rows.
Import JS Db.

Lemma wire_JObj fs : wire (JObj fs) = JObj (wire_fields fs).
Proof. reflexivity. Qed.

Lemma lookup_absent k (fs : list (string * JVal)) :
  ~ In k (map fst fs) -> lookup k fs = JUndefined.
Proof.
  induction fs as [|[k' v] fs IH]; simpl; intros N; [reflexivity|].
  destruct (String.eqb_spec k k') as [->|D]; [tauto|].
  apply IH. tauto.
Qed.

Lemma wire_fields_keys k fs :
  In k (map fst (wire_fields fs)) -> In k (map fst fs).
Proof.
  induction fs as [|[k' v] fs IH]; simpl; [trivial|].
  destruct v; simpl; tauto.
Qed.

(** Reading a field after the trip over the wire, when no key occurs
    twice. *)
Lemma lookup_wire_fields k fs :
  NoDup (map fst fs) -> lookup k (wire_fields fs) = wire (lookup k fs).
Proof.
  induction fs as [|[k' v] fs IH]; simpl; intros ND; [reflexivity|].
  inversion ND as [|? ? Hk ND']; subst.
  destruct (String.eqb_spec k k') as [->|D].
  - destruct v; simpl; rewrite ?String.eqb_refl; try reflexivity.
    apply lookup_absent. intros I. apply Hk. now apply wire_fields_keys.
  - destruct v; simpl;
      try (destruct (String.eqb_spec k k'); [contradiction|]);
      now apply IH.
Qed.

Lemma oprop_fields_of k fs :
  NoDup (map fst fs) -> lookup k (fields_of (JObj fs)) = wire (lookup k fs).
Proof.
  intros ND. unfold fields_of. rewrite wire_JObj. now apply lookup_wire_fields.
Qed.

Lemma has_key_In k (fs : list (string * JVal)) :
  has_key k fs = true <-> In k (map fst fs).
Proof.
  unfold has_key. rewrite existsb_exists. split.
  - intros ([k' v] & I & E). apply String.eqb_eq in E. simpl in E. subst.
    now apply (in_map fst) in I.
  - intros I. apply in_map_iff in I as ([k' v] & E & I). simpl in E. subst.
    exists (k, v). split; [exact I | apply String.eqb_refl].
Qed.

Lemma lookup_app k (a b : list (string * JVal)) :
  lookup k (a ++ b) = if has_key k a then lookup k a else lookup k b.
Proof.
  induction a as [|[k' v] a IH]; simpl; [reflexivity|].
  destruct (String.eqb k k'); simpl; [reflexivity | exact IH].
Qed.

Lemma has_key_filter k f (fs : list (string * JVal)) :
  has_key k (filter (fun kv => f (fst kv)) fs) = has_key k fs && f k.
Proof.
  unfold has_key.
  induction fs as [|[k' v] fs IH]; simpl; [reflexivity|].
  destruct (f k') eqn:F; simpl; rewrite IH;
    destruct (String.eqb_spec k k') as [->|D]; simpl;
    rewrite ?F; try reflexivity.
  now destruct (existsb _ fs).
Qed.

Lemma lookup_filter k f (fs : list (string * JVal)) :
  f k = true -> lookup k (filter (fun kv => f (fst kv)) fs) = lookup k fs.
Proof.
  intros F. induction fs as [|[k' v] fs IH]; simpl; [reflexivity|].
  destruct (f k') eqn:F'; simpl;
    destruct (String.eqb_spec k k') as [->|D]; auto; congruence.
Qed.

(** A merged row reads the new fields where there are any, and the old
    ones elsewhere. *)
Lemma lookup_merge_fields k old new :
  lookup k (merge_fields old new)
  = if has_key k new then lookup k new else lookup k old.
Proof.
  unfold merge_fields. rewrite lookup_app.
  rewrite (has_key_filter k (fun x => negb (has_key x new))).
  destruct (has_key k new) eqn:H; simpl.
  - now rewrite andb_false_r.
  - rewrite andb_true_r.
    rewrite (lookup_filter k (fun x => negb (has_key x new)))
      by now rewrite H.
    destruct (has_key k old) eqn:H'; [reflexivity|].
    rewrite !lookup_absent; [reflexivity | |];
      intros I; apply has_key_In in I; congruence.
Qed.

Lemma oprop_merge_row k old new :
  has_key k (fields_of new) = true ->
  oprop (merge_row old new) k = lookup k (fields_of new).
Proof.
  intros H. unfold merge_row.
  destruct old; simpl; try reflexivity.
  now rewrite lookup_merge_fields, H.
Qed.

Lemma oprop_stored env t row s k :
  has_key k (fields_of row) = true ->
  oprop (stored env t row s) k = lookup k (fields_of row).
Proof.
  intros H. unfold stored. simpl. now rewrite lookup_merge_fields, H.
Qed.

Lemma oprop_stored_default env t row s k :
  has_key k (fields_of row) = false ->
  oprop (stored env t row s) k
  = lookup k (column_defaults t (now env) (next_id s)).
Proof.
  intros H. unfold stored. simpl. now rewrite lookup_merge_fields, H.
Qed.

Lemma sql_eq_wire col v : sql_eq col (wire v) = true -> sql_eq col v = true.
Proof.
  destruct v as [| | |[]| | | |]; simpl; trivial;
    destruct col as [| | |[]| | | |]; simpl; trivial.
Qed.

End Rows.

(* ================================================================== *)
(** * Calls to the store *)

Section StoreCalls.
Import JS Db.
Variable env : Env.

Lemma call_ok {A} site (failed : jsstring -> A) run w :
  faults env site = None ->
  call env site failed run w
  = (Ret (fst (run (db w))),
     {| db := snd (run (db w)); journal := journal w ++ [(site, true)];
        console := console w |}).
Proof. intros E. unfold call. rewrite E. now destruct (run (db w)). Qed.

Lemma call_failed {A} site (failed : jsstring -> A) run w msg :
  faults env site = Some msg ->
  call env site failed run w
  = (Ret (failed msg),
     {| db := db w; journal := journal w ++ [(site, false)];
        console := console w |}).
Proof. intros E. unfold call. now rewrite E. Qed.

Lemma journal_call {A} site (failed : jsstring -> A) run w :
  journal (snd (call env site failed run w))
  = journal w ++ [(site, succeeds env site)].
Proof.
  unfold call, succeeds. destruct (faults env site); [reflexivity|].
  now destruct (run (db w)).
Qed.

Lemma rows_inserted_other t t' row s :
  t <> t' -> rows t (inserted env t' row s) = rows t s.
Proof.
  intros N. unfold inserted. now rewrite rows_bump_id, rows_set_rows_other.
Qed.

Lemma rows_inserted t row s :
  rows t (inserted env t row s) = rows t s ++ [stored env t row s].
Proof. unfold inserted. now rewrite rows_bump_id, rows_set_rows. Qed.

Lemma rows_upserted_other t t' keys row s :
  t <> t' -> rows t (upserted env t' keys row s) = rows t s.
Proof.
  intros N. unfold upserted. destruct (existsb _ _).
  - now apply rows_set_rows_other.
  - now apply rows_inserted_other.
Qed.

Lemma rows_updated_other t t' sel fields s :
  t <> t' -> rows t (updated t' sel fields s) = rows t s.
Proof. intros N. now apply rows_set_rows_other. Qed.

Lemma keeps_insert_table t site t' row :
  t <> t' -> keeps (same_table t) (insert env site t' row).
Proof.
  intros N. apply keeps_call_table. intros s.
  now apply rows_inserted_other.
Qed.

Lemma keeps_insert_returning_table t site t' row :
  t <> t' -> keeps (same_table t) (insert_returning env site t' row).
Proof.
  intros N. apply keeps_call_table. intros s.
  now apply rows_inserted_other.
Qed.

Lemma keeps_upsert_table t site t' keys row :
  t <> t' -> keeps (same_table t) (upsert env site t' keys row).
Proof.
  intros N. apply keeps_call_table. intros s.
  now apply rows_upserted_other.
Qed.

Lemma keeps_update_table t site t' sel fields :
  t <> t' -> keeps (same_table t) (update env site t' sel fields).
Proof.
  intros N. apply keeps_call_table. intros s.
  now apply rows_updated_other.
Qed.

Lemma keeps_select_single_db site t cols sel :
  keeps same_db (select_single env site t cols sel).
Proof.
  apply keeps_call_db. intros s. cbv beta.
  destruct (filter sel (rows t s)) as [|? [|]]; reflexivity.
Qed.

Lemma keeps_select_many_db site t cols sel n :
  keeps same_db (select_many env site t cols sel n).
Proof. apply keeps_call_db. reflexivity. Qed.

Lemma keeps_db_table {A} t (m : M A) : keeps same_db m -> keeps (same_table t) m.
Proof. intros H w. unfold same_table. now rewrite (H w). Qed.

End StoreCalls.

(** [frame] proves that a handler keeps a table, or the whole store, or adds
    only certain calls to the journal, from the calls it is made of;
    [returning] that it neither responds nor raises. *)
Ltac frame :=
  repeat first
    [ progress intros
    | apply keeps_ret | apply keeps_throw | apply keeps_respond
    | apply keeps_get
    | apply keeps_print_table | apply keeps_print_db
    | apply keeps_print_journal
    | apply keeps_when
    | apply keeps_bind
    | apply keeps_insert_table; first [assumption | discriminate]
    | apply keeps_insert_returning_table; first [assumption | discriminate]
    | apply keeps_upsert_table; first [assumption | discriminate]
    | apply keeps_update_table; first [assumption | discriminate]
    | apply keeps_select_single_db | apply keeps_select_many_db
    | apply keeps_db_table
    | apply keeps_call_journal; intros ?; simpl; discriminate
    | typeclasses eauto ].

Ltac returning :=
  repeat first
    [ progress intros
    | apply returns_ret | apply returns_print | apply returns_call
    | apply returns_when | apply returns_bind ].

Section Telemetry60.
Import JS Db.
Context {rt : Runtime}.
Variable cfg : V60.Config.
Variable env : Env.
Variables payload deviceId : JVal.

Lemma update_status60_returns :
  returns (V60.update_status env payload deviceId).
Proof. unfold V60.update_status, upsert. returning. Qed.

Lemma insert_location60_returns :
  returns (V60.insert_location env payload deviceId).
Proof. unfold V60.insert_location, insert. returning. Qed.

Lemma record_scratch60_returns :
  returns (V60.record_scratch env payload deviceId).
Proof. unfold V60.record_scratch, insert, upsert. returning. Qed.

Lemma record_anomaly60_returns :
  returns (V60.record_anomaly env payload deviceId).
Proof. unfold V60.record_anomaly, insert, select_many. returning. Qed.

Lemma update_status60_keeps t :
  t <> device_status ->
  keeps (same_table t) (V60.update_status env payload deviceId).
Proof. intros N. unfold V60.update_status. frame. Qed.

Lemma insert_location60_keeps t :
  t <> locations ->
  keeps (same_table t) (V60.insert_location env payload deviceId).
Proof. intros N. unfold V60.insert_location. frame. Qed.

Lemma record_scratch60_keeps t :
  t <> scratch_events -> t <> scratch_daily ->
  keeps (same_table t) (V60.record_scratch env payload deviceId).
Proof. intros N N'. unfold V60.record_scratch. frame. Qed.

Lemma record_anomaly60_keeps t :
  t <> anomaly_log ->
  keeps (same_table t) (V60.record_anomaly env payload deviceId).
Proof. intros N. unfold V60.record_anomaly. frame. Qed.

End Telemetry60.

Section Telemetry61.
Import JS Db.
Variable env : Env.
Variable data : JVal.

Lemma update_status61_returns : returns (V61.update_status env data).
Proof. unfold V61.update_status, upsert. returning. Qed.

Lemma insert_location61_returns : returns (V61.insert_location env data).
Proof. unfold V61.insert_location, insert. returning. Qed.

Lemma insert_scratch61_returns : returns (V61.insert_scratch env data).
Proof. unfold V61.insert_scratch, insert. returning. Qed.

Lemma insert_anomaly61_returns : returns (V61.insert_anomaly env data).
Proof. unfold V61.insert_anomaly, insert. returning. Qed.

Lemma update_status61_keeps t :
  t <> device_status -> keeps (same_table t) (V61.update_status env data).
Proof. intros N. unfold V61.update_status. frame. Qed.

Lemma insert_location61_keeps t :
  t <> locations -> keeps (same_table t) (V61.insert_location env data).
Proof. intros N. unfold V61.insert_location. frame. Qed.

Lemma insert_scratch61_keeps t :
  t <> scratch_events -> keeps (same_table t) (V61.insert_scratch env data).
Proof. intros N. unfold V61.insert_scratch. frame. Qed.

Lemma insert_anomaly61_keeps t :
  t <> anomaly_log -> keeps (same_table t) (V61.insert_anomaly env data).
Proof. intros N. unfold V61.insert_anomaly. frame. Qed.

End Telemetry61.

(* ================================================================== *)
(** * The telemetry route *)

Section TelemetryRoute.
Import JS Db.
Context {rt : Runtime}.
Variable env : Env.
Local Open Scope gw_scope.

Lemma get_truthy body k w :
  truthy (oprop body k) = true -> get body k w = (Ret (oprop body k), w).
Proof. destruct body; simpl; try discriminate. reflexivity. Qed.

Lemma returns_unit (m : M unit) w : returns m -> fst (m w) = Ret tt.
Proof. intros H. destruct (H w) as ([] & E). exact E. Qed.

Lemma persisting60_same cfg body w :
  db (persisting60 cfg body w) = db w
  /\ journal (persisting60 cfg body w) = journal w.
Proof.
  unfold persisting60, bind.
  destruct (verifyHMAC60_pure cfg body (oprop body "signature") w)
    as (v & l & -> & _).
  split; reflexivity.
Qed.

(** An accepted report runs the four persistence steps in order and is
    answered with [status: 'ok'], whatever the store does. *)
Lemma telemetry60_accepted cfg body w :
  accepted60 cfg body ->
  V60.telemetry cfg env body w
  = ({| status := 200;
        body := wire {{ "status" =: jstr "ok";
                        "device_id" =: oprop body "device_id";
                        "timestamp" =: JTime (now env) }} |},
     snd (V60.record_anomaly env body (oprop body "device_id")
       (snd (V60.record_scratch env body (oprop body "device_id")
         (snd (V60.insert_location env body (oprop body "device_id")
           (snd (V60.update_status env body (oprop body "device_id")
             (persisting60 cfg body w))))))))).
Proof.
  intros [Hid Hsig]. unfold V60.telemetry.
  rewrite (try_catch_Sent _ _ _
             {| status := 200;
                body := wire {{ "status" =: jstr "ok";
                                "device_id" =: oprop body "device_id";
                                "timestamp" =: JTime (now env) }} |}).
  all: unfold V60.telemetry_body.
  all: rewrite (bind_Ret _ _ _ _ (f_equal fst (get_truthy body _ w Hid))).
  all: rewrite get_truthy by exact Hid; cbn [snd].
  all: rewrite Hid; cbn [negb].
  all: rewrite (bind_Ret _ _ _ _ (Hsig w)); cbn [negb].
  all: assert (Ep : forall (k : M Empty_set),
           bind (print log_info "[TELEMETRY] Valid payload") (fun _ => k)
                (snd (V60.verifyHMAC cfg body (oprop body "signature") w))
           = k (persisting60 cfg body w))
    by (intros k; unfold persisting60;
        rewrite (bind_Ret _ _ _ _ (Hsig w)); reflexivity).
  all: rewrite Ep.
  all: rewrite (bind_Ret _ _ _ tt)
    by apply returns_unit, update_status60_returns.
  all: rewrite (bind_Ret _ _ _ tt)
    by apply returns_unit, insert_location60_returns.
  all: rewrite (bind_Ret _ _ _ tt)
    by apply returns_unit, record_scratch60_returns.
  all: rewrite (bind_Ret _ _ _ tt)
    by apply returns_unit, record_anomaly60_returns.
  all: reflexivity.
Qed.

Lemma telemetry61_accepted cfg body w :
  accepted61 cfg body ->
  V61.telemetry cfg env body w
  = ({| status := 200;
        body := wire {{ "status" =: jstr "ok";
                        "received" =: JTime (now env) }} |},
     snd (V61.insert_anomaly env body
       (snd (V61.insert_scratch env body
         (snd (V61.insert_location env body
           (snd (V61.update_status env body w)))))))).
Proof.
  intros (Hid & Hsig & Hdb). unfold V61.telemetry.
  assert (Hbody : truthy body = true)
    by (destruct body; simpl in Hid; try discriminate; reflexivity).
  rewrite (try_catch_Sent _ _ _
             {| status := 200;
                body := wire {{ "status" =: jstr "ok";
                                "received" =: JTime (now env) }} |}).
  all: unfold V61.telemetry_body.
  all: rewrite Hbody, Hid, Hdb; cbn [negb orb].
  all: destruct (V61.key_set cfg && truthy (oprop body "signature"));
    [rewrite Hsig by reflexivity; cbn [negb] |].
  all: unfold bind at 1; cbn [ret].
  all: rewrite (bind_Ret _ _ _ tt)
    by apply returns_unit, update_status61_returns.
  all: rewrite (bind_Ret _ _ _ tt)
    by apply returns_unit, insert_location61_returns.
  all: rewrite (bind_Ret _ _ _ tt)
    by apply returns_unit, insert_scratch61_returns.
  all: rewrite (bind_Ret _ _ _ tt)
    by apply returns_unit, insert_anomaly61_returns.
  all: reflexivity.
Qed.

Lemma telemetry60_unsigned cfg body w :
  V60.key_set cfg = true ->
  truthy (oprop body "device_id") = true ->
  oprop body "signature" = JUndefined ->
  V60.telemetry cfg env body w
  = ({| status := 401;
        body := {{ "error" =: jstr "Invalid signature" }} |},
     {| db := db w; journal := journal w;
        console := console w
                   ++ [(log_warn, "[SECURITY] No signature provided"%string);
                       (log_warn, "[TELEMETRY] Invalid signature"%string)]
     |}).
Proof.
  intros Hkey Hid Hsig.
  unfold V60.telemetry, V60.telemetry_body, try_catch.
  rewrite (bind_Ret _ _ _ _ (f_equal fst (get_truthy body _ w Hid))).
  rewrite get_truthy by exact Hid; cbn [snd].
  rewrite Hid, Hsig. unfold V60.verifyHMAC. rewrite Hkey.
  cbn. rewrite <- app_assoc. reflexivity.
Qed.

Lemma telemetry61_unsigned cfg body w :
  truthy (oprop body "signature") = false ->
  V61.telemetry cfg env body w
  = V61.telemetry {| V61.env_HMAC_KEY := None;
                     V61.supabase := V61.supabase cfg |} env body w.
Proof.
  intros Hsig. unfold V61.telemetry, V61.telemetry_body.
  rewrite Hsig, andb_false_r. reflexivity.
Qed.

End TelemetryRoute.

(* ================================================================== *)
(** * The persistence steps of the V6.0 server, one at a time *)

Section Steps60.
Import JS Db.
Local Open Scope gw_scope.
Variable env : Env.
Variables payload deviceId : JVal.

Lemma update_status60_run w :
  journal (snd (V60.update_status env payload deviceId w))
  = journal w ++ [(status_upsert, succeeds env status_upsert)]
  /\ db (snd (V60.update_status env payload deviceId w))
     = if succeeds env status_upsert
       then upserted env device_status ["device_id"%string]
                     (V60.statusUpdate env payload deviceId) (db w)
       else db w.
Proof.
  unfold V60.update_status, upsert, succeeds, bind.
  destruct (faults env status_upsert) eqn:E.
  - rewrite (call_failed env _ _ _ _ _ E). split; reflexivity.
  - rewrite (call_ok env _ _ _ _ E). split; reflexivity.
Qed.

Lemma insert_location60_run w :
  journal (snd (V60.insert_location env payload deviceId w))
  = journal w
    ++ (if V60.gps_fix payload
        then [(location_insert, succeeds env location_insert)] else [])
  /\ db (snd (V60.insert_location env payload deviceId w))
     = if V60.gps_fix payload && succeeds env location_insert
       then inserted env locations (V60.locationRecord payload deviceId)
                     (db w)
       else db w.
Proof.
  unfold V60.insert_location, insert, succeeds, bind, when.
  destruct (V60.gps_fix payload); cbn [andb].
  2:{ split; [now rewrite app_nil_r | reflexivity]. }
  destruct (faults env location_insert) eqn:E.
  - rewrite (call_failed env _ _ _ _ _ E). split; reflexivity.
  - rewrite (call_ok env _ _ _ _ E). split; reflexivity.
Qed.

Lemma record_scratch60_run w :
  journal (snd (V60.record_scratch env payload deviceId w))
  = journal w
    ++ (if truthy (oprop (oprop payload "scratch") "detected")
        then [(scratch_insert, succeeds env scratch_insert);
              (scratch_daily_upsert, succeeds env scratch_daily_upsert)]
        else []).
Proof.
  unfold V60.record_scratch, insert, upsert, succeeds, bind, when.
  destruct (truthy (oprop (oprop payload "scratch") "detected")).
  2:{ now rewrite app_nil_r. }
  destruct (faults env scratch_insert) eqn:E;
    [rewrite (call_failed env _ _ _ _ _ E)
    | rewrite (call_ok env _ _ _ _ E)];
    cbn [truthy failure print ret fst snd];
    (destruct (faults env scratch_daily_upsert) eqn:E';
     [rewrite (call_failed env _ _ _ _ _ E')
     | rewrite (call_ok env _ _ _ _ E')]);
    cbn [snd journal]; now rewrite <- app_assoc.
Qed.

(** Whether the de-duplication query finds nothing, so that the anomaly
    is recorded: also when the query itself fails. *)
Lemma record_anomaly60_run w :
  let health := oprop payload "health" in
  let sel := V60.logged_today deviceId (oprop health "anomaly_type")
                              (JDay (day_of (now env))) in
  let records :=
    truthy (oprop health "anomaly")
    && (negb (succeeds env anomaly_select)
        || match filter sel (rows anomaly_log (db w)) with
           | [] => true
           | _ => false
           end) in
  journal (snd (V60.record_anomaly env payload deviceId w))
  = journal w
    ++ (if truthy (oprop health "anomaly")
        then (anomaly_select, succeeds env anomaly_select)
             :: (if records
                 then [(anomaly_insert, succeeds env anomaly_insert)]
                 else [])
        else [])
  /\ db (snd (V60.record_anomaly env payload deviceId w))
     = if records && succeeds env anomaly_insert
       then inserted env anomaly_log
              {{ "device_id" =: deviceId;
                 "anomaly_type" =: oprop health "anomaly_type";
                 "deviation_percent" =: oprop health "deviation" }}
              (db w)
       else db w.
Proof.
  unfold V60.record_anomaly, insert, select_many, succeeds, bind, when.
  destruct (truthy (oprop (oprop payload "health") "anomaly"));
    cbn [andb].
  2:{ split; [now rewrite app_nil_r | reflexivity]. }
  destruct (faults env anomaly_select) eqn:E;
    [rewrite (call_failed env _ _ _ _ _ E)
    | rewrite (call_ok env _ _ _ _ E)];
    cbn [fst snd data negb orb andb].
  - destruct (faults env anomaly_insert) eqn:E';
      [rewrite (call_failed env _ _ _ _ _ E')
      | rewrite (call_ok env _ _ _ _ E')];
      cbn [fst snd journal db ret]; rewrite <- app_assoc;
      split; reflexivity.
  - destruct (filter _ (rows anomaly_log (db w))) as [|r l];
      cbn [map firstn List.length Z.of_nat Z.eqb andb].
    + destruct (faults env anomaly_insert) eqn:E';
        [rewrite (call_failed env _ _ _ _ _ E')
        | rewrite (call_ok env _ _ _ _ E')];
        cbn [fst snd journal db ret]; rewrite <- app_assoc;
        split; reflexivity.
    + split; reflexivity.
Qed.

End Steps60.

Section Steps61.
Import JS Db.
Variable env : Env.
Variable data : JVal.

Lemma update_status61_run w :
  journal (snd (V61.update_status env data w))
  = journal w ++ [(status_upsert, succeeds env status_upsert)].
Proof.
  unfold V61.update_status, upsert, succeeds, bind.
  destruct (faults env status_upsert) eqn:E.
  - now rewrite (call_failed env _ _ _ _ _ E).
  - now rewrite (call_ok env _ _ _ _ E).
Qed.

Lemma insert_location61_run w :
  journal (snd (V61.insert_location env data w))
  = journal w
    ++ (if V61.gps_fix data
        then [(location_insert, succeeds env location_insert)] else [])
  /\ db (snd (V61.insert_location env data w))
     = if V61.gps_fix data && succeeds env location_insert
       then inserted env locations (V61.locationRecord data) (db w)
       else db w.
Proof.
  unfold V61.insert_location, insert, succeeds, bind, when.
  destruct (V61.gps_fix data); cbn [andb].
  2:{ split; [now rewrite app_nil_r | reflexivity]. }
  destruct (faults env location_insert) eqn:E.
  - rewrite (call_failed env _ _ _ _ _ E). split; reflexivity.
  - rewrite (call_ok env _ _ _ _ E). split; reflexivity.
Qed.

Lemma insert_scratch61_journal site :
  site <> scratch_insert ->
  keeps (journal_adds (fun e => fst e <> site))
        (V61.insert_scratch env data).
Proof.
  intros N. unfold V61.insert_scratch, insert. frame.
  apply keeps_call_journal. intros ok E. now apply N.
Qed.

Lemma insert_anomaly61_journal site :
  site <> anomaly_insert ->
  keeps (journal_adds (fun e => fst e <> site))
        (V61.insert_anomaly env data).
Proof.
  intros N. unfold V61.insert_anomaly, insert. frame.
  apply keeps_call_journal. intros ok E. now apply N.
Qed.

End Steps61.

Section Journal.
Import JS Db.

Lemma calls_since_app w w' j :
  journal w' = journal w ++ j -> calls_since w w' = j.
Proof.
  intros E. unfold calls_since. rewrite E, skipn_app, skipn_all.
  now rewrite Nat.sub_diag.
Qed.

Lemma called_app site j j' :
  called site (j ++ j') <-> called site j \/ called site j'.
Proof. unfold called. rewrite map_app. apply in_app_iff. Qed.

Lemma not_called site j :
  Forall (fun e : Site * bool => fst e <> site) j -> ~ called site j.
Proof.
  unfold called. intros F I. apply in_map_iff in I as (e & E & I).
  rewrite Forall_forall in F. now apply (F e I).
Qed.

Lemma truthy_number q : truthy (JNum (Fin q)) = true <-> ~ (q == 0)%Q.
Proof.
  simpl. destruct (Qeq_bool q 0) eqn:E; simpl.
  - apply Qeq_bool_iff in E. split; [discriminate | tauto].
  - split; [intros _; now apply Qeq_bool_false | trivial].
Qed.

(** A row that was just added holds the fields it was given. *)
Lemma stored_plain env t fs s :
  column_defaults t (now env) (next_id s) = [] ->
  stored env t (JObj fs) s = wire (JObj fs).
Proof. intros E. unfold stored. now rewrite E. Qed.

End Journal.

Section Location.
Import JS Db.
Context {rt : Runtime}.
Variable env : Env.

Lemma location60 cfg body w :
  accepted60 cfg body ->
  (called location_insert
          (calls_since w (snd (V60.telemetry cfg env body w)))
   <-> V60.gps_fix body = true)
  /\ rows locations (db (snd (V60.telemetry cfg env body w)))
     = rows locations (db w)
       ++ (if V60.gps_fix body && succeeds env location_insert
           then [wire (V60.locationRecord body (oprop body "device_id"))]
           else []).
Proof.
  intros Acc. rewrite (telemetry60_accepted env cfg body w Acc). cbn [snd].
  set (d := oprop body "device_id").
  set (w0 := persisting60 cfg body w).
  set (w1 := snd (V60.update_status env body d w0)).
  set (w2 := snd (V60.insert_location env body d w1)).
  set (w3 := snd (V60.record_scratch env body d w2)).
  set (w4 := snd (V60.record_anomaly env body d w3)).
  destruct (persisting60_same cfg body w) as [D0 J0].
  destruct (update_status60_run env body d w0) as [J1 _].
  destruct (insert_location60_run env body d w1) as [J2 D2].
  pose proof (record_scratch60_run env body d w2) as J3.
  destruct (record_anomaly60_run env body d w3) as [J4 _].
  pose proof (update_status60_keeps env body d locations
                ltac:(discriminate) w0) as K1.
  pose proof (record_scratch60_keeps env body d locations
                ltac:(discriminate) ltac:(discriminate) w2) as K3.
  pose proof (record_anomaly60_keeps env body d locations
                ltac:(discriminate) w3) as K4.
  unfold same_table in K1, K3, K4.
  fold w0 w1 w2 w3 w4 in J0, D0, J1, J2, D2, J3, J4, K1, K3, K4.
  clearbody w0 w1 w2 w3 w4.
  match type of J3 with _ = _ ++ ?j => set (j3 := j) in J3 end.
  match type of J4 with _ = _ ++ ?j => set (j4 := j) in J4 end.
  assert (F3 : ~ called location_insert j3)
    by (unfold called; subst j3; destruct (truthy _); simpl;
        intuition discriminate).
  assert (F4 : ~ called location_insert j4)
    by (unfold called; subst j4;
        repeat match goal with
               | |- context [if ?b then _ else _] => destruct b
               end; simpl; intuition discriminate).
  clearbody j3 j4.
  assert (J : journal w4
              = journal w
                ++ [(status_upsert, succeeds env status_upsert)]
                ++ (if V60.gps_fix body
                    then [(location_insert, succeeds env location_insert)]
                    else [])
                ++ j3 ++ j4)
    by (rewrite J4, J3, J2, J1, J0, <- !app_assoc; reflexivity).
  split.
  - rewrite (calls_since_app w w4 _ J).
    unfold called in *. rewrite !map_app, !in_app_iff.
    destruct (V60.gps_fix body); simpl; [tauto|].
    intuition discriminate.
  - rewrite K4, K3, D2, <- D0, <- K1.
    destruct (V60.gps_fix body && succeeds env location_insert).
    + unfold V60.locationRecord, V61.locationRecord.
      rewrite rows_inserted, stored_plain by reflexivity. reflexivity.
    + now rewrite app_nil_r.
Qed.

Lemma location61 cfg body w :
  accepted61 cfg body ->
  (called location_insert
          (calls_since w (snd (V61.telemetry cfg env body w)))
   <-> V61.gps_fix body = true)
  /\ rows locations (db (snd (V61.telemetry cfg env body w)))
     = rows locations (db w)
       ++ (if V61.gps_fix body && succeeds env location_insert
           then [wire (V61.locationRecord body)]
           else []).
Proof.
  intros Acc. rewrite (telemetry61_accepted env cfg body w Acc). cbn [snd].
  set (w1 := snd (V61.update_status env body w)).
  set (w2 := snd (V61.insert_location env body w1)).
  set (w3 := snd (V61.insert_scratch env body w2)).
  set (w4 := snd (V61.insert_anomaly env body w3)).
  pose proof (update_status61_run env body w) as J1.
  destruct (insert_location61_run env body w1) as [J2 D2].
  destruct (insert_scratch61_journal env body location_insert
              ltac:(discriminate) w2) as (j3 & J3 & F3).
  destruct (insert_anomaly61_journal env body location_insert
              ltac:(discriminate) w3) as (j4 & J4 & F4).
  pose proof (update_status61_keeps env body locations
                ltac:(discriminate) w) as K1.
  pose proof (insert_scratch61_keeps env body locations
                ltac:(discriminate) w2) as K3.
  pose proof (insert_anomaly61_keeps env body locations
                ltac:(discriminate) w3) as K4.
  unfold same_table in K1, K3, K4.
  fold w1 w2 w3 w4 in J1, J2, D2, J3, J4, K1, K3, K4.
  clearbody w1 w2 w3 w4.
  apply not_called in F3, F4.
  assert (J : journal w4
              = journal w
                ++ [(status_upsert, succeeds env status_upsert)]
                ++ (if V61.gps_fix body
                    then [(location_insert, succeeds env location_insert)]
                    else [])
                ++ j3 ++ j4)
    by (rewrite J4, J3, J2, J1, <- !app_assoc; reflexivity).
  split.
  - rewrite (calls_since_app w w4 _ J).
    unfold called in *. rewrite !map_app, !in_app_iff.
    destruct (V61.gps_fix body); simpl; [tauto|].
    intuition discriminate.
  - rewrite K4, K3, D2, <- K1.
    destruct (V61.gps_fix body && succeeds env location_insert).
    + unfold V60.locationRecord, V61.locationRecord.
      rewrite rows_inserted, stored_plain by reflexivity. reflexivity.
    + now rewrite app_nil_r.
Qed.

End Location.

(* ================================================================== *)
(** * What an accepted V6.0 report does to the store *)

Section Effects60.
Import JS Db.
Context {rt : Runtime}.
Variable cfg : V60.Config.
Variable env : Env.
Local Open Scope gw_scope.

Lemma distinct_sound l : distinct l = true -> NoDup l.
Proof.
  induction l as [|k l IH]; simpl; intros E; [constructor|].
  apply andb_true_iff in E as [N D]. constructor; [|now apply IH].
  intros I. apply negb_true_iff in N.
  assert (X : existsb (String.eqb k) l = true)
    by (apply existsb_exists; exists k; split;
        [exact I | apply String.eqb_refl]).
  congruence.
Qed.

Lemma lookup_has_key k (fs : list (string * JVal)) :
  lookup k fs <> JUndefined -> has_key k fs = true.
Proof.
  intros N. destruct (has_key k fs) eqn:H; [reflexivity|].
  exfalso. apply N, lookup_absent. intros I. apply has_key_In in I.
  congruence.
Qed.

(** A field of an object literal that holds neither [undefined] nor a
    non-finite number reaches the store as it is. *)
Lemma field_sent k v fs :
  distinct (map fst fs) = true -> lookup k fs = v -> wire v = v ->
  v <> JUndefined ->
  has_key k (fields_of (JObj fs)) = true
  /\ lookup k (fields_of (JObj fs)) = v.
Proof.
  intros D L W N. apply distinct_sound in D.
  assert (E : lookup k (fields_of (JObj fs)) = v)
    by (rewrite oprop_fields_of, L by exact D; exact W).
  split; [apply lookup_has_key; now rewrite E | exact E].
Qed.

(** After an upsert some row of the table holds the fields sent. *)
Lemma upserted_row t keys row s :
  exists r, In r (rows t (upserted env t keys row s))
            /\ forall k, has_key k (fields_of row) = true ->
                         oprop r k = lookup k (fields_of row).
Proof.
  unfold upserted. cbv zeta.
  destruct (existsb _ (rows t s)) eqn:E.
  - apply existsb_exists in E as (old & I & C).
    exists (merge_row old row). split.
    + rewrite rows_set_rows. apply in_map_iff. exists old.
      now rewrite C.
    + intros k H. now apply oprop_merge_row.
  - exists (stored env t row s). split.
    + rewrite rows_inserted. apply in_or_app. right. now left.
    + intros k H. now apply oprop_stored.
Qed.

Lemma status_row_seen payload deviceId s :
  exists r,
    In r (rows device_status
               (upserted env device_status ["device_id"%string]
                         (V60.statusUpdate env payload deviceId) s))
    /\ oprop r "last_seen_at" = JTime (now env).
Proof.
  destruct (upserted_row device_status ["device_id"%string]
                         (V60.statusUpdate env payload deviceId) s)
    as (r & I & F).
  exists r. split; [exact I|].
  unfold V60.statusUpdate in F.
  match type of F with
  | forall k, has_key k (fields_of (JObj ?fs)) = true -> _ =>
      destruct (field_sent "last_seen_at" (JTime (now env)) fs)
        as [H L]; [vm_compute; reflexivity | reflexivity | reflexivity
                  | discriminate |]
  end.
  rewrite (F _ H). exact L.
Qed.

(** The journal and the tables after the four persistence steps. *)
Lemma telemetry60_effects body w :
  accepted60 cfg body ->
  exists w3,
    snd (V60.telemetry cfg env body w)
    = snd (V60.record_anomaly env body (oprop body "device_id") w3)
    /\ rows anomaly_log (db w3) = rows anomaly_log (db w)
    /\ rows device_status (db (snd (V60.telemetry cfg env body w)))
       = rows device_status
              (if succeeds env status_upsert
               then upserted env device_status ["device_id"%string]
                      (V60.statusUpdate env body (oprop body "device_id"))
                      (db w)
               else db w)
    /\ journal w3
       = journal w
         ++ [(status_upsert, succeeds env status_upsert)]
         ++ (if V60.gps_fix body
             then [(location_insert, succeeds env location_insert)]
             else [])
         ++ (if truthy (oprop (oprop body "scratch") "detected")
             then [(scratch_insert, succeeds env scratch_insert);
                   (scratch_daily_upsert,
                    succeeds env scratch_daily_upsert)]
             else []).
Proof.
  intros Acc. rewrite (telemetry60_accepted env cfg body w Acc). cbn [snd].
  set (d := oprop body "device_id").
  set (w0 := persisting60 cfg body w).
  set (w1 := snd (V60.update_status env body d w0)).
  set (w2 := snd (V60.insert_location env body d w1)).
  set (w3 := snd (V60.record_scratch env body d w2)).
  exists w3. split; [reflexivity|].
  destruct (persisting60_same cfg body w) as [D0 J0].
  destruct (update_status60_run env body d w0) as [J1 D1].
  destruct (insert_location60_run env body d w1) as [J2 _].
  pose proof (record_scratch60_run env body d w2) as J3.
  pose proof (update_status60_keeps env body d anomaly_log
                ltac:(discriminate) w0) as A1.
  pose proof (insert_location60_keeps env body d anomaly_log
                ltac:(discriminate) w1) as A2.
  pose proof (record_scratch60_keeps env body d anomaly_log
                ltac:(discriminate) ltac:(discriminate) w2) as A3.
  pose proof (insert_location60_keeps env body d device_status
                ltac:(discriminate) w1) as S2.
  pose proof (record_scratch60_keeps env body d device_status
                ltac:(discriminate) ltac:(discriminate) w2) as S3.
  pose proof (record_anomaly60_keeps env body d device_status
                ltac:(discriminate) w3) as S4.
  unfold same_table in A1, A2, A3, S2, S3, S4.
  fold w0 w1 w2 w3 in J0, D0, J1, D1, J2, J3, A1, A2, A3, S2, S3, S4.
  set (w4 := snd (V60.record_anomaly env body d w3)) in *.
  clearbody w0 w1 w2 w3 w4.
  split; [now rewrite A3, A2, A1, D0|].
  split.
  - rewrite S4, S3, S2, D1, D0. reflexivity.
  - rewrite J3, J2, J1, J0, <- !app_assoc. reflexivity.
Qed.

End Effects60.

(* ================================================================== *)
(** * The claims about the telemetry route *)

(** C1, as the servers behave.  With a signing key configured and no
    signature field in the payload, verification fails in both servers.
    The V6.0 handler then answers a payload that carries a device id with
    401 "Invalid signature", calls the store not once and leaves it as it
    was.  The V6.1 handler calls the verifier only for a payload that
    carries a signature: an unsigned payload is handled exactly as it is
    when no key is configured. *)
Theorem unsigned_payload {rt : JS.Runtime} (cfg60 : V60.Config)
        (cfg61 : V61.Config) (env : Db.Env) (body : JS.JVal) (w : Db.World) :
  V60.key_set cfg60 = true ->
  V61.key_set cfg61 = true ->
  JS.oprop body "signature" = JS.JUndefined ->
  JS.truthy (JS.oprop body "device_id") = true ->
  fst (V60.verifyHMAC cfg60 body (JS.oprop body "signature") w)
  = Db.Ret false
  /\ V61.verifyHMAC cfg61 body (JS.oprop body "signature") = false
  /\ fst (V60.telemetry cfg60 env body w)
     = {| Db.status := 401;
          Db.body := JS.JObj [("error"%string,
                               JS.jstr "Invalid signature")] |}
  /\ Db.db (snd (V60.telemetry cfg60 env body w)) = Db.db w
  /\ calls_since w (snd (V60.telemetry cfg60 env body w)) = []
  /\ V61.telemetry cfg61 env body w
     = V61.telemetry {| V61.env_HMAC_KEY := None;
                        V61.supabase := V61.supabase cfg61 |} env body w.
Proof.
  intros K60 K61 Hsig Hid.
  rewrite (telemetry60_unsigned env cfg60 body w K60 Hid Hsig).
  cbn [fst snd Db.db].
  repeat split.
  - rewrite Hsig. unfold V60.verifyHMAC. now rewrite K60.
  - rewrite Hsig. unfold V61.verifyHMAC. now rewrite K61.
  - apply calls_since_app. cbn [Db.journal]. now rewrite app_nil_r.
  - apply telemetry61_unsigned. now rewrite Hsig.
Qed.

(** An unsigned report sent to servers that hold the key "secret". *)
Lemma unsigned_payload_witness :
  fst (@V60.telemetry Samples.rt0 Samples.keyed60
         (Samples.quiet Samples.morning) Samples.report60
         (Db.fresh Db.empty_store))
  = {| Db.status := 401;
       Db.body := JS.JObj [("error"%string, JS.jstr "Invalid signature")] |}
  /\ Db.db (snd (@V60.telemetry Samples.rt0 Samples.keyed60
                   (Samples.quiet Samples.morning) Samples.report60
                   (Db.fresh Db.empty_store)))
     = Db.empty_store.
Proof.
  pose proof (@unsigned_payload Samples.rt0 Samples.keyed60 Samples.keyed61
                (Samples.quiet Samples.morning) Samples.report60
                (Db.fresh Db.empty_store)
                eq_refl eq_refl eq_refl eq_refl) as H.
  split; [apply H | apply H].
Defined.

(** C1 as it is stated fails on the V6.1 server, which accepts and stores
    an unsigned report although the key is configured; and on the V6.0
    server a payload without a device id is answered with 400, not 401. *)
Lemma unsigned_payload_counterexample :
  V61.key_set Samples.keyed61 = true
  /\ JS.oprop Samples.report61 "signature" = JS.JUndefined
  /\ Db.status (fst (@V61.telemetry Samples.rt0 Samples.keyed61
                       (Samples.quiet Samples.morning) Samples.report61
                       (Db.fresh Db.empty_store))) = 200
  /\ List.length
       (Db.tbl_device_status
          (Db.db (snd (@V61.telemetry Samples.rt0 Samples.keyed61
                         (Samples.quiet Samples.morning) Samples.report61
                         (Db.fresh Db.empty_store))))) = 1%nat
  /\ V60.key_set Samples.keyed60 = true
  /\ Db.status (fst (@V60.telemetry Samples.rt0 Samples.keyed60
                       (Samples.quiet Samples.morning) (JS.JObj [])
                       (Db.fresh Db.empty_store))) = 400.
Proof. repeat split; vm_compute; reflexivity. Qed.

(** C4.  When the location insert of an accepted report fails with a store
    error, the request is still answered with [status: 'ok'] and no
    location is written; the status upsert has been attempted before and,
    unless it failed itself, applied: the device's row carries this
    request's [last_seen_at]; and the steps that follow are still
    attempted, whichever of the store's calls fail. *)
Theorem location_failure_contained {rt : JS.Runtime} (cfg : V60.Config)
        (env : Db.Env) (body : JS.JVal) (w : Db.World) (msg : JS.jsstring) :
  accepted60 cfg body ->
  JS.truthy (JS.oprop (JS.oprop body "gps") "valid")
  && JS.truthy (JS.oprop (JS.oprop body "gps") "lat")
  && JS.truthy (JS.oprop (JS.oprop body "gps") "lon") = true ->
  Db.faults env Db.location_insert = Some msg ->
  fst (V60.telemetry cfg env body w)
  = {| Db.status := 200;
       Db.body := JS.wire
                    (JS.JObj [("status"%string, JS.jstr "ok");
                              ("device_id"%string, JS.oprop body "device_id");
                              ("timestamp"%string, JS.JTime (Db.now env))])
    |}
  /\ In (Db.location_insert, false)
        (calls_since w (snd (V60.telemetry cfg env body w)))
  /\ Db.rows Db.locations (Db.db (snd (V60.telemetry cfg env body w)))
     = Db.rows Db.locations (Db.db w)
  /\ In (Db.status_upsert, succeeds env Db.status_upsert)
        (calls_since w (snd (V60.telemetry cfg env body w)))
  /\ Db.rows Db.device_status (Db.db (snd (V60.telemetry cfg env body w)))
     = Db.rows Db.device_status
         (if succeeds env Db.status_upsert
          then Db.upserted env Db.device_status ["device_id"%string]
                 (V60.statusUpdate env body (JS.oprop body "device_id"))
                 (Db.db w)
          else Db.db w)
  /\ (succeeds env Db.status_upsert = true ->
      exists row,
        In row (Db.rows Db.device_status
                        (Db.db (snd (V60.telemetry cfg env body w))))
        /\ JS.oprop row "last_seen_at" = JS.JTime (Db.now env))
  /\ (JS.truthy (JS.oprop (JS.oprop body "scratch") "detected") = true ->
      called Db.scratch_insert
             (calls_since w (snd (V60.telemetry cfg env body w)))
      /\ called Db.scratch_daily_upsert
                (calls_since w (snd (V60.telemetry cfg env body w))))
  /\ (JS.truthy (JS.oprop (JS.oprop body "health") "anomaly") = true ->
      called Db.anomaly_select
             (calls_since w (snd (V60.telemetry cfg env body w)))).
Proof.
  intros Acc Fix Fault.
  assert (Fails : succeeds env Db.location_insert = false)
    by (unfold succeeds; now rewrite Fault).
  split.
  { now rewrite (telemetry60_accepted env cfg body w Acc). }
  destruct (location60 env cfg body w Acc) as [_ L].
  destruct (telemetry60_effects cfg env body w Acc)
    as (w3 & E & _ & S & J3).
  fold (V60.gps_fix body) in Fix.
  rewrite Fix, Fails in *. cbn [andb] in L. rewrite app_nil_r in L.
  destruct (record_anomaly60_run env body (JS.oprop body "device_id") w3)
    as [J4 _].
  rewrite <- E in J4. clear E.
  match type of J4 with _ = _ ++ ?j => set (j4 := j) in J4 end.
  assert (A4 : JS.truthy (JS.oprop (JS.oprop body "health") "anomaly")
               = true -> called Db.anomaly_select j4)
    by (intros A; subst j4; rewrite A; now left).
  clearbody j4.
  assert (J : Db.journal (snd (V60.telemetry cfg env body w))
              = Db.journal w
                ++ [(Db.status_upsert, succeeds env Db.status_upsert)]
                ++ [(Db.location_insert, false)]
                ++ (if JS.truthy (JS.oprop (JS.oprop body "scratch")
                                           "detected")
                    then [(Db.scratch_insert,
                           succeeds env Db.scratch_insert);
                          (Db.scratch_daily_upsert,
                           succeeds env Db.scratch_daily_upsert)]
                    else [])
                ++ j4)
    by (rewrite J4, J3, <- !app_assoc; reflexivity).
  rewrite (calls_since_app _ _ _ J).
  set (w' := snd (V60.telemetry cfg env body w)) in *. clearbody w'.
  repeat split.
  - right. now left.
  - exact L.
  - now left.
  - exact S.
  - intros Up. rewrite S, Up. apply status_row_seen.
  - unfold called. rewrite H. simpl. tauto.
  - unfold called. rewrite H. simpl. tauto.
  - unfold called in *. rewrite !map_app, !in_app_iff. auto.
Qed.

(** A report with a fix whose location insert fails. *)
Lemma location_failure_contained_witness :
  Db.status (fst (@V60.telemetry Samples.rt0 Samples.open60
                    (Samples.failing Db.location_insert Samples.morning)
                    Samples.report60 (Db.fresh Db.empty_store))) = 200
  /\ In (Db.location_insert, false)
        (calls_since (Db.fresh Db.empty_store)
           (snd (@V60.telemetry Samples.rt0 Samples.open60
                   (Samples.failing Db.location_insert Samples.morning)
                   Samples.report60 (Db.fresh Db.empty_store))))
  /\ In (Db.status_upsert, true)
        (calls_since (Db.fresh Db.empty_store)
           (snd (@V60.telemetry Samples.rt0 Samples.open60
                   (Samples.failing Db.location_insert Samples.morning)
                   Samples.report60 (Db.fresh Db.empty_store)))).
Proof.
  destruct (@location_failure_contained Samples.rt0 Samples.open60
              (Samples.failing Db.location_insert Samples.morning)
              Samples.report60 (Db.fresh Db.empty_store)
              (JS.str "store error")
              (conj eq_refl (fun _ => eq_refl)) eq_refl eq_refl)
    as (R & L & _ & S & _).
  split; [now rewrite R | split; [exact L | exact S]].
Defined.

(** C8, as the servers behave.  For an accepted report the location insert
    is issued exactly when the valid-fix flag, the latitude and the
    longitude are all truthy, and the record is written when the store
    accepts it.  A number is truthy when it is not zero: a latitude or a
    longitude of exactly 0 counts as absent. *)
Theorem location_written_when_truthy {rt : JS.Runtime} (env : Db.Env)
        (cfg60 : V60.Config) (cfg61 : V61.Config) (body60 body61 : JS.JVal)
        (w : Db.World) :
  accepted60 cfg60 body60 ->
  accepted61 cfg61 body61 ->
  ((called Db.location_insert
           (calls_since w (snd (V60.telemetry cfg60 env body60 w)))
    <-> JS.truthy (JS.oprop (JS.oprop body60 "gps") "valid")
        && JS.truthy (JS.oprop (JS.oprop body60 "gps") "lat")
        && JS.truthy (JS.oprop (JS.oprop body60 "gps") "lon") = true)
   /\ Db.rows Db.locations (Db.db (snd (V60.telemetry cfg60 env body60 w)))
      = Db.rows Db.locations (Db.db w)
        ++ (if JS.truthy (JS.oprop (JS.oprop body60 "gps") "valid")
               && JS.truthy (JS.oprop (JS.oprop body60 "gps") "lat")
               && JS.truthy (JS.oprop (JS.oprop body60 "gps") "lon")
               && succeeds env Db.location_insert
            then [JS.wire (V60.locationRecord
                             body60 (JS.oprop body60 "device_id"))]
            else []))
  /\ ((called Db.location_insert
              (calls_since w (snd (V61.telemetry cfg61 env body61 w)))
       <-> JS.truthy (JS.oprop body61 "gps_valid")
           && JS.truthy (JS.oprop body61 "latitude")
           && JS.truthy (JS.oprop body61 "longitude") = true)
      /\ Db.rows Db.locations
                 (Db.db (snd (V61.telemetry cfg61 env body61 w)))
         = Db.rows Db.locations (Db.db w)
           ++ (if JS.truthy (JS.oprop body61 "gps_valid")
                  && JS.truthy (JS.oprop body61 "latitude")
                  && JS.truthy (JS.oprop body61 "longitude")
                  && succeeds env Db.location_insert
               then [JS.wire (V61.locationRecord body61)]
               else []))
  /\ (forall q : Q, JS.truthy (JS.JNum (JS.Fin q)) = true <-> ~ (q == 0)%Q).
Proof.
  intros A60 A61.
  split; [exact (location60 env cfg60 body60 w A60)|].
  split; [exact (location61 env cfg61 body61 w A61)|].
  exact truthy_number.
Qed.

(** Two reports with a fix off the equator: each server writes one
    location. *)
Lemma location_written_when_truthy_witness :
  List.length
    (Db.rows Db.locations
       (Db.db (snd (@V60.telemetry Samples.rt0 Samples.open60
                      (Samples.quiet Samples.morning) Samples.report60
                      (Db.fresh Db.empty_store))))) = 1%nat
  /\ List.length
       (Db.rows Db.locations
          (Db.db (snd (@V61.telemetry Samples.rt0 Samples.open61
                         (Samples.quiet Samples.morning) Samples.report61
                         (Db.fresh Db.empty_store))))) = 1%nat.
Proof.
  destruct (@location_written_when_truthy Samples.rt0
              (Samples.quiet Samples.morning) Samples.open60 Samples.open61
              Samples.report60 Samples.report61 (Db.fresh Db.empty_store)
              (conj eq_refl (fun _ => eq_refl))
              (conj eq_refl (conj (fun H => eq_refl) eq_refl)))
    as ((_ & L60) & (_ & L61) & _).
  split; [now rewrite L60 | now rewrite L61].
Defined.

(** C8 as it is stated fails on the equator: the fix is flagged valid and
    latitude and longitude are both present, the latitude being 0, and
    neither server issues the location insert. *)
Lemma location_counterexample :
  JS.oprop (JS.oprop Samples.equator60 "gps") "valid" = JS.JBool true
  /\ JS.oprop (JS.oprop Samples.equator60 "gps") "lat" = JS.jnum 0
  /\ JS.nullish (JS.oprop (JS.oprop Samples.equator60 "gps") "lon") = false
  /\ fst (@V60.telemetry Samples.rt0 Samples.open60
            (Samples.quiet Samples.morning) Samples.equator60
            (Db.fresh Db.empty_store))
     = {| Db.status := 200;
          Db.body := JS.JObj [("status"%string, JS.jstr "ok");
                              ("device_id"%string, JS.jstr "collar-1");
                              ("timestamp"%string,
                               JS.JTime Samples.morning)] |}
  /\ Db.journal (snd (@V60.telemetry Samples.rt0 Samples.open60
                        (Samples.quiet Samples.morning) Samples.equator60
                        (Db.fresh Db.empty_store)))
     = [(Db.status_upsert, true)]
  /\ Db.rows Db.locations
       (Db.db (snd (@V60.telemetry Samples.rt0 Samples.open60
                      (Samples.quiet Samples.morning) Samples.equator60
                      (Db.fresh Db.empty_store)))) = []
  /\ JS.oprop Samples.equator61 "gps_valid" = JS.JBool true
  /\ JS.oprop Samples.equator61 "latitude" = JS.jnum 0
  /\ JS.nullish (JS.oprop Samples.equator61 "longitude") = false
  /\ Db.journal (snd (@V61.telemetry Samples.rt0 Samples.open61
                        (Samples.quiet Samples.morning) Samples.equator61
                        (Db.fresh Db.empty_store)))
     = [(Db.status_upsert, true)]
  /\ Db.rows Db.locations
       (Db.db (snd (@V61.telemetry Samples.rt0 Samples.open61
                      (Samples.quiet Samples.morning) Samples.equator61
                      (Db.fresh Db.empty_store)))) = [].
Proof. repeat split; vm_compute; reflexivity. Qed.

(* ================================================================== *)
(** * Anomaly de-duplication *)

Section Dedup.
Import JS Db.
Context {rt : Runtime}.
Variable cfg : V60.Config.
Local Open Scope gw_scope.

Lemma day_start_le t : day_of t * ms_per_day <= t.
Proof.
  unfold day_of. rewrite Z.mul_comm. apply Z.mul_div_le. reflexivity.
Qed.

Lemma before_day a b : day_of a < day_of b -> a < day_of b * ms_per_day.
Proof.
  unfold day_of, ms_per_day. intros L.
  pose proof (Z.mod_pos_bound a 86400000 ltac:(reflexivity)).
  pose proof (Z.div_mod a 86400000 ltac:(discriminate)). lia.
Qed.

Lemma jsstring_eqb_refl s : jsstring_eqb s s = true.
Proof.
  induction s as [|c s IH]; simpl; [reflexivity|].
  now rewrite Z.eqb_refl, IH.
Qed.

Lemma sql_eq_string s : sql_eq (JStr s) (JStr s) = true.
Proof. simpl. apply jsstring_eqb_refl. Qed.

Lemma logged_today_entry e d t at_ day :
  entry e d t at_ ->
  V60.logged_today (JStr d) (JStr t) (JDay day) e
  = (day * ms_per_day <=? at_).
Proof.
  intros (Ed & Et & Ea). unfold V60.logged_today.
  rewrite Ed, Et, Ea, !sql_eq_string. reflexivity.
Qed.

Lemma sql_gte_later col d1 d3 :
  d1 <= d3 -> sql_gte col (JDay d3) = true -> sql_gte col (JDay d1) = true.
Proof.
  intros L. destruct col; simpl; trivial; intros H;
    apply Z.leb_le in H; apply Z.leb_le; unfold ms_per_day in *; lia.
Qed.

Lemma none_logged_later dev ty d1 d3 log :
  d1 <= d3 ->
  filter (V60.logged_today dev ty (JDay d1)) log = [] ->
  filter (V60.logged_today dev ty (JDay d3)) log = [].
Proof.
  intros L. induction log as [|x log IH]; simpl; [trivial|].
  destruct (V60.logged_today dev ty (JDay d1) x) eqn:E1; [discriminate|].
  intros F. rewrite (IH F).
  destruct (V60.logged_today dev ty (JDay d3) x) eqn:E3; [|reflexivity].
  unfold V60.logged_today in E1, E3.
  apply andb_true_iff in E3 as [E3 G3].
  rewrite E3, (sql_gte_later _ _ _ L G3) in E1. discriminate.
Qed.

(** The entry that the V6.0 server records for a flagged report. *)
Lemma anomaly_entry env d t deviation s :
  entry (stored env anomaly_log
                {{ "device_id" =: JStr d;
                   "anomaly_type" =: JStr t;
                   "deviation_percent" =: deviation }} s)
        d t (now env).
Proof.
  repeat split.
  - rewrite oprop_stored;
      apply (field_sent "device_id" (JStr d));
      try reflexivity; discriminate.
  - rewrite oprop_stored;
      apply (field_sent "anomaly_type" (JStr t));
      try reflexivity; discriminate.
  - rewrite oprop_stored_default; [reflexivity|].
    destruct deviation; reflexivity.
Qed.

(** One flagged report, the de-duplication query and the insert both
    succeeding: an entry is added unless the query finds one. *)
Lemma report_anomaly60 env body d t w :
  flags60 cfg body d t ->
  succeeds env anomaly_select = true ->
  succeeds env anomaly_insert = true ->
  exists e,
    entry e d t (now env)
    /\ rows anomaly_log (db (snd (V60.telemetry cfg env body w)))
       = rows anomaly_log (db w)
         ++ match filter (V60.logged_today (JStr d) (JStr t)
                                           (JDay (day_of (now env))))
                         (rows anomaly_log (db w)) with
            | [] => [e]
            | _ => []
            end.
Proof.
  intros (Acc & Hd & Ha & Ht) Ssel Sins.
  destruct (telemetry60_effects cfg env body w Acc)
    as (w3 & E & A & _ & _).
  rewrite E.
  destruct (record_anomaly60_run env body (oprop body "device_id") w3)
    as [_ D].
  rewrite D, Hd, Ha, Ht, Ssel, Sins, A. cbn [negb orb andb].
  eexists. split; [apply anomaly_entry|].
  destruct (filter _ (rows anomaly_log (db w))); cbn [andb].
  - rewrite rows_inserted, A. reflexivity.
  - now rewrite A, app_nil_r.
Qed.

End Dedup.

Section DedupInvariant.
Import JS Db.
Context {rt : Runtime}.
Variable cfg : V60.Config.
Local Open Scope gw_scope.

(** A report is accepted, or the handler leaves the store as it was. *)
Lemma telemetry60_cases env body w :
  accepted60 cfg body
  \/ db (snd (V60.telemetry cfg env body w)) = db w.
Proof.
  destruct (truthy (oprop body "device_id")) eqn:Hid.
  - destruct (verifyHMAC60_pure cfg body (oprop body "signature") w)
      as (v & l & E & V).
    destruct v.
    + left. split; [exact Hid|]. intros w'.
      destruct (verifyHMAC60_pure cfg body (oprop body "signature") w')
        as (v' & l' & E' & V').
      rewrite E'. simpl. congruence.
    + right. unfold V60.telemetry, V60.telemetry_body, try_catch.
      rewrite (bind_Ret _ _ _ _ (f_equal fst (get_truthy body _ w Hid))).
      rewrite get_truthy by exact Hid; cbn [snd].
      rewrite Hid. cbn [negb].
      rewrite (bind_Ret _ _ _ _ (f_equal fst E)), E. reflexivity.
  - right. unfold V60.telemetry, V60.telemetry_body, try_catch, bind, get.
    unfold prop. destruct (nullish body); [reflexivity|].
    cbn [ret]. rewrite Hid. reflexivity.
Qed.

Lemma deduplicated_snoc log e :
  deduplicated log ->
  (forall x, In x log -> same_slot x e = false) ->
  deduplicated (log ++ [e]).
Proof.
  unfold deduplicated. intros D F.
  induction D as [|x log Hx D IH]; simpl.
  - repeat constructor.
  - constructor.
    + apply Forall_app. split; [exact Hx|].
      constructor; [|constructor]. apply F. now left.
    + apply IH. intros y I. apply F. now right.
Qed.

Lemma filter_none {A} (f : A -> bool) l x :
  filter f l = [] -> In x l -> f x = false.
Proof.
  intros E I. destruct (f x) eqn:Fx; [|reflexivity].
  assert (X : In x (filter f l)) by (apply filter_In; now split).
  rewrite E in X. destruct X.
Qed.

(** A field of a row just added, when the store gives it no default. *)
Lemma oprop_stored_wire env t fs s k :
  distinct (map fst fs) = true ->
  lookup k (column_defaults t (now env) (next_id s)) = JUndefined ->
  oprop (stored env t (JObj fs) s) k = wire (lookup k fs).
Proof.
  intros D N. apply distinct_sound in D.
  unfold stored. cbn [oprop]. rewrite lookup_merge_fields.
  rewrite <- (oprop_fields_of k fs D).
  destruct (has_key k (fields_of (JObj fs))) eqn:H; [reflexivity|].
  rewrite N. symmetry. apply lookup_absent. intros I.
  apply has_key_In in I. congruence.
Qed.

(** An entry that shares the slot of the entry about to be added is one
    that the de-duplication query selects. *)
Lemma same_slot_logged env dev ty deviation s x :
  same_slot x (stored env anomaly_log
                      {{ "device_id" =: dev;
                         "anomaly_type" =: ty;
                         "deviation_percent" =: deviation }} s) = true ->
  V60.logged_today dev ty (JDay (day_of (now env))) x = true.
Proof.
  unfold same_slot, V60.logged_today.
  rewrite !oprop_stored_wire by reflexivity. cbn [lookup String.eqb].
  rewrite oprop_stored_default.
  2:{ destruct (has_key _ _) eqn:H; [|reflexivity].
      apply has_key_In in H. unfold fields_of in H.
      rewrite wire_JObj in H. apply wire_fields_keys in H. simpl in H.
      intuition discriminate. }
  cbn [column_defaults lookup].
  intros H. apply andb_true_iff in H as [H Hday].
  apply andb_true_iff in H as [Hd Ht].
  rewrite (sql_eq_wire _ _ Hd), (sql_eq_wire _ _ Ht). cbn [andb].
  destruct (oprop x "detected_at"); try discriminate.
  apply Z.eqb_eq in Hday. simpl. apply Z.leb_le.
  rewrite <- Hday. apply day_start_le.
Qed.

(** The V6.0 telemetry route keeps the anomaly log free of duplicates as
    long as its de-duplication query succeeds. *)
Lemma dedup_preserved env body w :
  succeeds env anomaly_select = true ->
  deduplicated (rows anomaly_log (db w)) ->
  deduplicated
    (rows anomaly_log (db (snd (V60.telemetry cfg env body w)))).
Proof.
  intros Ssel Inv.
  destruct (telemetry60_cases env body w) as [Acc | Same];
    [|now rewrite Same].
  destruct (telemetry60_effects cfg env body w Acc)
    as (w3 & E & A & _ & _).
  rewrite E.
  destruct (record_anomaly60_run env body (oprop body "device_id") w3)
    as [_ D].
  rewrite D, Ssel, A. cbn [negb orb].
  destruct (truthy (oprop (oprop body "health") "anomaly")); cbn [andb];
    [|now rewrite A].
  destruct (filter _ (rows anomaly_log (db w))) as [|y l] eqn:F;
    cbn [andb]; [|now rewrite A].
  destruct (succeeds env anomaly_insert); [|now rewrite A].
  rewrite rows_inserted, A.
  apply deduplicated_snoc; [exact Inv|].
  intros x I.
  destruct (same_slot x _) eqn:S; [|reflexivity].
  apply same_slot_logged in S.
  rewrite (filter_none _ _ _ F I) in S. discriminate.
Qed.

End DedupInvariant.

Section NoDedup61.
Import JS Db.
Context {rt : Runtime}.
Variable env : Env.
Local Open Scope gw_scope.

Lemma insert_anomaly61_run data w :
  truthy (oprop data "anomaly_detected")
  && truthy (oprop data "anomaly_type") = true ->
  succeeds env anomaly_insert = true ->
  exists e,
    rows anomaly_log (db (snd (V61.insert_anomaly env data w)))
    = rows anomaly_log (db w) ++ [e].
Proof.
  intros Flag S. unfold V61.insert_anomaly, insert, bind, when.
  rewrite Flag. unfold succeeds in S.
  destruct (faults env anomaly_insert) eqn:E; [discriminate|].
  rewrite (call_ok env _ _ _ _ E). cbn [fst snd db ret].
  eexists. apply rows_inserted.
Qed.

(** The V6.1 server adds an entry for every report that flags an
    anomaly. *)
Lemma report_anomaly61 cfg body w :
  accepted61 cfg body ->
  truthy (oprop body "anomaly_detected")
  && truthy (oprop body "anomaly_type") = true ->
  succeeds env anomaly_insert = true ->
  exists e,
    rows anomaly_log (db (snd (V61.telemetry cfg env body w)))
    = rows anomaly_log (db w) ++ [e].
Proof.
  intros Acc Flag S.
  rewrite (telemetry61_accepted env cfg body w Acc). cbn [snd].
  set (w1 := snd (V61.update_status env body w)).
  set (w2 := snd (V61.insert_location env body w1)).
  set (w3 := snd (V61.insert_scratch env body w2)).
  destruct (insert_anomaly61_run body w3 Flag S) as (e & E).
  pose proof (update_status61_keeps env body anomaly_log
                ltac:(discriminate) w) as A1.
  pose proof (insert_location61_keeps env body anomaly_log
                ltac:(discriminate) w1) as A2.
  pose proof (insert_scratch61_keeps env body anomaly_log
                ltac:(discriminate) w2) as A3.
  unfold same_table in A1, A2, A3. fold w1 w2 w3 in A1, A2, A3.
  exists e. now rewrite E, A3, A2, A1.
Qed.

End NoDedup61.

(** C2, as the servers behave.  On the V6.0 server, the de-duplication
    query and the insert succeeding, two accepted reports that flag the same
    anomaly type for the same device on one calendar day (UTC) add exactly
    one entry to the anomaly log, the second report adding none, and a
    report on a later day adds a second entry; and whenever the query
    succeeds a request leaves the log with at most one entry per device,
    type and day if it found it so.  The V6.1 server does not
    de-duplicate: every accepted report that flags an anomaly with a type
    adds an entry. *)
Theorem anomaly_once_per_day {rt : JS.Runtime} (cfg : V60.Config)
        (d t : JS.jsstring) (r1 r2 r3 : JS.JVal) (env1 env2 env3 : Db.Env)
        (w : Db.World) :
  flags60 cfg r1 d t -> flags60 cfg r2 d t -> flags60 cfg r3 d t ->
  succeeds env1 Db.anomaly_select && succeeds env1 Db.anomaly_insert
  && succeeds env2 Db.anomaly_select && succeeds env2 Db.anomaly_insert
  && succeeds env3 Db.anomaly_select && succeeds env3 Db.anomaly_insert
  = true ->
  Db.day_of (Db.now env2) = Db.day_of (Db.now env1) ->
  Db.day_of (Db.now env1) < Db.day_of (Db.now env3) ->
  filter (V60.logged_today (JS.JStr d) (JS.JStr t)
                           (JS.JDay (Db.day_of (Db.now env1))))
         (Db.rows Db.anomaly_log (Db.db w)) = [] ->
  (exists e1 e3,
      entry e1 d t (Db.now env1)
      /\ entry e3 d t (Db.now env3)
      /\ Db.rows Db.anomaly_log (Db.db (snd (V60.telemetry cfg env1 r1 w)))
         = Db.rows Db.anomaly_log (Db.db w) ++ [e1]
      /\ Db.rows Db.anomaly_log
           (Db.db (snd (V60.telemetry cfg env2 r2
                          (snd (V60.telemetry cfg env1 r1 w)))))
         = Db.rows Db.anomaly_log (Db.db w) ++ [e1]
      /\ Db.rows Db.anomaly_log
           (Db.db (snd (V60.telemetry cfg env3 r3
                          (snd (V60.telemetry cfg env2 r2
                                  (snd (V60.telemetry cfg env1 r1 w)))))))
         = Db.rows Db.anomaly_log (Db.db w) ++ [e1; e3])
  /\ (forall env body w0,
         succeeds env Db.anomaly_select = true ->
         deduplicated (Db.rows Db.anomaly_log (Db.db w0)) ->
         deduplicated
           (Db.rows Db.anomaly_log
                    (Db.db (snd (V60.telemetry cfg env body w0)))))
  /\ (forall cfg61 env body w0,
         accepted61 cfg61 body ->
         JS.truthy (JS.oprop body "anomaly_detected")
         && JS.truthy (JS.oprop body "anomaly_type") = true ->
         succeeds env Db.anomaly_insert = true ->
         exists e,
           Db.rows Db.anomaly_log
                   (Db.db (snd (V61.telemetry cfg61 env body w0)))
           = Db.rows Db.anomaly_log (Db.db w0) ++ [e]).
Proof.
  intros F1 F2 F3 S Same Next None.
  repeat (apply andb_true_iff in S as [S ?]).
  split; [|split; [apply dedup_preserved | intros; now apply report_anomaly61]].
  set (w1 := snd (V60.telemetry cfg env1 r1 w)).
  set (w2 := snd (V60.telemetry cfg env2 r2 w1)).
  set (w3 := snd (V60.telemetry cfg env3 r3 w2)).
  destruct (report_anomaly60 cfg env1 r1 d t w F1) as (e1 & E1 & L1);
    try assumption.
  destruct (report_anomaly60 cfg env2 r2 d t w1 F2) as (e2 & E2 & L2);
    try assumption.
  destruct (report_anomaly60 cfg env3 r3 d t w2 F3) as (e3 & E3 & L3);
    try assumption.
  fold w1 in L1, L2. fold w2 in L2, L3. fold w3 in L3.
  clearbody w1 w2 w3.
  rewrite None in L1.
  assert (L2' : Db.rows Db.anomaly_log (Db.db w2)
                = Db.rows Db.anomaly_log (Db.db w) ++ [e1]).
  { rewrite L2, L1, filter_app, Same, None. cbn [filter app].
    rewrite (logged_today_entry _ _ _ _ _ E1).
    pose proof (day_start_le (Db.now env1)) as Le.
    apply Z.leb_le in Le. rewrite Le. now rewrite app_nil_r. }
  exists e1, e3. repeat split; try apply E1; try apply E3; try assumption.
  rewrite L3, L2', filter_app.
  rewrite (none_logged_later _ _ _ _ _ (Z.lt_le_incl _ _ Next) None).
  cbn [filter app]. rewrite (logged_today_entry _ _ _ _ _ E1).
  pose proof (before_day _ _ Next) as Lt.
  apply Z.leb_gt in Lt. rewrite Lt. now rewrite <- app_assoc.
Qed.

(** Two reports on the morning and the afternoon of a day and a third the
    next morning, in an empty store. *)
Lemma anomaly_once_per_day_witness :
  exists e1 e3,
    Db.rows Db.anomaly_log
      (Db.db (snd (@V60.telemetry Samples.rt0 Samples.open60
                     (Samples.quiet Samples.later_that_day) Samples.report60
                     (snd (@V60.telemetry Samples.rt0 Samples.open60
                             (Samples.quiet Samples.morning)
                             Samples.report60 (Db.fresh Db.empty_store))))))
    = [e1]
    /\ Db.rows Db.anomaly_log
         (Db.db (snd (@V60.telemetry Samples.rt0 Samples.open60
                        (Samples.quiet Samples.next_morning) Samples.report60
                        (snd (@V60.telemetry Samples.rt0 Samples.open60
                                (Samples.quiet Samples.later_that_day)
                                Samples.report60
                                (snd (@V60.telemetry Samples.rt0
                                        Samples.open60
                                        (Samples.quiet Samples.morning)
                                        Samples.report60
                                        (Db.fresh Db.empty_store))))))))
       = [e1; e3].
Proof.
  destruct (@anomaly_once_per_day Samples.rt0 Samples.open60
              (JS.str "collar-1") (JS.str "low_activity")
              Samples.report60 Samples.report60 Samples.report60
              (Samples.quiet Samples.morning)
              (Samples.quiet Samples.later_that_day)
              (Samples.quiet Samples.next_morning)
              (Db.fresh Db.empty_store)
              (conj (conj eq_refl (fun _ => eq_refl))
                    (conj eq_refl (conj eq_refl eq_refl)))
              (conj (conj eq_refl (fun _ => eq_refl))
                    (conj eq_refl (conj eq_refl eq_refl)))
              (conj (conj eq_refl (fun _ => eq_refl))
                    (conj eq_refl (conj eq_refl eq_refl)))
              eq_refl eq_refl eq_refl eq_refl)
    as [(e1 & e3 & _ & _ & _ & L2 & L3) _].
  exists e1, e3. split; [exact L2 | exact L3].
Defined.

(** C2 as it is stated fails on the V6.1 server: two reports of one device
    flagging the same anomaly type on the morning and the afternoon of the
    same day leave two entries. *)
Lemma anomaly_counterexample :
  Db.day_of Samples.morning = Db.day_of Samples.later_that_day
  /\ exists e1 e2,
      Db.rows Db.anomaly_log
        (Db.db (snd (@V61.telemetry Samples.rt0 Samples.open61
                       (Samples.quiet Samples.later_that_day)
                       Samples.report61
                       (snd (@V61.telemetry Samples.rt0 Samples.open61
                               (Samples.quiet Samples.morning)
                               Samples.report61
                               (Db.fresh Db.empty_store))))))
      = [e1; e2]
      /\ entry e1 (JS.str "collar-1") (JS.str "low_activity") Samples.morning
      /\ entry e2 (JS.str "collar-1") (JS.str "low_activity")
               Samples.later_that_day
      /\ same_slot e1 e2 = true.
Proof.
  split; [reflexivity|].
  eexists. eexists. split; [vm_compute; reflexivity|].
  repeat split; vm_compute; reflexivity.
Qed.

(* ================================================================== *)
(** * The walk-end route *)

Section WalkEnd.
Import JS Db.
Context {rt : Runtime}.
Variable env : Env.
Local Open Scope gw_scope.

Lemma select_single_run site t cols sel w :
  exists err,
    select_single env site t cols sel w
    = (Ret {| data := match faults env site with
                      | Some _ => JNull
                      | None =>
                          match filter sel (rows t (db w)) with
                          | [row] => project cols row
                          | _ => JNull
                          end
                      end;
              error := err |},
       {| db := db w;
          journal := journal w ++ [(site, succeeds env site)];
          console := console w |}).
Proof.
  unfold select_single, succeeds.
  destruct (faults env site) eqn:E.
  - rewrite (call_failed env _ _ _ _ _ E). eexists. reflexivity.
  - rewrite (call_ok env _ _ _ _ E).
    destruct (filter sel (rows t (db w))) as [|row [|]];
      eexists; reflexivity.
Qed.

Lemma get_prop v k x w : prop v k = Some x -> get v k w = (Ret x, w).
Proof. intros E. unfold get. now rewrite E. Qed.

(** The handler up to its test of the walk session. *)
Lemma walk_end60_lookup req w walk_id :
  prop (V60.req_body req) "walk_id" = Some walk_id ->
  exists (k : JVal -> JVal -> M Empty_set),
    (forall status walk, k status walk
       = if negb (truthy walk)
         then respond 404 {{ "error" =: jstr "Walk session not found" }}
         else
           let duration := jor (oprop status "walk_duration") (jnum 0) in
           let distance := jor (oprop status "walk_distance") (jnum 0) in
           let stops := jor (oprop status "walk_stops") (jnum 0) in
           let gradeScore := V60.gradeScore_of duration distance stops in
           let grade := V60.grade_of gradeScore in
           bind (update env walk_update walk_sessions
                        (fun row => sql_eq (oprop row "id") walk_id)
                        (V60.sessionUpdate env status duration distance
                                           stops grade gradeScore))
                (fun error =>
                   if truthy error
                   then respond 500 {{ "error" =: oprop error "message" }}
                   else respond 200
                          {{ "status" =: jstr "ok";
                             "walk_id" =: walk_id;
                             "grade" =: jstr grade;
                             "grade_score" =: JNum gradeScore;
                             "duration_minutes" =:
                               JNum (Math_round
                                       (ndiv (ToNumber duration)
                                             (num 60)));
                             "distance_meters" =:
                               JNum (Math_round (ToNumber distance)) }}))
    /\ V60.walk_end_body env req w
       = k (snapshot env (V60.params_deviceId req) (db w))
           (match faults env walk_select with
            | Some _ => JNull
            | None =>
                match filter (fun row => sql_eq (oprop row "id") walk_id)
                             (rows walk_sessions (db w)) with
                | [row] => row
                | _ => JNull
                end
            end)
           {| db := db w;
              journal := journal w
                         ++ [(status_select, succeeds env status_select);
                             (walk_select, succeeds env walk_select)];
              console := console w |}.
Proof.
  intros P. eexists. split; [intros; reflexivity|].
  unfold V60.walk_end_body.
  rewrite (bind_Ret _ _ _ _ (f_equal fst (get_prop _ _ _ w P))).
  rewrite (get_prop _ _ _ w P). cbn [snd].
  destruct (select_single_run status_select device_status
              (Some ["latitude"; "longitude"; "walk_duration";
                     "walk_distance"; "walk_stops"]%string)
              (fun row => sql_eq (oprop row "device_id")
                                 (JStr (V60.params_deviceId req))) w)
    as (e1 & E1).
  rewrite (bind_Ret _ _ _ _ (f_equal fst E1)), E1. cbn [snd data].
  match goal with
  | |- bind _ _ ?w1 = _ =>
      destruct (select_single_run walk_select walk_sessions None
                  (fun row => sql_eq (oprop row "id") walk_id) w1)
        as (e2 & E2)
  end.
  rewrite (bind_Ret _ _ _ _ (f_equal fst E2)), E2.
  cbn [snd data db journal console].
  rewrite <- app_assoc. reflexivity.
Qed.

End WalkEnd.

Section WalkEnd61.
Import JS Db.
Context {rt : Runtime}.
Variable cfg : V61.Config.
Variable env : Env.
Local Open Scope gw_scope.

(** The V6.1 walk-end route takes no walk id and looks nothing up: it
    answers 200 after adding a session, or 500. *)
Lemma walk_end61_status req w :
  (status (fst (V61.walk_end cfg env req w)) = 500
   /\ db (snd (V61.walk_end cfg env req w)) = db w)
  \/ (status (fst (V61.walk_end cfg env req w)) = 200
      /\ exists session,
          rows walk_sessions (db (snd (V61.walk_end cfg env req w)))
          = rows walk_sessions (db w) ++ [session]).
Proof.
  unfold V61.walk_end, V61.walk_end_body, try_catch.
  destruct (V61.supabase cfg); cbn [negb]; [|left; split; reflexivity].
  unfold bind, get, insert_returning.
  destruct (prop (V61.req_body req) "quality_score") as [q|];
    cbv beta iota delta [ret throw]; [|left; split; reflexivity].
  destruct (truthy (oprop (V61.req_body req) "started_at"));
    cbv beta iota delta [ret throw V61.Date_toISOString].
  2:{ destruct (nsub _ _); cbv beta iota zeta;
        try (left; split; reflexivity).
      destruct (Z.leb _ _); cbv beta iota delta [ret throw];
        [|left; split; reflexivity].
      destruct (faults env walk_insert) eqn:F.
      - rewrite (call_failed env _ _ _ _ _ F). left. split; reflexivity.
      - rewrite (call_ok env _ _ _ _ F). right.
        split; [reflexivity|]. cbn [fst snd db].
        eexists. apply rows_inserted. }
  destruct (faults env walk_insert) eqn:F.
  - rewrite (call_failed env _ _ _ _ _ F). left. split; reflexivity.
  - rewrite (call_ok env _ _ _ _ F). right.
    split; [reflexivity|]. cbn [fst snd db].
    eexists. apply rows_inserted.
Qed.

End WalkEnd61.

(** C3, as the servers behave.  On the V6.0 server a walk-end request whose
    walk id selects no walk session is answered with 404 "Walk session not
    found"; the handler has only read from the store (the device status,
    then the session) and leaves it as it was.  The V6.1 server has no
    walk ids: its walk-end route looks nothing up and never answers 404,
    it answers 200 after adding a new session, or 500. *)
Theorem unknown_walk_not_found {rt : JS.Runtime} (env : Db.Env)
        (req : V60.Request) (w : Db.World) (walk_id : JS.JVal) :
  JS.prop (V60.req_body req) "walk_id" = Some walk_id ->
  filter (fun row => Db.sql_eq (JS.oprop row "id") walk_id)
         (Db.rows Db.walk_sessions (Db.db w)) = [] ->
  fst (V60.walk_end env req w)
  = {| Db.status := 404;
       Db.body := JS.JObj [("error"%string,
                            JS.jstr "Walk session not found")] |}
  /\ Db.db (snd (V60.walk_end env req w)) = Db.db w
  /\ calls_since w (snd (V60.walk_end env req w))
     = [(Db.status_select, succeeds env Db.status_select);
        (Db.walk_select, succeeds env Db.walk_select)]
  /\ Forall (fun c => Db.is_write (fst c) = false)
            (calls_since w (snd (V60.walk_end env req w)))
  /\ (forall cfg61 req61,
         (Db.status (fst (V61.walk_end cfg61 env req61 w)) = 500
          /\ Db.db (snd (V61.walk_end cfg61 env req61 w)) = Db.db w)
         \/ (Db.status (fst (V61.walk_end cfg61 env req61 w)) = 200
             /\ exists session,
                 Db.rows Db.walk_sessions
                         (Db.db (snd (V61.walk_end cfg61 env req61 w)))
                 = Db.rows Db.walk_sessions (Db.db w) ++ [session])).
Proof.
  intros P Absent.
  destruct (walk_end60_lookup env req w walk_id P) as (k & K & E).
  assert (R : V60.walk_end env req w
              = ({| Db.status := 404;
                    Db.body := JS.JObj [("error"%string,
                                         JS.jstr "Walk session not found")] |},
                 {| Db.db := Db.db w;
                    Db.journal :=
                      Db.journal w
                      ++ [(Db.status_select, succeeds env Db.status_select);
                          (Db.walk_select, succeeds env Db.walk_select)];
                    Db.console := Db.console w |})).
  { unfold V60.walk_end, Db.try_catch. rewrite E, K, Absent.
    destruct (Db.faults env Db.walk_select); reflexivity. }
  rewrite R. cbn [fst snd Db.db].
  erewrite calls_since_app by (cbn [Db.journal]; reflexivity).
  repeat split.
  - repeat constructor.
  - intros cfg61 req61. apply walk_end61_status.
Qed.

(** Ending walk 9 in a store that only holds walk 7. *)
Lemma unknown_walk_not_found_witness :
  Db.status (fst (@V60.walk_end Samples.rt0
                    (Samples.quiet Samples.later_that_day)
                    (Samples.end_walk60 9)
                    (Db.fresh Samples.store_with_walk))) = 404
  /\ Db.db (snd (@V60.walk_end Samples.rt0
                   (Samples.quiet Samples.later_that_day)
                   (Samples.end_walk60 9)
                   (Db.fresh Samples.store_with_walk)))
     = Samples.store_with_walk.
Proof.
  destruct (@unknown_walk_not_found Samples.rt0
              (Samples.quiet Samples.later_that_day) (Samples.end_walk60 9)
              (Db.fresh Samples.store_with_walk) (JS.jnum 9)
              eq_refl eq_refl) as (R & D & _).
  split; [now rewrite R | exact D].
Defined.

(** C3 as it is stated fails on the V6.1 server: a walk-end request that
    names walk 9, sent to a store that holds no walk session at all, is
    answered with 200 and adds a session. *)
Lemma unknown_walk_counterexample :
  Db.rows Db.walk_sessions Db.empty_store = []
  /\ Db.status (fst (@V61.walk_end Samples.rt0 Samples.open61
                       (Samples.quiet Samples.later_that_day)
                       (Samples.end_walk61 Samples.walk_report)
                       (Db.fresh Db.empty_store))) = 200
  /\ Db.journal (snd (@V61.walk_end Samples.rt0 Samples.open61
                        (Samples.quiet Samples.later_that_day)
                        (Samples.end_walk61 Samples.walk_report)
                        (Db.fresh Db.empty_store)))
     = [(Db.walk_insert, true)]
  /\ List.length
       (Db.rows Db.walk_sessions
          (Db.db (snd (@V61.walk_end Samples.rt0 Samples.open61
                         (Samples.quiet Samples.later_that_day)
                         (Samples.end_walk61 Samples.walk_report)
                         (Db.fresh Db.empty_store))))) = 1%nat.
Proof. repeat split; vm_compute; reflexivity. Qed.

Section WalkEndAgain.
Import JS Db.
Context {rt : Runtime}.
Variable env : Env.
Local Open Scope gw_scope.

Lemma wire_undefined v : wire v = JUndefined -> v = JUndefined.
Proof. destruct v as [| | |[]| | | |]; simpl; congruence. Qed.

Lemma jor_defined a b : b <> JUndefined -> jor a b <> JUndefined.
Proof.
  unfold jor. destruct (truthy a) eqn:T; [|trivial].
  intros _ ->. discriminate.
Qed.

(** A field that the update sends replaces the one of the row. *)
Lemma oprop_merge_row_sent old fs k :
  distinct (map fst fs) = true ->
  lookup k fs <> JUndefined ->
  oprop (merge_row old (JObj fs)) k = wire (lookup k fs).
Proof.
  intros D N. rewrite oprop_merge_row.
  - apply oprop_fields_of. now apply distinct_sound.
  - apply lookup_has_key. rewrite oprop_fields_of by now apply distinct_sound.
    intros W. now apply N, wire_undefined.
Qed.

(** A field that the update does not name stays. *)
Lemma oprop_merge_row_kept fo fs k :
  ~ In k (map fst fs) ->
  oprop (merge_row (JObj fo) (JObj fs)) k = lookup k fo.
Proof.
  intros N. unfold merge_row. cbn [oprop].
  rewrite lookup_merge_fields.
  destruct (has_key k (fields_of (JObj fs))) eqn:H; [|reflexivity].
  exfalso. apply N. apply has_key_In in H. unfold fields_of in H.
  rewrite wire_JObj in H. now apply wire_fields_keys in H.
Qed.

Lemma selected_is_object v x : sql_eq (oprop v "id") x = true ->
                               exists fo, v = JObj fo.
Proof. destruct v; simpl; try discriminate. eexists; reflexivity. Qed.

Lemma walk_end60_found req w walk_id session :
  prop (V60.req_body req) "walk_id" = Some walk_id ->
  filter (fun row => sql_eq (oprop row "id") walk_id)
         (rows walk_sessions (db w)) = [session] ->
  succeeds env walk_select = true ->
  succeeds env walk_update = true ->
  let status := snapshot env (V60.params_deviceId req) (db w) in
  let duration := jor (oprop status "walk_duration") (jnum 0) in
  let distance := jor (oprop status "walk_distance") (jnum 0) in
  let stops := jor (oprop status "walk_stops") (jnum 0) in
  let gradeScore := V60.gradeScore_of duration distance stops in
  let grade := V60.grade_of gradeScore in
  V60.walk_end env req w
  = ({| status := 200;
        body := wire {{ "status" =: jstr "ok";
                        "walk_id" =: walk_id;
                        "grade" =: jstr grade;
                        "grade_score" =: JNum gradeScore;
                        "duration_minutes" =:
                          JNum (Math_round (ndiv (ToNumber duration)
                                                 (num 60)));
                        "distance_meters" =:
                          JNum (Math_round (ToNumber distance)) }} |},
     {| db := updated walk_sessions
                      (fun row => sql_eq (oprop row "id") walk_id)
                      (V60.sessionUpdate env status duration distance stops
                                         grade gradeScore) (db w);
        journal := journal w
                   ++ [(status_select, succeeds env status_select);
                       (walk_select, true); (walk_update, true)];
        console := console w |}).
Proof.
  intros P Found Ssel Supd. cbv zeta.
  destruct (walk_end60_lookup env req w walk_id P) as (k & K & E).
  unfold V60.walk_end, try_catch. rewrite E, K, Found.
  unfold succeeds in Ssel, Supd.
  destruct (faults env walk_select) eqn:F1; [discriminate|].
  destruct (faults env walk_update) eqn:F2; [discriminate|].
  assert (In session (filter (fun row => sql_eq (oprop row "id") walk_id)
                             (rows walk_sessions (db w))))
    as I by (rewrite Found; now left).
  apply filter_In in I as [_ Sel].
  destruct (selected_is_object _ _ Sel) as (fo & ->).
  cbn [truthy negb]. cbv zeta. unfold update, bind.
  rewrite (call_ok env _ _ _ _ F2).
  cbn [fst snd truthy db journal console].
  unfold succeeds at 2. rewrite F1.
  rewrite <- app_assoc. reflexivity.
Qed.

End WalkEndAgain.

(** C10.  On the V6.0 server a walk-end request that names a walk session
    which has already been ended is accepted like the first one, provided
    the store answers the session query and the update: the answer is 200
    [status: 'ok'] with the grade computed from the device status as it is
    now, and the session's [ended_at], duration, distance, stop count,
    grade and score are overwritten with the new values; it keeps its id,
    and unless the clock stands still the row is changed. *)
Theorem walk_end_twice {rt : JS.Runtime} (env : Db.Env) (req : V60.Request)
        (w : Db.World) (walk_id session : JS.JVal) (ended : Z) :
  JS.prop (V60.req_body req) "walk_id" = Some walk_id ->
  filter (fun row => Db.sql_eq (JS.oprop row "id") walk_id)
         (Db.rows Db.walk_sessions (Db.db w)) = [session] ->
  JS.oprop session "ended_at" = JS.JTime ended ->
  succeeds env Db.walk_select = true ->
  succeeds env Db.walk_update = true ->
  let status := snapshot env (V60.params_deviceId req) (Db.db w) in
  let duration := JS.jor (JS.oprop status "walk_duration") (JS.jnum 0) in
  let distance := JS.jor (JS.oprop status "walk_distance") (JS.jnum 0) in
  let stops := JS.jor (JS.oprop status "walk_stops") (JS.jnum 0) in
  let gradeScore := V60.gradeScore_of duration distance stops in
  let grade := V60.grade_of gradeScore in
  let finalized :=
    Db.merge_row session
                 (V60.sessionUpdate env status duration distance stops grade
                                    gradeScore) in
  fst (V60.walk_end env req w)
  = {| Db.status := 200;
       Db.body :=
         JS.wire
           (JS.JObj
              [("status"%string, JS.jstr "ok");
               ("walk_id"%string, walk_id);
               ("grade"%string, JS.jstr grade);
               ("grade_score"%string, JS.JNum gradeScore);
               ("duration_minutes"%string,
                JS.JNum (JS.Math_round (JS.ndiv (JS.ToNumber duration)
                                                (JS.num 60))));
               ("distance_meters"%string,
                JS.JNum (JS.Math_round (JS.ToNumber distance)))]) |}
  /\ In finalized
        (Db.rows Db.walk_sessions (Db.db (snd (V60.walk_end env req w))))
  /\ List.length
       (Db.rows Db.walk_sessions (Db.db (snd (V60.walk_end env req w))))
     = List.length (Db.rows Db.walk_sessions (Db.db w))
  /\ JS.oprop finalized "id" = JS.oprop session "id"
  /\ JS.oprop finalized "ended_at" = JS.JTime (Db.now env)
  /\ JS.oprop finalized "duration_seconds" = JS.wire duration
  /\ JS.oprop finalized "distance_meters" = JS.wire distance
  /\ JS.oprop finalized "stop_count" = JS.wire stops
  /\ JS.oprop finalized "grade" = JS.jstr grade
  /\ JS.oprop finalized "grade_score" = JS.wire (JS.JNum gradeScore)
  /\ (Db.now env <> ended -> finalized <> session).
Proof.
  intros P Found Ended Ssel Supd. cbv zeta.
  rewrite (walk_end60_found env req w walk_id session P Found Ssel Supd).
  cbn [fst snd Db.db].
  set (status := snapshot env (V60.params_deviceId req) (Db.db w)).
  set (duration := JS.jor (JS.oprop status "walk_duration") (JS.jnum 0)).
  set (distance := JS.jor (JS.oprop status "walk_distance") (JS.jnum 0)).
  set (stops := JS.jor (JS.oprop status "walk_stops") (JS.jnum 0)).
  set (gradeScore := V60.gradeScore_of duration distance stops).
  set (grade := V60.grade_of gradeScore).
  assert (Dd : duration <> JS.JUndefined)
    by (apply jor_defined; discriminate).
  assert (Dm : distance <> JS.JUndefined)
    by (apply jor_defined; discriminate).
  assert (Ds : stops <> JS.JUndefined)
    by (apply jor_defined; discriminate).
  clearbody status duration distance stops gradeScore grade.
  assert (In session (filter (fun row => Db.sql_eq (JS.oprop row "id") walk_id)
                             (Db.rows Db.walk_sessions (Db.db w))))
    as I by (rewrite Found; now left).
  apply filter_In in I as [I Sel].
  destruct (selected_is_object _ _ Sel) as (fo & ->).
  unfold V60.sessionUpdate.
  split; [reflexivity|].
  split.
  { unfold Db.updated. rewrite rows_set_rows. apply in_map_iff.
    exists (JS.JObj fo). now rewrite Sel. }
  split.
  { unfold Db.updated. rewrite rows_set_rows. apply length_map. }
  split.
  { apply oprop_merge_row_kept. simpl. intuition discriminate. }
  split; [apply oprop_merge_row_sent; [reflexivity | discriminate]|].
  split; [apply oprop_merge_row_sent; [reflexivity | exact Dd]|].
  split; [apply oprop_merge_row_sent; [reflexivity | exact Dm]|].
  split; [apply oprop_merge_row_sent; [reflexivity | exact Ds]|].
  split; [apply oprop_merge_row_sent; [reflexivity | discriminate]|].
  split; [apply oprop_merge_row_sent; [reflexivity | discriminate]|].
  intros Clock Same.
  assert (X : JS.oprop (Db.merge_row (JS.JObj fo)
                (JS.JObj [("ended_at"%string, JS.JTime (Db.now env));
                          ("duration_seconds"%string, duration);
                          ("distance_meters"%string, distance);
                          ("end_lat"%string, JS.oprop status "latitude");
                          ("end_lon"%string, JS.oprop status "longitude");
                          ("stop_count"%string, stops);
                          ("grade"%string, JS.jstr grade);
                          ("grade_score"%string, JS.JNum gradeScore)]))
                "ended_at" = JS.JTime (Db.now env))
    by (apply oprop_merge_row_sent; [reflexivity | discriminate]).
  rewrite Same, Ended in X. congruence.
Qed.

(** Ending once more, two hours later, the walk that was ended in the
    morning with grade A. *)
Lemma walk_end_twice_witness :
  Db.status (fst (@V60.walk_end Samples.rt0
                    (Samples.quiet Samples.later_that_day)
                    (Samples.end_walk60 7)
                    (Db.fresh Samples.store_with_walk))) = 200
  /\ exists row,
      In row (Db.rows Db.walk_sessions
                (Db.db (snd (@V60.walk_end Samples.rt0
                               (Samples.quiet Samples.later_that_day)
                               (Samples.end_walk60 7)
                               (Db.fresh Samples.store_with_walk)))))
      /\ JS.oprop row "ended_at" = JS.JTime Samples.later_that_day
      /\ JS.oprop row "grade" = JS.jstr "B"
      /\ row <> Samples.ended_walk.
Proof.
  destruct (@walk_end_twice Samples.rt0
              (Samples.quiet Samples.later_that_day) (Samples.end_walk60 7)
              (Db.fresh Samples.store_with_walk) (JS.jnum 7)
              Samples.ended_walk Samples.morning
              eq_refl eq_refl eq_refl eq_refl eq_refl)
    as (R & I & _ & _ & E & _ & _ & _ & G & _ & N).
  split; [now rewrite R|].
  eexists. split; [exact I|]. split; [exact E|]. split; [exact G|].
  apply N. discriminate.
Defined.

(* ================================================================== *)
(** * Signatures *)

Section Signatures.
Import JS Db.
Context {rt : Runtime}.

Lemma jsstring_eqb_eq a : forall b, jsstring_eqb a b = true <-> a = b.
Proof.
  induction a as [|x a IH]; intros [|y b]; simpl;
    try (split; [discriminate | discriminate]); [tauto|].
  rewrite andb_true_iff, Z.eqb_eq, IH. split.
  - intros [-> ->]. reflexivity.
  - intros E. inversion E. tauto.
Qed.

Lemma strict_eq_string s v : strict_eq (JStr s) v = true <-> v = JStr s.
Proof.
  destruct v; simpl; try (split; [discriminate | discriminate]).
  rewrite jsstring_eqb_eq. split; congruence.
Qed.

Lemma hex_digit_injective a b :
  0 <= a < 16 -> 0 <= b < 16 -> V61.hex_digit a = V61.hex_digit b -> a = b.
Proof.
  unfold V61.hex_digit. intros Ha Hb.
  destruct (Z.ltb_spec a 10), (Z.ltb_spec b 10); lia.
Qed.

Lemma nibble_range z : 0 <= z mod 16 < 16.
Proof. apply Z.mod_pos_bound. reflexivity. Qed.

Lemma nibbles_rebuild z :
  0 <= z < 2 ^ 32 ->
  z = (z / 16 ^ 0) mod 16 + 16 * ((z / 16 ^ 1) mod 16
      + 16 * ((z / 16 ^ 2) mod 16 + 16 * ((z / 16 ^ 3) mod 16
      + 16 * ((z / 16 ^ 4) mod 16 + 16 * ((z / 16 ^ 5) mod 16
      + 16 * ((z / 16 ^ 6) mod 16 + 16 * ((z / 16 ^ 7) mod 16))))))).
Proof.
  intros R.
  change (16 ^ 0) with 1. change (16 ^ 1) with 16.
  change (16 ^ 2) with 256. change (16 ^ 3) with 4096.
  change (16 ^ 4) with 65536. change (16 ^ 5) with 1048576.
  change (16 ^ 6) with 16777216. change (16 ^ 7) with 268435456.
  change (2 ^ 32) with 4294967296 in R.
  Z.to_euclidean_division_equations. lia.
Qed.

End Signatures.

(** X1.  With a key set, the V6.1 verifier accepts a signature exactly when
    it is the string of the eight lower-case hexadecimal digits of the djb2
    checksum of [device_id:timestamp:boot_count] followed by the key: a
    number, an upper-case or an unpadded rendering of the same checksum is
    refused. *)
Theorem signature61_exact {rt : JS.Runtime} (cfg : V61.Config)
        (data sig : JS.JVal) :
  V61.key_set cfg = true ->
  (V61.verifyHMAC cfg data sig = true
   <-> sig = JS.JStr (V61.hex8 (Spec.djb2 (V61.message data)
                                          (V61.hmacKey cfg)))).
Proof.
  intros K. unfold V61.verifyHMAC. rewrite K. cbn [negb].
  rewrite checksum61_spec. apply strict_eq_string.
Qed.

Lemma signature61_exact_witness :
  @V61.verifyHMAC Samples.rt0 Samples.keyed61 Samples.report61
                  (JS.jstr "e0b5caf1") = true.
Proof.
  apply (@signature61_exact Samples.rt0 Samples.keyed61 Samples.report61
           (JS.jstr "e0b5caf1") eq_refl).
  vm_compute. reflexivity.
Defined.

(** X2.  The signature the V6.1 verifier expects has eight characters, all
    of them digits or letters from a to f, and it determines the checksum:
    a signature that is accepted for two reports was computed from the
    same checksum. *)
Theorem signature61_determines_checksum {rt : JS.Runtime} (cfg : V61.Config)
        (data data' sig : JS.JVal) :
  V61.key_set cfg = true ->
  V61.verifyHMAC cfg data sig = true ->
  V61.verifyHMAC cfg data' sig = true ->
  V61.checksum cfg data = V61.checksum cfg data'
  /\ exists s, sig = JS.JStr s
               /\ List.length s = 8%nat
               /\ Forall (fun c => 48 <= c <= 57 \/ 97 <= c <= 102) s.
Proof.
  intros K A B.
  unfold V61.verifyHMAC in A, B. rewrite K in A, B. cbn [negb] in A, B.
  apply strict_eq_string in A, B.
  assert (R : forall d, 0 <= V61.checksum cfg d < 2 ^ 32)
    by (intros d; rewrite checksum61_spec; apply checksum_range).
  split.
  - assert (E : V61.hex8 (V61.checksum cfg data)
                = V61.hex8 (V61.checksum cfg data')) by congruence.
    pose proof (R data) as Ra. pose proof (R data') as Rb.
    revert E Ra Rb.
    generalize (V61.checksum cfg data), (V61.checksum cfg data').
    intros a b E Ra Rb.
    pose proof (nibbles_rebuild a Ra) as Ea.
    pose proof (nibbles_rebuild b Rb) as Eb.
    unfold V61.hex8 in E. cbn [map] in E.
    injection E as E7 E6 E5 E4 E3 E2 E1 E0.
    apply hex_digit_injective in E0, E1, E2, E3, E4, E5, E6, E7;
      try apply nibble_range.
    change (16 ^ 0) with 1 in *. change (16 ^ 1) with 16 in *.
    change (16 ^ 2) with 256 in *. change (16 ^ 3) with 4096 in *.
    change (16 ^ 4) with 65536 in *. change (16 ^ 5) with 1048576 in *.
    change (16 ^ 6) with 16777216 in *.
    change (16 ^ 7) with 268435456 in *.
    repeat match goal with
           | H : context [Z.pow_pos 16 ?n] |- _ =>
               let v := eval vm_compute in (Z.pow_pos 16 n) in
               change (Z.pow_pos 16 n) with v in H
           end.
    rewrite Ea, Eb. congruence.
  - exists (V61.hex8 (V61.checksum cfg data)). split; [exact A|].
    split; [reflexivity|].
    unfold V61.hex8. cbn [map].
    repeat (apply Forall_cons;
            [match goal with
             | |- context [V61.hex_digit ?d] =>
                 assert (0 <= d < 16) by apply nibble_range;
                 unfold V61.hex_digit; destruct (Z.ltb_spec d 10); lia
             end|]).
    apply Forall_nil.
Qed.

(** Two reports that differ in their latitude and carry the same
    signature. *)
Lemma signature61_determines_checksum_witness :
  JS.oprop Samples.report61 "latitude" = JS.JNum (JS.Fin (286139 # 10000))
  /\ JS.oprop Notions.moved_report61 "latitude"
     = JS.JNum (JS.Fin (286140 # 10000))
  /\ @V61.checksum Samples.rt0 Samples.keyed61 Samples.report61
     = @V61.checksum Samples.rt0 Samples.keyed61 Notions.moved_report61
  /\ exists s, JS.jstr "e0b5caf1" = JS.JStr s
               /\ List.length s = 8%nat
               /\ Forall (fun c => 48 <= c <= 57 \/ 97 <= c <= 102) s.
Proof.
  split; [reflexivity|]. split; [reflexivity|].
  apply (@signature61_determines_checksum Samples.rt0 Samples.keyed61
           Samples.report61 Notions.moved_report61 (JS.jstr "e0b5caf1")).
  - reflexivity.
  - vm_compute. reflexivity.
  - vm_compute. reflexivity.
Defined.

(* ================================================================== *)
(** * The answers of the telemetry route *)

Section Outcomes.
Import JS Db.
Context {rt : Runtime}.
Variable env : Env.
Local Open Scope gw_scope.

Lemma accepted60_verdict cfg body :
  accepted60 cfg body
  <-> truthy (oprop body "device_id") = true
      /\ (negb (V60.key_set cfg)
          || (truthy (oprop body "signature")
              && strict_eq (jnum (V60.calculatedSignature cfg body))
                           (JNum (parseInt (oprop body "signature")))))
         = true.
Proof.
  unfold accepted60. split; intros [Hid H]; (split; [exact Hid|]).
  - destruct (verifyHMAC60_pure cfg body (oprop body "signature")
                (fresh empty_store)) as (v & l & E & V).
    specialize (H (fresh empty_store)). rewrite E in H. simpl in H.
    congruence.
  - intros w.
    destruct (verifyHMAC60_pure cfg body (oprop body "signature") w)
      as (v & l & E & V).
    rewrite E. simpl. congruence.
Qed.

Lemma truthy_oprop_object body k :
  truthy (oprop body k) = true -> truthy body = true /\ nullish body = false.
Proof. destruct body; simpl; try discriminate. now split. Qed.

(** A report that is refused: the answer, and a store that was not
    called. *)
Lemma telemetry60_refused cfg body w :
  ~ accepted60 cfg body ->
  exists lines,
    V60.telemetry cfg env body w
    = ({| status := if nullish body then 500
                    else if truthy (oprop body "device_id") then 401
                         else 400;
          body := if nullish body
                  then {{ "error" =: jstr "Internal server error" }}
                  else if truthy (oprop body "device_id")
                       then {{ "error" =: jstr "Invalid signature" }}
                       else {{ "error" =: jstr "Missing device_id" }} |},
       {| db := db w; journal := journal w;
          console := console w ++ lines |}).
Proof.
  intros N.
  destruct (truthy (oprop body "device_id")) eqn:Hid.
  - destruct (truthy_oprop_object _ _ Hid) as [_ ->].
    destruct (verifyHMAC60_pure cfg body (oprop body "signature") w)
      as (v & l & E & V).
    destruct v.
    + exfalso. apply N, accepted60_verdict. split; [exact Hid|].
      now rewrite <- V.
    + unfold V60.telemetry, V60.telemetry_body, try_catch.
      rewrite (bind_Ret _ _ _ _ (f_equal fst (get_truthy body _ w Hid))).
      rewrite get_truthy by exact Hid; cbn [snd].
      rewrite Hid. cbn [negb].
      rewrite (bind_Ret _ _ _ _ (f_equal fst E)), E.
      cbn [negb snd]. unfold bind, print, respond.
      cbn [db journal console]. rewrite <- app_assoc.
      eexists. reflexivity.
  - unfold V60.telemetry, V60.telemetry_body, try_catch, bind, get.
    unfold prop. destruct (nullish body).
    + exists [(log_error, "[TELEMETRY] Error:"%string)]. reflexivity.
    + cbn [ret]. rewrite Hid. exists []. rewrite app_nil_r.
      destruct w; reflexivity.
Qed.

Lemma telemetry60_first_call cfg body w :
  accepted60 cfg body ->
  exists rest,
    calls_since w (snd (V60.telemetry cfg env body w))
    = (status_upsert, succeeds env status_upsert) :: rest.
Proof.
  intros Acc.
  destruct (telemetry60_effects cfg env body w Acc)
    as (w3 & E & _ & _ & J3).
  pose proof (record_anomaly60_run env body (oprop body "device_id") w3)
    as [J4 _].
  cbv zeta in J4. rewrite <- E in J4.
  eexists. apply calls_since_app. rewrite J4, J3.
  rewrite <- !app_assoc. reflexivity.
Qed.

Lemma telemetry61_refused cfg body w :
  ~ accepted61 cfg body ->
  exists lines,
    V61.telemetry cfg env body w
    = ({| status := if truthy (oprop body "device_id")
                    then if V61.key_set cfg
                            && truthy (oprop body "signature")
                            && negb (V61.verifyHMAC
                                       cfg body (oprop body "signature"))
                         then 401 else 500
                    else 400;
          body := if truthy (oprop body "device_id")
                  then if V61.key_set cfg
                          && truthy (oprop body "signature")
                          && negb (V61.verifyHMAC
                                     cfg body (oprop body "signature"))
                       then {{ "error" =: jstr "Invalid signature" }}
                       else {{ "error" =: jstr "Database not configured" }}
                  else {{ "error" =: jstr "Missing device_id" }} |},
       {| db := db w; journal := journal w;
          console := console w ++ lines |}).
Proof.
  intros N. unfold V61.telemetry, V61.telemetry_body, try_catch.
  destruct (truthy (oprop body "device_id")) eqn:Hid.
  - destruct (truthy_oprop_object _ _ Hid) as [-> _]. cbn [negb orb].
    destruct (V61.key_set cfg && truthy (oprop body "signature")) eqn:S;
      cbn [andb].
    + destruct (V61.verifyHMAC cfg body (oprop body "signature")) eqn:V;
        cbn [negb].
      * unfold bind at 1. cbn [ret].
        destruct (V61.supabase cfg) eqn:D; cbn [negb].
        -- exfalso. apply N. unfold accepted61. now rewrite S, V.
        -- exists []. rewrite app_nil_r. destruct w; reflexivity.
      * eexists. reflexivity.
    + unfold bind at 1. cbn [ret].
      destruct (V61.supabase cfg) eqn:D; cbn [negb].
      * exfalso. apply N. unfold accepted61. rewrite S.
        intuition discriminate.
      * exists []. rewrite app_nil_r. destruct w; reflexivity.
  - rewrite orb_true_r. exists []. rewrite app_nil_r.
    destruct w; reflexivity.
Qed.

Lemma telemetry61_first_call cfg body w :
  accepted61 cfg body ->
  exists rest,
    calls_since w (snd (V61.telemetry cfg env body w))
    = (status_upsert, succeeds env status_upsert) :: rest.
Proof.
  intros Acc. rewrite (telemetry61_accepted env cfg body w Acc).
  cbn [snd].
  pose proof (update_status61_run env body w) as J1.
  set (w1 := snd (V61.update_status env body w)) in *.
  assert (F : forall (m : M unit) w0,
             keeps (journal_adds (fun _ => True)) m ->
             exists j, journal (snd (m w0)) = journal w0 ++ j).
  { intros m w0 H. destruct (H w0) as (j & E & _). now exists j. }
  destruct (F (V61.insert_location env body) w1) as (j2 & E2).
  { unfold V61.insert_location, insert. frame.
    apply keeps_call_journal. trivial. }
  set (w2 := snd (V61.insert_location env body w1)) in *.
  destruct (F (V61.insert_scratch env body) w2) as (j3 & E3).
  { unfold V61.insert_scratch, insert. frame.
    apply keeps_call_journal. trivial. }
  set (w3 := snd (V61.insert_scratch env body w2)) in *.
  destruct (F (V61.insert_anomaly env body) w3) as (j4 & E4).
  { unfold V61.insert_anomaly, insert. frame.
    apply keeps_call_journal. trivial. }
  clearbody w1 w2 w3.
  eexists. apply calls_since_app. rewrite E4, E3, E2, J1.
  rewrite <- !app_assoc. reflexivity.
Qed.

Lemma accepted60_dec cfg body :
  accepted60 cfg body \/ ~ accepted60 cfg body.
Proof.
  destruct (truthy (oprop body "device_id")) eqn:Hid.
  - destruct (negb (V60.key_set cfg)
              || (truthy (oprop body "signature")
                  && strict_eq (jnum (V60.calculatedSignature cfg body))
                               (JNum (parseInt (oprop body "signature")))))
      eqn:V.
    + left. apply accepted60_verdict. now split.
    + right. intros A. apply accepted60_verdict in A as [_ A]. congruence.
  - right. intros [A _]. congruence.
Qed.

Lemma accepted61_dec cfg body :
  accepted61 cfg body \/ ~ accepted61 cfg body.
Proof.
  unfold accepted61.
  destruct (truthy (oprop body "device_id")); [|right; intuition congruence].
  destruct (V61.supabase cfg); [|right; intuition congruence].
  destruct (V61.key_set cfg && truthy (oprop body "signature")).
  - destruct (V61.verifyHMAC cfg body (oprop body "signature")).
    + left. tauto.
    + right. intros (_ & A & _). specialize (A eq_refl). discriminate.
  - left. repeat split. discriminate.
Qed.

End Outcomes.

(** X3.  The answers of the V6.0 telemetry route.  A report is answered
    with 200 exactly when it is accepted (it has a device id and passes
    the signature check), and then the status upsert is the first call
    made to the store.  Every other request is answered with 400 (no
    device id), 401 (signature check failed) or 500 (the body is [null] or
    absent), and for these the store is not called at all and stays as it
    was. *)
Theorem telemetry60_outcomes {rt : JS.Runtime} (cfg : V60.Config)
        (env : Db.Env) (body : JS.JVal) (w : Db.World) :
  (accepted60 cfg body
   /\ Db.status (fst (V60.telemetry cfg env body w)) = 200
   /\ exists rest,
       calls_since w (snd (V60.telemetry cfg env body w))
       = (Db.status_upsert, succeeds env Db.status_upsert) :: rest)
  \/ (~ accepted60 cfg body
      /\ Db.db (snd (V60.telemetry cfg env body w)) = Db.db w
      /\ calls_since w (snd (V60.telemetry cfg env body w)) = []
      /\ ((JS.nullish body = true
           /\ fst (V60.telemetry cfg env body w)
              = {| Db.status := 500;
                   Db.body := JS.JObj [("error"%string,
                                        JS.jstr "Internal server error")] |})
          \/ (JS.nullish body = false
              /\ JS.truthy (JS.oprop body "device_id") = false
              /\ fst (V60.telemetry cfg env body w)
                 = {| Db.status := 400;
                      Db.body := JS.JObj [("error"%string,
                                           JS.jstr "Missing device_id")] |})
          \/ (JS.truthy (JS.oprop body "device_id") = true
              /\ fst (V60.telemetry cfg env body w)
                 = {| Db.status := 401;
                      Db.body := JS.JObj [("error"%string,
                                           JS.jstr "Invalid signature")] |}))).
Proof.
  destruct (accepted60_dec cfg body) as [Acc | N].
  - left. split; [exact Acc|]. split.
    + now rewrite (telemetry60_accepted env cfg body w Acc).
    + now apply telemetry60_first_call.
  - right. split; [exact N|].
    destruct (telemetry60_refused env cfg body w N) as (lines & ->).
    cbn [fst snd Db.db].
    split; [reflexivity|].
    split; [apply calls_since_app; cbn [Db.journal];
            now rewrite app_nil_r|].
    destruct (JS.nullish body) eqn:B; [left; now split|].
    right. destruct (JS.truthy (JS.oprop body "device_id")) eqn:Hid.
    + right. now split.
    + left. now repeat split.
Qed.

(** X4.  The answers of the V6.1 telemetry route, in the order in which the
    handler decides them: 400 without a device id; 401 when a key is set
    and the report carries a signature that the verifier refuses; 500
    "Database not configured" when the store client is missing; 200
    otherwise, the status upsert being the first call to the store.  A
    request that is not answered with 200 makes no call to the store. *)
Theorem telemetry61_outcomes {rt : JS.Runtime} (cfg : V61.Config)
        (env : Db.Env) (body : JS.JVal) (w : Db.World) :
  (accepted61 cfg body
   /\ Db.status (fst (V61.telemetry cfg env body w)) = 200
   /\ exists rest,
       calls_since w (snd (V61.telemetry cfg env body w))
       = (Db.status_upsert, succeeds env Db.status_upsert) :: rest)
  \/ (~ accepted61 cfg body
      /\ Db.db (snd (V61.telemetry cfg env body w)) = Db.db w
      /\ calls_since w (snd (V61.telemetry cfg env body w)) = []
      /\ ((JS.truthy (JS.oprop body "device_id") = false
           /\ fst (V61.telemetry cfg env body w)
              = {| Db.status := 400;
                   Db.body := JS.JObj [("error"%string,
                                        JS.jstr "Missing device_id")] |})
          \/ (JS.truthy (JS.oprop body "device_id") = true
              /\ V61.key_set cfg = true
              /\ JS.truthy (JS.oprop body "signature") = true
              /\ V61.verifyHMAC cfg body (JS.oprop body "signature") = false
              /\ fst (V61.telemetry cfg env body w)
                 = {| Db.status := 401;
                      Db.body := JS.JObj [("error"%string,
                                           JS.jstr "Invalid signature")] |})
          \/ (JS.truthy (JS.oprop body "device_id") = true
              /\ V61.supabase cfg = false
              /\ fst (V61.telemetry cfg env body w)
                 = {| Db.status := 500;
                      Db.body :=
                        JS.JObj [("error"%string,
                                  JS.jstr "Database not configured")] |}))).
Proof.
  destruct (accepted61_dec cfg body) as [Acc | N].
  - left. split; [exact Acc|]. split.
    + now rewrite (telemetry61_accepted env cfg body w Acc).
    + now apply telemetry61_first_call.
  - right. split; [exact N|].
    destruct (telemetry61_refused env cfg body w N) as (lines & ->).
    cbn [fst snd Db.db].
    split; [reflexivity|].
    split; [apply calls_since_app; cbn [Db.journal];
            now rewrite app_nil_r|].
    destruct (JS.truthy (JS.oprop body "device_id")) eqn:Hid;
      [|left; now split].
    right.
    destruct (V61.key_set cfg) eqn:K; cbn [andb].
    + destruct (JS.truthy (JS.oprop body "signature")) eqn:S; cbn [andb].
      * destruct (V61.verifyHMAC cfg body (JS.oprop body "signature")) eqn:V;
          cbn [negb].
        -- right. repeat split.
           destruct (V61.supabase cfg) eqn:D; [|reflexivity].
           exfalso. apply N. unfold accepted61. rewrite Hid, K, S, V.
           intuition discriminate.
        -- left. now repeat split.
      * right. repeat split.
        destruct (V61.supabase cfg) eqn:D; [|reflexivity].
        exfalso. apply N. unfold accepted61. rewrite Hid, K, S.
        cbn [andb]. intuition discriminate.
    + right. repeat split.
      destruct (V61.supabase cfg) eqn:D; [|reflexivity].
      exfalso. apply N. unfold accepted61. rewrite Hid, K.
      cbn [andb]. intuition discriminate.
Qed.

(* ================================================================== *)
(** * The cheat flags *)

Section CheatFlags.
Import JS Db.
Context {rt : Runtime}.

Lemma ToInt32_small z : - two31 <= z < two31 -> ToInt32 z = z.
Proof.
  intros R. unfold ToInt32. rewrite Z.mod_small; unfold two31, two32 in *;
    lia.
Qed.

Lemma testbit_ToInt32 z i :
  0 <= i < 32 -> Z.testbit (ToInt32 z) i = Z.testbit z i.
Proof.
  intros R.
  rewrite <- (Z.mod_pow2_bits_low (ToInt32 z) 32 i) by lia.
  rewrite <- (Z.mod_pow2_bits_low z 32 i) by lia.
  change (2 ^ 32) with two32. now rewrite ToInt32_mod.
Qed.

Lemma land_pow2 x i :
  0 <= i -> Z.land x (2 ^ i) = if Z.testbit x i then 2 ^ i else 0.
Proof.
  intros I. apply Z.bits_inj'. intros j J.
  rewrite Z.land_spec, Z.pow2_bits_eqb by exact I.
  destruct (Z.eqb_spec i j) as [->|N].
  - rewrite andb_true_r. destruct (Z.testbit x j) eqn:B.
    + now rewrite Z.pow2_bits_true.
    + now rewrite Z.bits_0.
  - rewrite andb_false_r. destruct (Z.testbit x i).
    + now rewrite Z.pow2_bits_false.
    + now rewrite Z.bits_0.
Qed.

Lemma and32_pow2 z i :
  0 <= i < 31 -> and32 z (2 ^ i) = if Z.testbit z i then 2 ^ i else 0.
Proof.
  intros R. unfold and32.
  assert (P : 0 < 2 ^ i < two31).
  { split; [apply Z.pow_pos_nonneg; lia|].
    change two31 with (2 ^ 31). apply Z.pow_lt_mono_r; lia. }
  rewrite (ToInt32_small (2 ^ i)) by (unfold two31 in *; lia).
  rewrite land_pow2, testbit_ToInt32 by lia.
  destruct (Z.testbit z i); apply ToInt32_small; unfold two31 in *; lia.
Qed.

Lemma flag_bit flags i :
  0 <= i < 31 ->
  negb (V61.flag_bits flags (2 ^ i) =? 0)
  = Z.testbit (trunc (ToNumber flags)) i.
Proof.
  intros R. unfold V61.flag_bits. rewrite and32_pow2 by exact R.
  destruct (Z.testbit _ i); [|reflexivity].
  assert (0 < 2 ^ i) by (apply Z.pow_pos_nonneg; lia).
  destruct (Z.eqb_spec (2 ^ i) 0); [lia | reflexivity].
Qed.

Lemma flag_test flags i :
  0 <= i < 31 ->
  (V61.flag_bits flags (2 ^ i) =? 0)
  = negb (Z.testbit (trunc (ToNumber flags)) i).
Proof.
  intros R. rewrite <- (flag_bit flags i R). now rewrite negb_involutive.
Qed.

End CheatFlags.

(** X5.  The cheat flags of a V6.1 walk report are read bit by bit from the
    integer part of [cheat_flags]: bit 0 gives [carrying_detected], bit 1
    [vehicle_detected], bit 2 [excessive_stops] and bit 3 [leash_only], in
    this order, whatever the other bits are; the [vehicle_detected] column
    is bit 1; and the summary is stored as [null] exactly when none of
    the four bits is set. *)
Theorem cheat_flags_bits {rt : JS.Runtime} (flags : JS.JVal) :
  V61.cheatSummary_of flags
  = ((if Z.testbit (JS.trunc (JS.ToNumber flags)) 0
      then [JS.str "carrying_detected"] else [])
     ++ (if Z.testbit (JS.trunc (JS.ToNumber flags)) 1
         then [JS.str "vehicle_detected"] else [])
     ++ (if Z.testbit (JS.trunc (JS.ToNumber flags)) 2
         then [JS.str "excessive_stops"] else [])
     ++ (if Z.testbit (JS.trunc (JS.ToNumber flags)) 3
         then [JS.str "leash_only"] else []))%list
  /\ negb (V61.flag_bits flags 2 =? 0)
     = Z.testbit (JS.trunc (JS.ToNumber flags)) 1
  /\ (JS.jor (JS.JStr (V61.join (V61.cheatSummary_of flags))) JS.JNull
      = JS.JNull
      <-> Z.testbit (JS.trunc (JS.ToNumber flags)) 0 = false
          /\ Z.testbit (JS.trunc (JS.ToNumber flags)) 1 = false
          /\ Z.testbit (JS.trunc (JS.ToNumber flags)) 2 = false
          /\ Z.testbit (JS.trunc (JS.ToNumber flags)) 3 = false).
Proof.
  assert (E : V61.cheatSummary_of flags
              = ((if Z.testbit (JS.trunc (JS.ToNumber flags)) 0
                  then [JS.str "carrying_detected"] else [])
                 ++ (if Z.testbit (JS.trunc (JS.ToNumber flags)) 1
                     then [JS.str "vehicle_detected"] else [])
                 ++ (if Z.testbit (JS.trunc (JS.ToNumber flags)) 2
                     then [JS.str "excessive_stops"] else [])
                 ++ (if Z.testbit (JS.trunc (JS.ToNumber flags)) 3
                     then [JS.str "leash_only"] else []))%list).
  { unfold V61.cheatSummary_of.
    rewrite (flag_test flags 0), (flag_test flags 1), (flag_test flags 2),
      (flag_test flags 3) by lia.
    destruct (Z.testbit _ 0), (Z.testbit _ 1), (Z.testbit _ 2),
      (Z.testbit _ 3); reflexivity. }
  split; [exact E|].
  split; [apply (flag_bit flags 1); lia|].
  rewrite E.
  destruct (Z.testbit _ 0), (Z.testbit _ 1), (Z.testbit _ 2),
    (Z.testbit _ 3); vm_compute; intuition discriminate.
Qed.

(* ================================================================== *)
(** * The session stored by the V6.1 walk-end route *)

Section WalkEnd61Row.
Import JS Db.
Context {rt : Runtime}.
Variable cfg : V61.Config.
Variable env : Env.
Local Open Scope gw_scope.

Lemma toISOString_date n w :
  V61.Date_toISOString n w
  = if Notions.is_date n then (Ret (JTime (trunc n)), w) else (Thrown, w).
Proof.
  unfold V61.Date_toISOString, Notions.is_date.
  destruct n; try reflexivity.
  destruct (Z.leb _ _); reflexivity.
Qed.

Lemma started_at61_run walkData w :
  (if truthy (oprop walkData "started_at")
   then ret (oprop walkData "started_at")
   else V61.Date_toISOString
          (nsub (num (now env))
                (nmul (ToNumber (oprop walkData "duration_seconds"))
                      (num 1000)))) w
  = match Notions.started_at61 env walkData with
    | Some started_at => (Ret started_at, w)
    | None => (Thrown, w)
    end.
Proof.
  unfold Notions.started_at61.
  destruct (truthy (oprop walkData "started_at")); [reflexivity|].
  rewrite toISOString_date. fold (Notions.start_instant env walkData).
  destruct (Notions.is_date _); reflexivity.
Qed.

Lemma walk_end61_run req w q started_at :
  V61.supabase cfg = true ->
  prop (V61.req_body req) "quality_score" = Some q ->
  Notions.started_at61 env (V61.req_body req) = Some started_at ->
  faults env walk_insert = None ->
  let walkData := V61.req_body req in
  let score := jor q (jnum 0) in
  let flags := jor (oprop walkData "cheat_flags") (jnum 0) in
  let session :=
    stored env walk_sessions
           {{ "device_id" =: JStr (V61.params_deviceId req);
                 "started_at" =: started_at;
                 "ended_at" =: JTime (now env);
                 "duration_seconds" =: oprop walkData "duration_seconds";
                 "distance_meters" =: oprop walkData "distance_meters";
                 "stop_count" =: oprop walkData "stop_count";
                 "grade" =: jstr (V61.grade_of score);
                 "grade_score" =: score;
                 "verification_status" =:
                   jor (oprop walkData "verification_status")
                       (jstr "pending");
                 "quality_score" =: score;
                 "carried_seconds" =:
                   jor (oprop walkData "carried_seconds") (jnum 0);
                 "carried_percent" =: JNum (V61.carriedPercent_of walkData);
                 "vehicle_seconds" =:
                   jor (oprop walkData "vehicle_seconds") (jnum 0);
                 "vehicle_detected" =:
                   JBool (negb (Z.eqb (V61.flag_bits flags 2) 0));
                 "actual_walk_seconds" =:
                   jor (oprop walkData "actual_walk_seconds") (jnum 0);
                 "actual_walk_percent" =:
                   JNum (V61.actualWalkPercent_of walkData);
                 "cheat_flags" =: flags;
                 "cheat_summary" =:
                   jor (JStr (V61.join (V61.cheatSummary_of flags)))
                       JNull }}
           (db w) in
  V61.walk_end cfg env req w
  = ({| status := 200;
        body := wire {{ "status" =: jstr "ok";
                        "walk" =: session;
                        "grade" =: jstr (V61.grade_of score) }} |},
     {| db := bump_id (set_rows walk_sessions
                                (rows walk_sessions (db w) ++ [session])
                                (db w));
        journal := journal w ++ [(walk_insert, true)];
        console := console w |}).
Proof.
  intros D P S F. cbv zeta.
  unfold V61.walk_end, V61.walk_end_body, try_catch.
  rewrite D. cbn [negb].
  assert (E0 : bind (get (V61.req_body req) "quality_score")
                    (fun q => ret (jor q (jnum 0))) w
               = (Ret (jor q (jnum 0)), w))
    by (unfold bind; now rewrite (get_prop _ _ _ w P)).
  rewrite (bind_Ret _ _ _ _ (f_equal fst E0)), E0. cbn [snd].
  pose proof (started_at61_run (V61.req_body req) w) as E1.
  rewrite S in E1.
  rewrite (bind_Ret _ _ _ _ (f_equal fst E1)), E1. cbn [snd].
  unfold bind, insert_returning.
  rewrite (call_ok env _ _ _ _ F).
  cbn [fst snd data error truthy]. reflexivity.
Qed.

Lemma walk_end61_throws req w q :
  V61.supabase cfg = true ->
  prop (V61.req_body req) "quality_score" = Some q ->
  Notions.started_at61 env (V61.req_body req) = None ->
  V61.walk_end cfg env req w
  = ({| status := 500;
        body := {{ "error" =: jstr "Internal server error" }} |},
     {| db := db w; journal := journal w;
        console := console w ++ [(log_error, "Walk end error:"%string)] |}).
Proof.
  intros D P S.
  unfold V61.walk_end, V61.walk_end_body, try_catch.
  rewrite D. cbn [negb].
  assert (E0 : bind (get (V61.req_body req) "quality_score")
                    (fun q => ret (jor q (jnum 0))) w
               = (Ret (jor q (jnum 0)), w))
    by (unfold bind; now rewrite (get_prop _ _ _ w P)).
  rewrite (bind_Ret _ _ _ _ (f_equal fst E0)), E0. cbn [snd].
  pose proof (started_at61_run (V61.req_body req) w) as E1.
  rewrite S in E1.
  unfold bind at 1. rewrite E1. reflexivity.
Qed.

(** The identifier of a walk session just added is the one the store
    gives, as the handlers send none. *)
Lemma stored_id fs s :
  ~ In "id"%string (map fst fs) ->
  oprop (stored env walk_sessions (JObj fs) s) "id" = jnum (next_id s).
Proof.
  intros N. rewrite oprop_stored_default; [reflexivity|].
  destruct (has_key "id" _) eqn:H; [|reflexivity].
  exfalso. apply N.
  apply has_key_In in H. unfold fields_of in H.
  rewrite wire_JObj in H. now apply wire_fields_keys in H.
Qed.

End WalkEnd61Row.

(** X6.  The session that the V6.1 walk-end route stores.  When the store
    client is configured, the body is an object, the start of the walk is
    given or can be computed from its duration, and the insert succeeds,
    the route makes this one call to the store, appends one session to the
    walk sessions and answers 200 with that session and its grade.  The
    session takes the identifier given by the store, ends now, is graded
    from the score that was sent (zero when there is none), keeps that
    score both as [grade_score] and as [quality_score], and records bit 1
    of the cheat flags as [vehicle_detected]. *)
Theorem walk_end61_session {rt : JS.Runtime} (cfg : V61.Config)
        (env : Db.Env) (req : V61.Request) (w : Db.World)
        (q started_at : JS.JVal) :
  V61.supabase cfg = true ->
  JS.prop (V61.req_body req) "quality_score" = Some q ->
  Notions.started_at61 env (V61.req_body req) = Some started_at ->
  succeeds env Db.walk_insert = true ->
  exists session,
    fst (V61.walk_end cfg env req w)
    = {| Db.status := 200;
         Db.body :=
           JS.wire
             (JS.JObj
                [("status"%string, JS.jstr "ok");
                 ("walk"%string, session);
                 ("grade"%string,
                  JS.jstr (V61.grade_of (JS.jor q (JS.jnum 0))))]) |}
    /\ Db.rows Db.walk_sessions (Db.db (snd (V61.walk_end cfg env req w)))
       = Db.rows Db.walk_sessions (Db.db w) ++ [session]
    /\ calls_since w (snd (V61.walk_end cfg env req w))
       = [(Db.walk_insert, true)]
    /\ JS.oprop session "id" = JS.jnum (Db.next_id (Db.db w))
    /\ JS.oprop session "device_id" = JS.JStr (V61.params_deviceId req)
    /\ JS.oprop session "started_at" = JS.wire started_at
    /\ JS.oprop session "ended_at" = JS.JTime (Db.now env)
    /\ JS.oprop session "grade"
       = JS.jstr (V61.grade_of (JS.jor q (JS.jnum 0)))
    /\ JS.oprop session "grade_score" = JS.wire (JS.jor q (JS.jnum 0))
    /\ JS.oprop session "quality_score" = JS.wire (JS.jor q (JS.jnum 0))
    /\ JS.oprop session "carried_percent"
       = JS.wire (JS.JNum (V61.carriedPercent_of (V61.req_body req)))
    /\ JS.oprop session "actual_walk_percent"
       = JS.wire (JS.JNum (V61.actualWalkPercent_of (V61.req_body req)))
    /\ JS.oprop session "vehicle_detected"
       = JS.JBool
           (Z.testbit
              (JS.trunc
                 (JS.ToNumber
                    (JS.jor (JS.oprop (V61.req_body req) "cheat_flags")
                            (JS.jnum 0)))) 1).
Proof.
  intros D P S F. unfold succeeds in F.
  destruct (Db.faults env Db.walk_insert) eqn:F'; [discriminate|].
  pose proof (walk_end61_run cfg env req w q started_at D P S F') as R.
  cbv zeta in R. rewrite R. clear R.
  rewrite <- (flag_bit _ 1) by lia. change (2 ^ 1) with 2.
  set (score := JS.jor q (JS.jnum 0)).
  set (grade := V61.grade_of score).
  set (vehicle := negb (V61.flag_bits _ 2 =? 0)).
  set (summary := JS.jor (JS.JStr (V61.join _)) JS.JNull).
  set (carried := V61.carriedPercent_of _).
  set (actual := V61.actualWalkPercent_of _).
  clearbody score grade vehicle summary carried actual.
  eexists. split; [reflexivity|]. cbn [fst snd Db.db].
  split; [now rewrite rows_bump_id, rows_set_rows|].
  split; [apply calls_since_app; reflexivity|].
  split.
  { apply stored_id. cbn [map fst In]. intuition discriminate. }
  split; [now rewrite oprop_stored_wire|].
  split; [now rewrite oprop_stored_wire|].
  split; [now rewrite oprop_stored_wire|].
  split; [now rewrite oprop_stored_wire|].
  split; [now rewrite oprop_stored_wire|].
  split; [now rewrite oprop_stored_wire|].
  split; [now rewrite oprop_stored_wire|].
  split; [now rewrite oprop_stored_wire|].
  now rewrite oprop_stored_wire.
Qed.

(** The walk report of [Samples], dated from its duration of 800
    seconds. *)
Lemma walk_end61_session_witness :
  exists session,
    Db.rows Db.walk_sessions
            (Db.db (snd (@V61.walk_end Samples.rt0 Samples.open61
                           (Samples.quiet Samples.later_that_day)
                           (Samples.end_walk61 Samples.walk_report)
                           (Db.fresh Db.empty_store))))
    = [session]
    /\ JS.oprop session "id" = JS.jnum 1
    /\ JS.oprop session "started_at" = JS.JTime 1767260800000
    /\ JS.oprop session "grade" = JS.jstr "B".
Proof.
  destruct (@walk_end61_session Samples.rt0 Samples.open61
              (Samples.quiet Samples.later_that_day)
              (Samples.end_walk61 Samples.walk_report)
              (Db.fresh Db.empty_store) (JS.jnum 70)
              (JS.JTime 1767260800000) eq_refl eq_refl eq_refl eq_refl)
    as (session & _ & R & _ & I & _ & S & _ & G & _).
  exists session. split; [exact R|]. split; [exact I|].
  split; [exact S | exact G].
Defined.

(** X7.  A walk report that gives no start and whose duration does not
    lead to a date (it is absent, not a number, or out of range) cannot
    be dated: the V6.1 walk-end route answers 500 "Internal server error",
    makes no call to the store and stores no session. *)
Theorem walk_end61_undated {rt : JS.Runtime} (cfg : V61.Config)
        (env : Db.Env) (req : V61.Request) (w : Db.World) (q : JS.JVal) :
  V61.supabase cfg = true ->
  JS.prop (V61.req_body req) "quality_score" = Some q ->
  JS.truthy (JS.oprop (V61.req_body req) "started_at") = false ->
  Notions.is_date (Notions.start_instant env (V61.req_body req)) = false ->
  fst (V61.walk_end cfg env req w)
  = {| Db.status := 500;
       Db.body := JS.JObj [("error"%string,
                            JS.jstr "Internal server error")] |}
  /\ Db.db (snd (V61.walk_end cfg env req w)) = Db.db w
  /\ calls_since w (snd (V61.walk_end cfg env req w)) = [].
Proof.
  intros D P T N.
  rewrite (walk_end61_throws cfg env req w q D P)
    by (unfold Notions.started_at61; now rewrite T, N).
  cbn [fst snd Db.db]. split; [reflexivity|]. split; [reflexivity|].
  apply calls_since_app. cbn [Db.journal]. now rewrite app_nil_r.
Qed.

Lemma walk_end61_undated_witness :
  Db.status (fst (@V61.walk_end Samples.rt0 Samples.open61
                    (Samples.quiet Samples.later_that_day)
                    (Samples.end_walk61 Notions.undated_walk)
                    (Db.fresh Db.empty_store))) = 500
  /\ Db.db (snd (@V61.walk_end Samples.rt0 Samples.open61
                   (Samples.quiet Samples.later_that_day)
                   (Samples.end_walk61 Notions.undated_walk)
                   (Db.fresh Db.empty_store))) = Db.empty_store.
Proof.
  destruct (@walk_end61_undated Samples.rt0 Samples.open61
              (Samples.quiet Samples.later_that_day)
              (Samples.end_walk61 Notions.undated_walk)
              (Db.fresh Db.empty_store) (JS.jnum 80)
              eq_refl eq_refl eq_refl eq_refl) as (R & S & _).
  split; [now rewrite R | exact S].
Defined.

(* ================================================================== *)
(** * The columns written by a V6.0 report *)

Section StatusColumns.
Import JS Db.
Context {rt : Runtime}.
Variable env : Env.
Local Open Scope gw_scope.

Lemma wire_fields_cons k v l :
  v <> JUndefined -> wire_fields ((k, v) :: l) = (k, wire v) :: wire_fields l.
Proof. destruct v; intros N; [now destruct N | reflexivity ..]. Qed.

Lemma jcoalesce_defined a b : b <> JUndefined -> jcoalesce a b <> JUndefined.
Proof. destruct a; simpl; trivial; discriminate. Qed.

Lemma truthy_defined v : truthy v = true -> v <> JUndefined.
Proof. intros T ->. discriminate. Qed.

(** A field that reaches the store holds a value. *)
Lemma wire_fields_defined k fs :
  has_key k (wire_fields fs) = true -> lookup k (wire_fields fs) <> JUndefined.
Proof.
  unfold has_key.
  induction fs as [|[k' v] fs IH]; [discriminate|].
  destruct v eqn:V; try exact IH;
    (cbn [wire_fields existsb lookup fst];
     destruct (String.eqb k k'); [|exact IH];
     intros _ W; apply wire_undefined in W; discriminate).
Qed.

Lemma statusUpdate60_columns payload deviceId :
  deviceId <> JUndefined ->
  map fst (fields_of (V60.statusUpdate env payload deviceId))
  = Notions.status_columns60.
Proof.
  intros N. unfold V60.statusUpdate, fields_of. rewrite wire_JObj.
  repeat (rewrite wire_fields_cons
           by first [ exact N | discriminate
                    | apply jor_defined; discriminate
                    | apply jcoalesce_defined; discriminate ]).
  reflexivity.
Qed.

Lemma statusUpdate60_field payload deviceId k :
  deviceId <> JUndefined ->
  lookup k (fields_of (V60.statusUpdate env payload deviceId))
  = wire (oprop (V60.statusUpdate env payload deviceId) k).
Proof.
  intros N. unfold V60.statusUpdate. cbn [oprop].
  apply oprop_fields_of. apply distinct_sound. reflexivity.
Qed.

End StatusColumns.

(** X8.  A V6.0 report writes every one of the 41 status columns, whatever
    it contains: a part that is missing from the report is sent as its
    default ([null], zero, [false], 'unknown' or, for [is_home], [true]),
    never left out.  Hence the row of the device keeps nothing of its
    earlier values in these columns; for instance a report without a
    position resets [latitude] to [null]. *)
Theorem statusUpdate60_overwrites (env : Db.Env)
        (payload deviceId old : JS.JVal) :
  JS.truthy deviceId = true ->
  map fst (Db.fields_of (V60.statusUpdate env payload deviceId))
  = Notions.status_columns60
  /\ (forall k,
         In k Notions.status_columns60 ->
         JS.oprop (Db.merge_row old (V60.statusUpdate env payload deviceId)) k
         = JS.wire (JS.oprop (V60.statusUpdate env payload deviceId) k)
         /\ JS.oprop (Db.merge_row old
                        (V60.statusUpdate env payload deviceId)) k
            <> JS.JUndefined)
  /\ (JS.truthy (JS.oprop (JS.oprop payload "gps") "lat") = false ->
      JS.oprop (Db.merge_row old (V60.statusUpdate env payload deviceId))
               "latitude" = JS.JNull).
Proof.
  intros T. pose proof (truthy_defined _ T) as N.
  pose proof (statusUpdate60_columns env payload deviceId N) as C.
  assert (F : forall k,
             In k Notions.status_columns60 ->
             JS.oprop (Db.merge_row old
                         (V60.statusUpdate env payload deviceId)) k
             = JS.wire (JS.oprop (V60.statusUpdate env payload deviceId) k)
               /\ JS.oprop (Db.merge_row old
                              (V60.statusUpdate env payload deviceId)) k
                  <> JS.JUndefined).
  { intros k I.
    assert (H : Db.has_key k (Db.fields_of
                                (V60.statusUpdate env payload deviceId))
                = true) by (apply has_key_In; now rewrite C).
    rewrite (oprop_merge_row k old _ H).
    split; [apply (statusUpdate60_field env payload deviceId k N)|].
    revert H. unfold V60.statusUpdate, Db.fields_of. rewrite wire_JObj.
    apply wire_fields_defined. }
  split; [exact C|]. split; [exact F|].
  intros G. destruct (F "latitude"%string) as [E _].
  { unfold Notions.status_columns60. simpl. tauto. }
  rewrite E. unfold V60.statusUpdate. cbn [JS.oprop JS.lookup String.eqb
    Ascii.eqb Bool.eqb]. unfold JS.jor. now rewrite G.
Qed.

(** A report that only names the device, merged into a row that held a
    position. *)
Lemma statusUpdate60_overwrites_witness :
  JS.oprop Samples.status_row "latitude" = JS.JNum (JS.Fin (286139 # 10000))
  /\ JS.oprop (Db.merge_row Samples.status_row
                 (V60.statusUpdate (Samples.quiet Samples.later_that_day)
                    (JS.JObj [("device_id"%string, JS.jstr "collar-1")])
                    (JS.jstr "collar-1")))
              "latitude" = JS.JNull.
Proof.
  split; [reflexivity|].
  apply (statusUpdate60_overwrites
           (Samples.quiet Samples.later_that_day)
           (JS.JObj [("device_id"%string, JS.jstr "collar-1")])
           (JS.jstr "collar-1") Samples.status_row eq_refl).
  reflexivity.
Defined.

(* ================================================================== *)
(** * The signature check of the V6.0 server *)

Section Signature60.
Import JS Db.
Context {rt : Runtime}.

Lemma strict_eq_number c n :
  strict_eq (jnum c) (JNum n) = true
  <-> exists q, n = Fin q /\ (q == inject_Z c)%Q.
Proof.
  unfold jnum, num. destruct n as [q| | |]; simpl.
  - rewrite Qeq_bool_iff. split.
    + intros E. exists q. split; [reflexivity | now symmetry].
    + intros (q' & [= <-] & E). now symmetry.
  - split; [discriminate | intros (q & E & _); discriminate].
  - split; [discriminate | intros (q & E & _); discriminate].
  - split; [discriminate | intros (q & E & _); discriminate].
Qed.

End Signature60.

(** X9.  The signature check of the V6.0 server, when a key is set.  A
    report is accepted exactly when it has a device id and a signature
    that is truthy and that [parseInt] reads as the djb2 checksum of the
    serialized report without its signature, followed by the key.  A
    signature that is falsy, such as the number 0 or the empty string, is
    refused even when the checksum is 0. *)
Theorem signature60_exact {rt : JS.Runtime} (cfg : V60.Config)
        (body : JS.JVal) :
  V60.key_set cfg = true ->
  (accepted60 cfg body
   <-> JS.truthy (JS.oprop body "device_id") = true
       /\ JS.truthy (JS.oprop body "signature") = true
       /\ exists q,
           JS.parseInt (JS.oprop body "signature") = JS.Fin q
           /\ (q == inject_Z
                      (Spec.djb2
                         (JS.JSON_stringify (JS.without "signature" body))
                         (V60.key_units cfg)))%Q).
Proof.
  intros K. rewrite accepted60_verdict, K. cbn [negb orb].
  rewrite andb_true_iff, strict_eq_number, checksum60_spec. tauto.
Qed.

(** The report of [Notions.signed60] carries its checksum under the key
    of [Samples.keyed60]; the same report signed with 0 is refused by a
    server that has a key. *)
Lemma signature60_exact_witness :
  @accepted60 Samples.rt0 Samples.keyed60
              (Notions.signed60 (JS.jnum 415979669)).
Proof.
  apply (@signature60_exact Samples.rt0 Samples.keyed60
           (Notions.signed60 (JS.jnum 415979669)) eq_refl).
  split; [reflexivity|]. split; [reflexivity|].
  exists (inject_Z 415979669). split; vm_compute; reflexivity.
Defined.

(* ================================================================== *)
(** * The status route *)

Section StatusRoute.
Import JS Db.
Context {rt : Runtime}.
Variable env : Env.
Local Open Scope gw_scope.

Lemma select_single_reply site t cols sel w :
  select_single env site t cols sel w
  = (Ret (match faults env site with
          | Some msg => {| data := JNull; error := failure msg |}
          | None =>
              match filter sel (rows t (db w)) with
              | [row] => {| data := project cols row; error := JNull |}
              | _ => {| data := JNull;
                        error := failure (str "no single row") |}
              end
          end),
     {| db := db w;
        journal := journal w ++ [(site, succeeds env site)];
        console := console w |}).
Proof.
  unfold select_single, succeeds.
  destruct (faults env site) eqn:E.
  - now rewrite (call_failed env _ _ _ _ _ E).
  - rewrite (call_ok env _ _ _ _ E).
    destruct (filter sel (rows t (db w))) as [|row [|]]; reflexivity.
Qed.

Lemma of_device_object d row :
  Notions.of_device d row = true -> truthy row = true.
Proof. destruct row; simpl; try discriminate. reflexivity. Qed.

Lemma singleton_selected {A} (f : A -> bool) l x :
  filter f l = [x] -> f x = true.
Proof.
  intros E. assert (I : In x (filter f l)) by (rewrite E; now left).
  now apply filter_In in I.
Qed.

(** The row that the status routes read, if the query gives one. *)
Lemma status_found d w row :
  succeeds env status_select = true ->
  filter (Notions.of_device d) (rows device_status (db w)) = [row] ->
  select_single env status_select device_status None
                (fun r => sql_eq (oprop r "device_id") (JStr d)) w
  = (Ret {| data := row; error := JNull |},
     {| db := db w; journal := journal w ++ [(status_select, true)];
        console := console w |}).
Proof.
  intros S F. rewrite select_single_reply.
  unfold succeeds in *. destruct (faults env status_select); [discriminate|].
  unfold Notions.of_device in F. rewrite F. reflexivity.
Qed.

Lemma status_missing d w :
  succeeds env status_select = false
  \/ List.length (filter (Notions.of_device d)
                         (rows device_status (db w))) <> 1%nat ->
  exists msg,
    select_single env status_select device_status None
                  (fun r => sql_eq (oprop r "device_id") (JStr d)) w
    = (Ret {| data := JNull; error := failure msg |},
       {| db := db w;
          journal := journal w
                     ++ [(status_select, succeeds env status_select)];
          console := console w |}).
Proof.
  intros H. rewrite select_single_reply. unfold succeeds in *.
  destruct (faults env status_select) as [msg|].
  - now exists msg.
  - destruct H as [H|H]; [discriminate|].
    unfold Notions.of_device in H.
    destruct (filter _ (rows device_status (db w))) as [|row [|]];
      try (eexists; reflexivity).
    now destruct H.
Qed.

Lemma device_status60_found d w row :
  succeeds env status_select = true ->
  filter (Notions.of_device d) (rows device_status (db w)) = [row] ->
  Routes60.device_status_route env d w
  = ({| status := 200; body := wire row |},
     {| db := db w; journal := journal w ++ [(status_select, true)];
        console := console w |}).
Proof.
  intros S F.
  pose proof (status_found d w row S F) as E.
  pose proof (of_device_object d row (singleton_selected _ _ _ F)) as T.
  unfold Routes60.device_status_route, Routes60.device_status_body,
    try_catch.
  rewrite (bind_Ret _ _ _ _ (f_equal fst E)), E.
  cbn [fst snd data error truthy orb]. rewrite T. reflexivity.
Qed.

Lemma device_status61_found cfg d w row :
  V61.supabase cfg = true ->
  succeeds env status_select = true ->
  filter (Notions.of_device d) (rows device_status (db w)) = [row] ->
  Routes61.device_status_route cfg env d w
  = ({| status := 200; body := wire row |},
     {| db := db w; journal := journal w ++ [(status_select, true)];
        console := console w |}).
Proof.
  intros D S F.
  pose proof (status_found d w row S F) as E.
  unfold Routes61.device_status_route, Routes61.device_status_body,
    try_catch.
  rewrite D. cbn [negb].
  rewrite (bind_Ret _ _ _ _ (f_equal fst E)), E. reflexivity.
Qed.

End StatusRoute.

(** X10.  Looking up a device that has exactly one status row: the three
    servers answer 200 with that row as it is stored (the V6.1 and the
    minimal server when their store client is configured), they make the
    status query and no other call, and leave the store as it was. *)
Theorem device_status_found (env : Db.Env) (d : JS.jsstring) (w : Db.World)
        (row : JS.JVal) :
  succeeds env Db.status_select = true ->
  filter (Notions.of_device d) (Db.rows Db.device_status (Db.db w)) = [row] ->
  Routes60.device_status_route env d w
  = ({| Db.status := 200; Db.body := JS.wire row |},
     {| Db.db := Db.db w;
        Db.journal := Db.journal w ++ [(Db.status_select, true)];
        Db.console := Db.console w |})
  /\ (forall cfg,
         V61.supabase cfg = true ->
         Routes61.device_status_route cfg env d w
         = Routes60.device_status_route env d w)
  /\ (forall cfg,
         Minimal.supabase cfg = true ->
         Minimal.device_status_route cfg env d w
         = Routes60.device_status_route env d w).
Proof.
  intros S F.
  pose proof (status_found env d w row S F) as E.
  pose proof (of_device_object d row (singleton_selected _ _ _ F)) as T.
  pose proof (device_status60_found env d w row S F) as R.
  split; [exact R|]. split.
  - intros cfg D. rewrite R.
    unfold Routes61.device_status_route, Routes61.device_status_body,
      Db.try_catch.
    rewrite D. cbn [negb].
    rewrite (bind_Ret _ _ _ _ (f_equal fst E)), E. reflexivity.
  - intros cfg D. rewrite R.
    unfold Minimal.device_status_route, Minimal.device_status_body,
      Db.try_catch.
    rewrite D. cbn [negb].
    rewrite (bind_Ret _ _ _ _ (f_equal fst E)), E.
    cbn [fst snd Db.data]. unfold JS.jor. rewrite T. reflexivity.
Qed.

Lemma device_status_found_witness :
  fst (Routes60.device_status_route
         (Samples.quiet Samples.later_that_day) (JS.str "collar-1")
         (Db.fresh Samples.store_with_walk))
  = {| Db.status := 200; Db.body := Samples.status_row |}.
Proof.
  destruct (device_status_found
              (Samples.quiet Samples.later_that_day) (JS.str "collar-1")
              (Db.fresh Samples.store_with_walk) Samples.status_row
              eq_refl eq_refl) as (R & _).
  now rewrite R.
Defined.

(** X11.  Looking up a device when the status query fails or does not
    select exactly one row (an unknown device, or several rows): the V6.0
    and the V6.1 server answer 404 "Device not found", also when the cause
    is a failure of the store, whereas the minimal server answers 200
    with an empty object.  None of them changes the store. *)
Theorem device_status_missing (env : Db.Env) (d : JS.jsstring)
        (w : Db.World) :
  succeeds env Db.status_select = false
  \/ List.length (filter (Notions.of_device d)
                         (Db.rows Db.device_status (Db.db w))) <> 1%nat ->
  fst (Routes60.device_status_route env d w)
  = {| Db.status := 404;
       Db.body := JS.JObj [("error"%string, JS.jstr "Device not found")] |}
  /\ Db.db (snd (Routes60.device_status_route env d w)) = Db.db w
  /\ (forall cfg,
         V61.supabase cfg = true ->
         fst (Routes61.device_status_route cfg env d w)
         = {| Db.status := 404;
              Db.body := JS.JObj [("error"%string,
                                   JS.jstr "Device not found")] |}
         /\ Db.db (snd (Routes61.device_status_route cfg env d w))
            = Db.db w)
  /\ (forall cfg,
         Minimal.supabase cfg = true ->
         fst (Minimal.device_status_route cfg env d w)
         = {| Db.status := 200; Db.body := JS.JObj [] |}
         /\ Db.db (snd (Minimal.device_status_route cfg env d w))
            = Db.db w).
Proof.
  intros H. destruct (status_missing env d w H) as (msg & E).
  split; [|split; [|split]].
  - unfold Routes60.device_status_route, Routes60.device_status_body,
      Db.try_catch.
    rewrite (bind_Ret _ _ _ _ (f_equal fst E)), E. reflexivity.
  - unfold Routes60.device_status_route, Routes60.device_status_body,
      Db.try_catch.
    rewrite (bind_Ret _ _ _ _ (f_equal fst E)), E. reflexivity.
  - intros cfg D.
    unfold Routes61.device_status_route, Routes61.device_status_body,
      Db.try_catch.
    rewrite D. cbn [negb].
    rewrite (bind_Ret _ _ _ _ (f_equal fst E)), E. split; reflexivity.
  - intros cfg D.
    unfold Minimal.device_status_route, Minimal.device_status_body,
      Db.try_catch.
    rewrite D. cbn [negb].
    rewrite (bind_Ret _ _ _ _ (f_equal fst E)), E. split; reflexivity.
Qed.

(** A store that fails the status query, although it holds the device. *)
Lemma device_status_missing_witness :
  Db.rows Db.device_status Samples.store_with_walk = [Samples.status_row]
  /\ Db.status
       (fst (Routes60.device_status_route
               (Samples.failing Db.status_select Samples.later_that_day)
               (JS.str "collar-1") (Db.fresh Samples.store_with_walk)))
     = 404.
Proof.
  split; [reflexivity|].
  destruct (device_status_missing
              (Samples.failing Db.status_select Samples.later_that_day)
              (JS.str "collar-1") (Db.fresh Samples.store_with_walk)
              (or_introl eq_refl)) as (R & _).
  now rewrite R.
Defined.

(* ================================================================== *)
(** * From a report to the status of the device *)

Section RoundTrip.
Import JS Db.
Context {rt : Runtime}.
Variable env : Env.
Local Open Scope gw_scope.

Lemma filter_map_selected {A} (sel : A -> bool) (f : A -> A) l :
  (forall x, sel x = true -> sel (f x) = true) ->
  filter sel (map (fun x => if sel x then f x else x) l)
  = map f (filter sel l).
Proof.
  intros H. induction l as [|x l IH]; [reflexivity|].
  cbn [map filter]. destruct (sel x) eqn:S.
  - rewrite (H x S). cbn [map]. now rewrite IH.
  - rewrite S. exact IH.
Qed.

Lemma existsb_same {A} (f g : A -> bool) l :
  (forall x, f x = g x) -> existsb f l = existsb g l.
Proof.
  intros E. induction l as [|x l IH]; [reflexivity|].
  cbn [existsb]. now rewrite E, IH.
Qed.

Lemma existsb_filter {A} (f : A -> bool) l :
  existsb f l = false -> filter f l = [].
Proof.
  induction l as [|x l IH]; [reflexivity|]. cbn [existsb filter].
  destruct (f x); [discriminate | exact IH].
Qed.

Lemma filter_existsb {A} (f : A -> bool) l x l' :
  filter f l = x :: l' -> existsb f l = true.
Proof.
  intros E. apply existsb_exists. exists x.
  assert (I : In x (filter f l)) by (rewrite E; now left).
  now apply filter_In in I.
Qed.

(** The rows of a device after a status upsert that names it: the rows
    it had, merged with the update, or the new row when it had none. *)
Lemma device_rows_upserted d upd s :
  lookup "device_id" (fields_of upd) = JStr d ->
  filter (Notions.of_device d)
         (rows device_status
               (upserted env device_status ["device_id"%string]
                         upd s))
  = match filter (Notions.of_device d) (rows device_status s) with
    | [] => [stored env device_status upd s]
    | l => map (fun old => merge_row old upd) l
    end.
Proof.
  intros L.
  assert (K : has_key "device_id" (fields_of upd) = true)
    by (apply lookup_has_key; rewrite L; discriminate).
  assert (C : forall old,
             conflicts ["device_id"%string] (wire upd) old
             = Notions.of_device d old).
  { intros old. unfold conflicts, Notions.of_device. cbn [forallb].
    rewrite andb_true_r. unfold fields_of in L.
    destruct (wire upd) eqn:W; try discriminate L.
    cbn [oprop]. now rewrite L. }
  assert (M : forall old, Notions.of_device d (merge_row old upd)
                          = true).
  { intros old. unfold Notions.of_device.
    rewrite (oprop_merge_row _ _ _ K), L. cbn [sql_eq strict_eq].
    apply jsstring_eqb_refl. }
  unfold upserted. cbv zeta.
  rewrite (existsb_same _ _ _ C), (map_ext _ _ (fun old => f_equal
             (fun b : bool => if b then merge_row old upd else old)
             (C old))).
  destruct (filter (Notions.of_device d) (rows device_status s))
    as [|x l] eqn:F.
  - destruct (existsb _ (rows device_status s)) eqn:X.
    + apply existsb_exists in X as (x & I & Sx).
      assert (I' : In x (filter (Notions.of_device d)
                                (rows device_status s)))
        by (apply filter_In; now split).
      rewrite F in I'. destruct I'.
    + rewrite rows_inserted, filter_app, F. cbn [filter app].
      unfold Notions.of_device at 1.
      rewrite (oprop_stored _ _ _ _ _ K), L. cbn [sql_eq strict_eq].
      now rewrite jsstring_eqb_refl.
  - rewrite (filter_existsb _ _ _ _ F), rows_set_rows.
    rewrite filter_map_selected by (intros; apply M).
    now rewrite F.
Qed.

Lemma length_le_1 {A} (l : list A) :
  (List.length l <= 1)%nat -> l = [] \/ exists x, l = [x].
Proof.
  destruct l as [|x [|y l]]; simpl; intros H.
  - now left.
  - right. now exists x.
  - lia.
Qed.

(** After an accepted report whose status upsert succeeds, the device
    has one row, which holds what the report sent. *)
Lemma telemetry60_status_row cfg body d w :
  accepted60 cfg body ->
  oprop body "device_id" = JStr d ->
  succeeds env status_upsert = true ->
  (List.length (filter (Notions.of_device d)
                       (rows device_status (db w))) <= 1)%nat ->
  exists row,
    filter (Notions.of_device d)
           (rows device_status (db (snd (V60.telemetry cfg env body w))))
    = [row]
    /\ forall k,
        In k Notions.status_columns60 ->
        oprop row k = wire (oprop (V60.statusUpdate env body (JStr d)) k).
Proof.
  intros Acc Hd S U.
  destruct (telemetry60_effects cfg env body w Acc)
    as (w3 & _ & _ & R & _).
  rewrite S, Hd in R. rewrite R. clear R.
  assert (N : JStr d <> JUndefined) by discriminate.
  pose proof (statusUpdate60_columns env body (JStr d) N) as C.
  pose proof (fun k => statusUpdate60_field env body (JStr d) k N) as F.
  assert (L : lookup "device_id"
                     (fields_of (V60.statusUpdate env body (JStr d)))
              = JStr d) by (rewrite F; reflexivity).
  rewrite (device_rows_upserted d _ (db w) L).
  assert (H : forall k, In k Notions.status_columns60 ->
                        has_key k (fields_of (V60.statusUpdate
                                                env body (JStr d)))
                        = true)
    by (intros k I; apply has_key_In; now rewrite C).
  revert H F. generalize (V60.statusUpdate env body (JStr d)).
  intros upd H F.
  destruct (length_le_1 _ U) as [E | (old & E)]; rewrite E.
  - eexists. split; [reflexivity|]. intros k I.
    now rewrite (oprop_stored _ _ _ _ _ (H k I)), F.
  - eexists. split; [reflexivity|]. intros k I.
    now rewrite (oprop_merge_row _ _ _ (H k I)), F.
Qed.

End RoundTrip.

(** X12.  From a report to the status of the device, on the V6.0 server.
    After a report for device [d] was accepted and its status upsert
    succeeded, a status look-up for [d] whose query succeeds is answered
    with 200 and one row, and in that row every one of the 41 status
    columns holds what this report sent (so that [last_seen_at] is the
    time of the report), provided the device had at most one row
    before. *)
Theorem telemetry60_then_status {rt : JS.Runtime} (cfg : V60.Config)
        (env env' : Db.Env) (body : JS.JVal) (d : JS.jsstring)
        (w : Db.World) :
  accepted60 cfg body ->
  JS.oprop body "device_id" = JS.JStr d ->
  succeeds env Db.status_upsert = true ->
  (List.length (filter (Notions.of_device d)
                       (Db.rows Db.device_status (Db.db w))) <= 1)%nat ->
  succeeds env' Db.status_select = true ->
  exists row,
    fst (Routes60.device_status_route
           env' d (snd (V60.telemetry cfg env body w)))
    = {| Db.status := 200; Db.body := JS.wire row |}
    /\ (forall k,
           In k Notions.status_columns60 ->
           JS.oprop row k
           = JS.wire (JS.oprop (V60.statusUpdate env body (JS.JStr d)) k))
    /\ JS.oprop row "last_seen_at" = JS.JTime (Db.now env).
Proof.
  intros Acc Hd S U S'.
  destruct (telemetry60_status_row env cfg body d w Acc Hd S U)
    as (row & F & K).
  exists row. split; [|split; [exact K|]].
  - now rewrite (device_status60_found env' d _ row S' F).
  - rewrite K by (unfold Notions.status_columns60; simpl; tauto).
    reflexivity.
Qed.

(** The report of [Samples] sent to an empty store, and the look-up two
    hours later. *)
Lemma telemetry60_then_status_witness :
  exists row,
    fst (Routes60.device_status_route
           (Samples.quiet Samples.later_that_day) (JS.str "collar-1")
           (snd (@V60.telemetry Samples.rt0 Samples.open60
                   (Samples.quiet Samples.morning) Samples.report60
                   (Db.fresh Db.empty_store))))
    = {| Db.status := 200; Db.body := JS.wire row |}
    /\ JS.oprop row "last_seen_at" = JS.JTime Samples.morning.
Proof.
  destruct (@telemetry60_then_status Samples.rt0 Samples.open60
              (Samples.quiet Samples.morning)
              (Samples.quiet Samples.later_that_day) Samples.report60
              (JS.str "collar-1") (Db.fresh Db.empty_store))
    as (row & R & _ & L).
  - split; [reflexivity|]. intros w. reflexivity.
  - reflexivity.
  - reflexivity.
  - simpl. lia.
  - reflexivity.
  - exists row. split; [exact R | exact L].
Defined.


(* ================================================================== *)
(** * What a V6.1 report leaves as it was *)

Section Stale61.
Import JS Db.
Context {rt : Runtime}.
Variable env : Env.
Local Open Scope gw_scope.

Lemma update_status61_db data w :
  db (snd (V61.update_status env data w))
  = if succeeds env status_upsert
    then upserted env device_status ["device_id"%string]
                  (V61.statusUpdate env data) (db w)
    else db w.
Proof.
  unfold V61.update_status, upsert, succeeds, bind.
  destruct (faults env status_upsert) eqn:E.
  - now rewrite (call_failed env _ _ _ _ _ E).
  - now rewrite (call_ok env _ _ _ _ E).
Qed.

Lemma telemetry61_status_rows cfg body w :
  accepted61 cfg body ->
  rows device_status (db (snd (V61.telemetry cfg env body w)))
  = rows device_status
         (if succeeds env status_upsert
          then upserted env device_status ["device_id"%string]
                        (V61.statusUpdate env body) (db w)
          else db w).
Proof.
  intros Acc. rewrite (telemetry61_accepted env cfg body w Acc).
  cbn [snd].
  rewrite (insert_anomaly61_keeps env body device_status
             ltac:(discriminate)).
  rewrite (insert_scratch61_keeps env body device_status
             ltac:(discriminate)).
  rewrite (insert_location61_keeps env body device_status
             ltac:(discriminate)).
  now rewrite update_status61_db.
Qed.

(** A field that is dropped on the way to the store. *)
Lemma dropped_field k fs :
  NoDup (map fst fs) -> lookup k fs = JUndefined ->
  has_key k (wire_fields fs) = false.
Proof.
  unfold has_key.
  induction fs as [|[k' v] fs IH]; [reflexivity|].
  cbn [map fst lookup]. intros D L. inversion D as [|? ? N D']; subst.
  destruct (String.eqb_spec k k') as [->|Ne].
  - subst v. cbn [wire_fields].
    destruct (existsb _ (wire_fields fs)) eqn:X; [|reflexivity].
    exfalso. apply N. apply wire_fields_keys.
    apply existsb_exists in X as ([k'' v''] & I & E).
    apply String.eqb_eq in E. cbn [fst] in E. subst k''.
    apply in_map_iff. now exists (k', v'').
  - specialize (IH D' L).
    destruct v; cbn [wire_fields existsb fst]; try exact IH;
      (destruct (String.eqb_spec k k'); [congruence | exact IH]).
Qed.

Lemma statusUpdate61_field data k :
  lookup k (fields_of (V61.statusUpdate env data))
  = wire (oprop (V61.statusUpdate env data) k).
Proof.
  unfold V61.statusUpdate. cbn [oprop].
  apply oprop_fields_of. apply distinct_sound. reflexivity.
Qed.

Lemma statusUpdate61_dropped data k :
  oprop (V61.statusUpdate env data) k = JUndefined ->
  has_key k (fields_of (V61.statusUpdate env data)) = false.
Proof.
  unfold V61.statusUpdate, fields_of. rewrite wire_JObj. cbn [oprop].
  apply dropped_field. apply distinct_sound. reflexivity.
Qed.

Lemma statusUpdate61_passed data k :
  In k Notions.passed_columns61 ->
  oprop (V61.statusUpdate env data) k = oprop data k.
Proof.
  unfold Notions.passed_columns61. cbn [In].
  intros H. unfold V61.statusUpdate.
  repeat (destruct H as [<-|H]; [reflexivity|]).
  destruct H.
Qed.

End Stale61.

(** X13.  What a V6.1 report leaves as it was.  When a report for a
    device that has one status row is accepted and its status upsert
    succeeds, the row returned by a status look-up carries the time of
    the report as [last_seen_at]; each of the columns that the handler
    copies without a default holds the value sent when the report has
    the field, and otherwise still holds the value it had before the
    report: a report without a position leaves the stored position in
    place. *)
Theorem telemetry61_keeps_unsent {rt : JS.Runtime} (cfg : V61.Config)
        (env env' : Db.Env) (body old : JS.JVal) (d : JS.jsstring)
        (w : Db.World) :
  accepted61 cfg body ->
  JS.oprop body "device_id" = JS.JStr d ->
  succeeds env Db.status_upsert = true ->
  filter (Notions.of_device d) (Db.rows Db.device_status (Db.db w)) = [old] ->
  succeeds env' Db.status_select = true ->
  exists row,
    fst (Routes61.device_status_route
           cfg env' d (snd (V61.telemetry cfg env body w)))
    = {| Db.status := 200; Db.body := JS.wire row |}
    /\ JS.oprop row "last_seen_at" = JS.JTime (Db.now env)
    /\ forall k,
        In k Notions.passed_columns61 ->
        JS.oprop row k
        = match JS.oprop body k with
          | JS.JUndefined => JS.oprop old k
          | v => JS.wire v
          end.
Proof.
  intros Acc Hd S F S'.
  pose proof (telemetry61_status_rows env cfg body w Acc) as R.
  rewrite S in R.
  assert (L : JS.lookup "device_id"
                        (Db.fields_of (V61.statusUpdate env body))
              = JS.JStr d).
  { rewrite statusUpdate61_field.
    rewrite statusUpdate61_passed
      by (unfold Notions.passed_columns61; simpl; tauto).
    now rewrite Hd. }
  pose proof (device_rows_upserted env d _ (Db.db w) L) as U.
  rewrite F in U. cbn [map] in U. rewrite <- R in U.
  destruct Acc as (_ & _ & D).
  exists (Db.merge_row old (V61.statusUpdate env body)).
  split; [now rewrite (device_status61_found env' cfg d _ _ D S' U)|].
  split.
  - rewrite oprop_merge_row.
    + now rewrite statusUpdate61_field.
    + apply lookup_has_key. rewrite statusUpdate61_field. discriminate.
  - intros k I.
    pose proof (statusUpdate61_passed env body k I) as P.
    destruct (JS.oprop body k) eqn:B.
    1:{ pose proof (singleton_selected _ _ _ F) as Sel.
        destruct old; try discriminate Sel.
        unfold Db.merge_row. cbn [JS.oprop].
        rewrite lookup_merge_fields.
        now rewrite (statusUpdate61_dropped env body k P). }
    all: rewrite oprop_merge_row;
      [ now rewrite statusUpdate61_field, P
      | apply lookup_has_key; rewrite statusUpdate61_field, P;
        try discriminate ].
    destruct n; discriminate.
Qed.

(** A device with a stored position reports without one. *)
Lemma telemetry61_keeps_unsent_witness :
  exists row,
    fst (Routes61.device_status_route
           Samples.open61 (Samples.quiet Samples.later_that_day)
           (JS.str "collar-1")
           (snd (@V61.telemetry Samples.rt0 Samples.open61
                   (Samples.quiet Samples.morning)
                   (JS.JObj [("device_id"%string, JS.jstr "collar-1")])
                   (Db.fresh Samples.store_with_walk))))
    = {| Db.status := 200; Db.body := JS.wire row |}
    /\ JS.oprop row "last_seen_at" = JS.JTime Samples.morning
    /\ JS.oprop row "latitude" = JS.JNum (JS.Fin (286139 # 10000)).
Proof.
  destruct (@telemetry61_keeps_unsent Samples.rt0 Samples.open61
              (Samples.quiet Samples.morning)
              (Samples.quiet Samples.later_that_day)
              (JS.JObj [("device_id"%string, JS.jstr "collar-1")])
              Samples.status_row (JS.str "collar-1")
              (Db.fresh Samples.store_with_walk))
    as (row & R & L & K).
  - split; [reflexivity|]. split; [discriminate | reflexivity].
  - reflexivity.
  - reflexivity.
  - reflexivity.
  - reflexivity.
  - exists row. split; [exact R|]. split; [exact L|].
    apply (K "latitude"%string). unfold Notions.passed_columns61.
    simpl. tauto.
Defined.

(* ================================================================== *)
(** * Starting a walk, then ending it *)

Section WalkStart.
Import JS Db.
Context {rt : Runtime}.
Local Open Scope gw_scope.

Lemma sql_eq_id n : sql_eq (jnum n) (jnum n) = true.
Proof. simpl. apply Qeq_bool_iff. reflexivity. Qed.

(** The session that the walk-start route adds, the device status being
    [status]. *)
Lemma walk_start_run env d w :
  faults env walk_insert = None ->
  exists status,
    let session :=
      stored env walk_sessions
             {{ "device_id" =: JStr d;
                "started_at" =: JTime (now env);
                "start_lat" =: oprop status "latitude";
                "start_lon" =: oprop status "longitude" }} (db w) in
    Routes60.walk_start env d w
    = ({| status := 200;
          body := {{ "status" =: jstr "ok";
                     "walk_id" =: jnum (next_id (db w));
                     "started_at" =: JTime (now env) }} |},
       {| db := bump_id (set_rows walk_sessions
                                  (rows walk_sessions (db w) ++ [session])
                                  (db w));
          journal := journal w
                     ++ [(status_select, succeeds env status_select);
                         (walk_insert, true)];
          console := console w |}).
Proof.
  intros F.
  unfold Routes60.walk_start, Routes60.walk_start_body, try_catch.
  rewrite (bind_Ret _ _ _ _ (f_equal fst (select_single_reply env _ _ _ _ w))).
  rewrite select_single_reply. cbn [snd].
  match goal with
  | |- context [data ?r] => set (reply := r)
  end.
  exists (data reply). cbv zeta.
  generalize (data reply). intros status.
  unfold bind at 1. unfold insert_returning.
  rewrite (call_ok env _ _ _ _ F).
  cbn [fst snd data error truthy db journal console].
  set (session := stored env walk_sessions _ (db w)).
  assert (P : forall k, prop session k = Some (oprop session k))
    by reflexivity.
  assert (I : oprop session "id" = jnum (next_id (db w)))
    by (apply stored_id; cbn [map fst In]; intuition discriminate).
  assert (T : oprop session "started_at" = JTime (now env))
    by (unfold session; now rewrite oprop_stored_wire).
  unfold inserted. fold session. clearbody session.
  rewrite (bind_Ret _ _ _ _ (f_equal fst (get_prop _ _ _ _ (P _)))).
  rewrite (get_prop _ _ _ _ (P _)). cbn [snd].
  rewrite (bind_Ret _ _ _ _ (f_equal fst (get_prop _ _ _ _ (P _)))).
  rewrite (get_prop _ _ _ _ (P _)). cbn [snd].
  rewrite I, T. unfold respond. rewrite <- app_assoc. reflexivity.
Qed.

End WalkStart.

(** X14.  Starting a walk and then ending it, on the V6.0 server.  When
    the insert succeeds, the walk-start route answers 200 with the
    identifier that the store gave to the new session and with the time of
    the request.  A walk-end request that names this identifier is then
    answered with 200, not with 404, provided its session query and its
    update succeed and no other session bears the identifier: the session
    is found and finalized, it still belongs to the device and still
    starts at the time of the walk-start request, and it ends at the
    time of the walk-end request.  The two requests have added one
    session. *)
Theorem walk_started_then_ended {rt : JS.Runtime} (env1 env2 : Db.Env)
        (d : JS.jsstring) (w : Db.World) :
  succeeds env1 Db.walk_insert = true ->
  filter (Notions.with_id (JS.jnum (Db.next_id (Db.db w))))
         (Db.rows Db.walk_sessions (Db.db w)) = [] ->
  succeeds env2 Db.walk_select = true ->
  succeeds env2 Db.walk_update = true ->
  let walk_id := JS.jnum (Db.next_id (Db.db w)) in
  let started := Routes60.walk_start env1 d w in
  let ended :=
    V60.walk_end env2
                 {| V60.params_deviceId := d;
                    V60.req_body := JS.JObj [("walk_id"%string, walk_id)] |}
                 (snd started) in
  fst started
  = {| Db.status := 200;
       Db.body := JS.JObj [("status"%string, JS.jstr "ok");
                           ("walk_id"%string, walk_id);
                           ("started_at"%string, JS.JTime (Db.now env1))] |}
  /\ Db.status (fst ended) = 200
  /\ JS.oprop (Db.body (fst ended)) "walk_id" = walk_id
  /\ List.length (Db.rows Db.walk_sessions (Db.db (snd ended)))
     = S (List.length (Db.rows Db.walk_sessions (Db.db w)))
  /\ exists session,
      In session (Db.rows Db.walk_sessions (Db.db (snd ended)))
      /\ JS.oprop session "id" = walk_id
      /\ JS.oprop session "device_id" = JS.JStr d
      /\ JS.oprop session "started_at" = JS.JTime (Db.now env1)
      /\ JS.oprop session "ended_at" = JS.JTime (Db.now env2).
Proof.
  intros S1 Fresh S2 S3. cbv zeta.
  unfold succeeds in S1.
  destruct (Db.faults env1 Db.walk_insert) eqn:F1; [discriminate|].
  destruct (walk_start_run env1 d w F1) as (status & R).
  cbv zeta in R. rewrite R. clear R. cbn [fst snd].
  split; [reflexivity|].
  match goal with
  | |- context [Db.stored env1 Db.walk_sessions (JS.JObj ?fs) (Db.db w)] =>
      set (row := fs)
  end.
  assert (I : JS.oprop (Db.stored env1 Db.walk_sessions (JS.JObj row)
                                  (Db.db w)) "id"
              = JS.jnum (Db.next_id (Db.db w)))
    by (apply stored_id; unfold row; cbn [map fst In];
        intuition discriminate).
  assert (Dv : JS.oprop (Db.stored env1 Db.walk_sessions (JS.JObj row)
                                   (Db.db w)) "device_id" = JS.JStr d)
    by (unfold row; now rewrite oprop_stored_wire).
  assert (T : JS.oprop (Db.stored env1 Db.walk_sessions (JS.JObj row)
                                  (Db.db w)) "started_at"
              = JS.JTime (Db.now env1))
    by (unfold row; now rewrite oprop_stored_wire).
  assert (O : exists fo, Db.stored env1 Db.walk_sessions (JS.JObj row)
                                   (Db.db w) = JS.JObj fo)
    by (eexists; reflexivity).
  revert I Dv T O.
  generalize (Db.stored env1 Db.walk_sessions (JS.JObj row) (Db.db w)).
  clear row. intros session I Dv T (fo & ->).
  match goal with
  | |- context [V60.walk_end env2 ?r ?x] =>
      set (req := r); set (w1 := x)
  end.
  assert (Found : filter (fun r => Db.sql_eq (JS.oprop r "id")
                                     (JS.jnum (Db.next_id (Db.db w))))
                         (Db.rows Db.walk_sessions (Db.db w1))
                  = [JS.JObj fo]).
  { unfold w1. cbn [Db.db]. rewrite rows_bump_id, rows_set_rows.
    rewrite filter_app. unfold Notions.with_id in Fresh. rewrite Fresh.
    cbn [filter app]. rewrite I. now rewrite sql_eq_id. }
  pose proof (walk_end60_found env2 req w1
                (JS.jnum (Db.next_id (Db.db w))) (JS.JObj fo)
                eq_refl Found S2 S3) as R.
  cbv zeta in R. rewrite R. clear R. cbn [fst snd Db.db Db.status Db.body].
  split; [reflexivity|].
  split; [reflexivity|].
  split.
  { unfold Db.updated. rewrite rows_set_rows, length_map.
    unfold w1. cbn [Db.db]. rewrite rows_bump_id, rows_set_rows.
    rewrite length_app. simpl. lia. }
  match goal with
  | |- context [Db.updated _ _ ?u _] => set (upd := u)
  end.
  exists (Db.merge_row (JS.JObj fo) upd). split.
  { unfold Db.updated. rewrite rows_set_rows. apply in_map_iff.
    exists (JS.JObj fo). split.
    - rewrite I. now rewrite sql_eq_id.
    - unfold w1. cbn [Db.db]. rewrite rows_bump_id, rows_set_rows.
      apply in_or_app. right. now left. }
  unfold upd, V60.sessionUpdate.
  split; [rewrite oprop_merge_row_kept;
          [exact I | cbn [map fst In]; intuition discriminate]|].
  split; [rewrite oprop_merge_row_kept;
          [exact Dv | cbn [map fst In]; intuition discriminate]|].
  split; [rewrite oprop_merge_row_kept;
          [exact T | cbn [map fst In]; intuition discriminate]|].
  apply oprop_merge_row_sent; [reflexivity | discriminate].
Qed.

(** A walk started in the morning in an empty store and ended two hours
    later. *)
Lemma walk_started_then_ended_witness :
  Db.status
    (fst (@V60.walk_end Samples.rt0 (Samples.quiet Samples.later_that_day)
            {| V60.params_deviceId := JS.str "collar-1";
               V60.req_body := JS.JObj [("walk_id"%string, JS.jnum 1)] |}
            (snd (Routes60.walk_start (Samples.quiet Samples.morning)
                                      (JS.str "collar-1")
                                      (Db.fresh Db.empty_store)))))
  = 200.
Proof.
  destruct (@walk_started_then_ended Samples.rt0
              (Samples.quiet Samples.morning)
              (Samples.quiet Samples.later_that_day) (JS.str "collar-1")
              (Db.fresh Db.empty_store) eq_refl eq_refl eq_refl eq_refl)
    as (_ & E & _).
  exact E.
Defined.

(* ================================================================== *)
(** * The walker statistics *)

Section WalkerStats.
Import JS Db.
Context {rt : Runtime}.
Context {fmt : Routes61.Formatter}.
Local Open Scope gw_scope.

Lemma jor_count n : jor (jnum n) (jnum 0) = jnum n.
Proof.
  unfold jor, jnum, num. cbn [truthy].
  destruct (Qeq_bool (inject_Z n) 0) eqn:E; [|reflexivity].
  apply Qeq_bool_iff in E. unfold Qeq in E. simpl in E.
  assert (n = 0) by lia. now subst n.
Qed.

Lemma filter_same {A} (f g : A -> bool) l :
  (forall x, f x = g x) -> filter f l = filter g l.
Proof.
  intros E. induction l as [|x l IH]; [reflexivity|].
  cbn [filter]. now rewrite E, IH.
Qed.

Lemma filter_either {A} (f g : A -> bool) l :
  (forall x, f x && g x = false) ->
  List.length (filter (fun x => f x || g x) l)
  = (List.length (filter f l) + List.length (filter g l))%nat.
Proof.
  intros D. induction l as [|x l IH]; [reflexivity|].
  cbn [filter]. specialize (D x).
  destruct (f x), (g x); cbn [orb List.length]; try discriminate; lia.
Qed.

Lemma nlt_nge n z : nlt n (num z) = true -> nge n (num z) = false.
Proof.
  destruct n as [x| | |]; simpl; try discriminate; [|reflexivity].
  now destruct (Qle_bool (inject_Z z) x).
Qed.

Lemma nge_nlt n z :
  n <> NaN -> nge n (num z) = false -> nlt n (num z) = true.
Proof.
  destruct n as [x| | |]; simpl; intros N H;
    try congruence; try discriminate.
  now rewrite H.
Qed.

Lemma nge_weaken n a b :
  a <= b -> nge n (num b) = true -> nge n (num a) = true.
Proof.
  intros L. destruct n as [x| | |]; simpl; try discriminate;
    [|reflexivity].
  rewrite !Qle_bool_iff. intros H.
  apply Qle_trans with (inject_Z b); [|exact H].
  now rewrite <- Zle_Qle.
Qed.

(** The four counters, by grade. *)
Lemma excellent_grade w :
  Routes61.excellent w
  = String.eqb (V61.grade_of (oprop w "quality_score")) "A".
Proof.
  unfold Routes61.excellent, V61.grade_of.
  destruct (nge _ (num 90)); [reflexivity|].
  destruct (nge _ (num 70)); [reflexivity|].
  destruct (nge _ (num 50)); reflexivity.
Qed.

Lemma good_grade w :
  Routes61.good w
  = String.eqb (V61.grade_of (oprop w "quality_score")) "B".
Proof.
  unfold Routes61.good, V61.grade_of.
  destruct (nge _ (num 90)) eqn:A.
  - destruct (nlt _ (num 90)) eqn:L.
    + apply nlt_nge in L. congruence.
    + now rewrite andb_false_r.
  - destruct (nge _ (num 70)) eqn:B.
    + cbn [andb]. apply nge_nlt; [|exact A].
      intros N. rewrite N in B. discriminate.
    + destruct (nge _ (num 50)); reflexivity.
Qed.

Lemma fair_grade w :
  Routes61.fair w
  = String.eqb (V61.grade_of (oprop w "quality_score")) "C".
Proof.
  unfold Routes61.fair, V61.grade_of.
  destruct (nge _ (num 70)) eqn:B.
  - destruct (nlt _ (num 70)) eqn:L.
    + apply nlt_nge in L. congruence.
    + rewrite andb_false_r. destruct (nge _ (num 90)); reflexivity.
  - destruct (nge _ (num 90)) eqn:A.
    + apply (nge_weaken _ 70 90) in A; [|lia]. congruence.
    + destruct (nge _ (num 50)) eqn:C; [|reflexivity].
      cbn [andb]. apply nge_nlt; [|exact B].
      intros N. rewrite N in C. discriminate.
Qed.

Lemma poor_grade w :
  String.eqb (V61.grade_of (oprop w "quality_score")) "F"
  = Routes61.poor w
    || match ToNumber (oprop w "quality_score") with
       | NaN => true
       | _ => false
       end.
Proof.
  unfold Routes61.poor, V61.grade_of.
  destruct (nge _ (num 50)) eqn:C.
  - assert (B : nlt (ToNumber (oprop w "quality_score")) (num 50) = false).
    { destruct (nlt _ (num 50)) eqn:L; [|reflexivity].
      apply nlt_nge in L. congruence. }
    rewrite B.
    assert (N : match ToNumber (oprop w "quality_score") with
                | NaN => true
                | _ => false
                end = false)
      by (destruct (ToNumber _); try reflexivity; discriminate).
    rewrite N.
    destruct (nge _ (num 90)); [reflexivity|].
    destruct (nge _ (num 70)); reflexivity.
  - destruct (nge _ (num 70)) eqn:B.
    { apply (nge_weaken _ 50 70) in B; [|lia]. congruence. }
    destruct (nge _ (num 90)) eqn:A.
    { apply (nge_weaken _ 50 90) in A; [|lia]. congruence. }
    cbn [String.eqb Ascii.eqb Bool.eqb].
    destruct (ToNumber (oprop w "quality_score")) eqn:N;
      try reflexivity; try discriminate.
    cbn [orb]. symmetry. rewrite orb_false_r.
    apply nge_nlt; [discriminate | exact C].
Qed.

Lemma grades_partition l :
  (Notions.graded "A" l + Notions.graded "B" l + Notions.graded "C" l
   + Notions.graded "F" l)%Z
  = Z.of_nat (List.length l).
Proof.
  unfold Notions.graded.
  induction l as [|w l IH]; [reflexivity|].
  cbn [filter List.length].
  assert (G : V61.grade_of (oprop w "quality_score") = "A"%string
              \/ V61.grade_of (oprop w "quality_score") = "B"%string
              \/ V61.grade_of (oprop w "quality_score") = "C"%string
              \/ V61.grade_of (oprop w "quality_score") = "F"%string).
  { unfold V61.grade_of.
    destruct (nge _ (num 90)); [tauto|].
    destruct (nge _ (num 70)); [tauto|].
    destruct (nge _ (num 50)); tauto. }
  destruct G as [-> | [-> | [-> | ->]]];
    cbn [String.eqb Ascii.eqb Bool.eqb List.length]; lia.
Qed.

Lemma stats_field walks k :
  oprop (wire (Routes61.fallback_stats walks)) k
  = wire (oprop (Routes61.fallback_stats walks) k).
Proof.
  unfold Routes61.fallback_stats. cbv zeta. rewrite wire_JObj.
  cbn [oprop]. apply lookup_wire_fields. apply distinct_sound.
  reflexivity.
Qed.

Lemma counted_as (f g : JVal -> bool) l :
  (forall w, f w = g w) ->
  jor (Routes61.count f l) (jnum 0)
  = jnum (Z.of_nat (List.length (filter g l))).
Proof.
  intros E. unfold Routes61.count. rewrite jor_count.
  now rewrite (filter_same _ _ _ E).
Qed.

Lemma walker_stats_run cfg env days_param store w :
  V61.supabase cfg = true ->
  truthy (error (Routes61.rpc_reply store)) = true ->
  Notions.is_date (Notions.stats_since env days_param) = true ->
  Routes61.walker_stats cfg env days_param store w
  = ({| status := 200;
        body := wire (Routes61.fallback_stats
                        (Routes61.walks_since
                           store
                           (JTime (trunc (Notions.stats_since
                                            env days_param))))) |},
     w).
Proof.
  intros D E S.
  unfold Routes61.walker_stats, Routes61.walker_stats_body, try_catch.
  rewrite D, E. cbn [negb]. unfold bind.
  rewrite toISOString_date.
  fold (Notions.stats_since env days_param). rewrite S. reflexivity.
Qed.

End WalkerStats.




(* ================================================================== *)
(** * The health route and the minimal server *)

Section Health.
Import JS Db.
Context {rt : Runtime}.
Local Open Scope gw_scope.

Lemma health60_hmac cfg env :
  oprop (body (Routes60.health cfg env)) "hmac"
  = if V60.key_set cfg then jstr "configured" else jstr "disabled".
Proof. unfold Routes60.health. now destruct (V60.key_set cfg). Qed.

Lemma health61_hmac cfg :
  oprop (body (Routes61.health cfg)) "hmac"
  = if V61.key_set cfg then jstr "configured" else jstr "disabled".
Proof.
  unfold Routes61.health.
  now destruct (V61.key_set cfg), (V61.supabase cfg).
Qed.

Lemma verifyHMAC60_unsigned cfg payload w :
  fst (V60.verifyHMAC cfg payload JUndefined w)
  = Ret (negb (V60.key_set cfg)).
Proof.
  unfold V60.verifyHMAC. now destruct (V60.key_set cfg).
Qed.

Lemma minimal_telemetry_run cfg env body w :
  truthy (oprop body "device_id") = true ->
  Minimal.supabase cfg = true ->
  Minimal.telemetry cfg env body w
  = ({| status := 200; body := {{ "status" =: jstr "ok" }} |},
     {| db := if succeeds env status_upsert
              then upserted env device_status ["device_id"%string]
                            (Minimal.statusUpdate env body) (db w)
              else db w;
        journal := journal w
                   ++ [(status_upsert, succeeds env status_upsert)];
        console := console w |}).
Proof.
  intros Hid D.
  unfold Minimal.telemetry, Minimal.telemetry_body, try_catch.
  destruct (truthy_oprop_object _ _ Hid) as [-> _].
  rewrite Hid, D. cbn [negb orb].
  unfold bind, upsert, succeeds.
  destruct (faults env status_upsert) eqn:F.
  - now rewrite (call_failed env _ _ _ _ _ F).
  - now rewrite (call_ok env _ _ _ _ F).
Qed.

End Health.

(** X16.  What the health route says about the signature check.  On the
    V6.0 server the answer carries [hmac: 'disabled'] exactly when the
    verifier accepts a report without a signature, and on the V6.1 server
    exactly when the verifier accepts whatever signature it is given;
    otherwise it carries [hmac: 'configured']. *)
Theorem health_tells_verification {rt : JS.Runtime} :
  (forall cfg env,
      (JS.oprop (Db.body (Routes60.health cfg env)) "hmac"
       = JS.jstr "disabled"
       <-> forall payload w,
           fst (V60.verifyHMAC cfg payload JS.JUndefined w) = Db.Ret true)
      /\ (JS.oprop (Db.body (Routes60.health cfg env)) "hmac"
          = JS.jstr "disabled"
          \/ JS.oprop (Db.body (Routes60.health cfg env)) "hmac"
             = JS.jstr "configured")
      /\ Db.status (Routes60.health cfg env) = 200)
  /\ (forall cfg,
         (JS.oprop (Db.body (Routes61.health cfg)) "hmac"
          = JS.jstr "disabled"
          <-> forall data sig, V61.verifyHMAC cfg data sig = true)
         /\ (JS.oprop (Db.body (Routes61.health cfg)) "hmac"
             = JS.jstr "disabled"
             \/ JS.oprop (Db.body (Routes61.health cfg)) "hmac"
                = JS.jstr "configured")
         /\ Db.status (Routes61.health cfg) = 200).
Proof.
  split.
  - intros cfg env. rewrite health60_hmac.
    split; [|split; [|reflexivity]].
    + split.
      * intros H payload w. rewrite verifyHMAC60_unsigned.
        destruct (V60.key_set cfg); [discriminate H | reflexivity].
      * intros H. specialize (H JS.JNull (Db.fresh Db.empty_store)).
        rewrite verifyHMAC60_unsigned in H.
        destruct (V60.key_set cfg); [discriminate H | reflexivity].
    + destruct (V60.key_set cfg); tauto.
  - intros cfg. rewrite health61_hmac.
    split; [|split; [|reflexivity]].
    + split.
      * intros H data sig. unfold V61.verifyHMAC.
        destruct (V61.key_set cfg); [discriminate H | reflexivity].
      * intros H. specialize (H JS.JNull JS.JUndefined).
        unfold V61.verifyHMAC in H.
        destruct (V61.key_set cfg); [discriminate H | reflexivity].
    + destruct (V61.key_set cfg); tauto.
Qed.

(** X17.  The answers of the minimal server's telemetry route: 400 without
    a device id, 500 "Database not configured" without a store client,
    and 200 otherwise.  In the first two cases the store is not called.
    In the last the one call made is the status upsert, and the answer
    is 200 [status: 'ok'] whether or not the upsert succeeded; only the
    status table can have changed.  The key plays no part: no signature is
    ever checked. *)
Theorem minimal_telemetry_outcomes (cfg : Minimal.Config) (env : Db.Env)
        (body : JS.JVal) (w : Db.World) :
  ((JS.truthy (JS.oprop body "device_id") = false
    /\ fst (Minimal.telemetry cfg env body w)
       = {| Db.status := 400;
            Db.body := JS.JObj [("error"%string,
                                 JS.jstr "Missing device_id")] |}
    /\ snd (Minimal.telemetry cfg env body w) = w)
   \/ (JS.truthy (JS.oprop body "device_id") = true
       /\ Minimal.supabase cfg = false
       /\ fst (Minimal.telemetry cfg env body w)
          = {| Db.status := 500;
               Db.body := JS.JObj [("error"%string,
                                    JS.jstr "Database not configured")] |}
       /\ snd (Minimal.telemetry cfg env body w) = w)
   \/ (JS.truthy (JS.oprop body "device_id") = true
       /\ Minimal.supabase cfg = true
       /\ fst (Minimal.telemetry cfg env body w)
          = {| Db.status := 200;
               Db.body := JS.JObj [("status"%string, JS.jstr "ok")] |}
       /\ calls_since w (snd (Minimal.telemetry cfg env body w))
          = [(Db.status_upsert, succeeds env Db.status_upsert)]
       /\ Db.db (snd (Minimal.telemetry cfg env body w))
          = (if succeeds env Db.status_upsert
             then Db.upserted env Db.device_status ["device_id"%string]
                              (Minimal.statusUpdate env body) (Db.db w)
             else Db.db w)
       /\ forall t,
           t <> Db.device_status ->
           Db.rows t (Db.db (snd (Minimal.telemetry cfg env body w)))
           = Db.rows t (Db.db w)))
  /\ (forall key,
         Minimal.telemetry cfg env body w
         = Minimal.telemetry {| Minimal.env_HMAC_KEY := key;
                                Minimal.supabase := Minimal.supabase cfg |}
                             env body w).
Proof.
  split; [|reflexivity].
  destruct (JS.truthy (JS.oprop body "device_id")) eqn:Hid.
  - right. destruct (Minimal.supabase cfg) eqn:D.
    + right. split; [reflexivity|]. split; [reflexivity|].
      rewrite (minimal_telemetry_run cfg env body w Hid D).
      cbn [fst snd Db.db].
      split; [reflexivity|].
      split; [apply calls_since_app; reflexivity|].
      split; [reflexivity|].
      intros t N. destruct (succeeds env Db.status_upsert); [|reflexivity].
      now apply rows_upserted_other.
    + left. split; [reflexivity|]. split; [reflexivity|].
      unfold Minimal.telemetry, Minimal.telemetry_body, Db.try_catch.
      destruct (truthy_oprop_object _ _ Hid) as [-> _].
      rewrite Hid, D. split; reflexivity.
  - left. split; [reflexivity|].
    unfold Minimal.telemetry, Minimal.telemetry_body, Db.try_catch.
    rewrite Hid, orb_true_r. split; reflexivity.
Qed.

(* ================================================================== *)
(** * One status row per device *)

Section OneRow.
Import JS Db.
Context {rt : Runtime}.
Variable env : Env.
Local Open Scope gw_scope.

Lemma filter_map_unselected {A} (sel : A -> bool) (f : A -> A) l :
  (forall x, sel x = true -> sel (f x) = true) ->
  filter (fun x => negb (sel x))
         (map (fun x => if sel x then f x else x) l)
  = filter (fun x => negb (sel x)) l.
Proof.
  intros H. induction l as [|x l IH]; [reflexivity|].
  cbn [map filter]. destruct (sel x) eqn:S.
  - rewrite (H x S). cbn [negb]. exact IH.
  - rewrite S. cbn [negb]. now rewrite IH.
Qed.

(** The rows of the other devices after a status upsert. *)
Lemma other_rows_upserted d upd s :
  lookup "device_id" (fields_of upd) = JStr d ->
  filter (fun r => negb (Notions.of_device d r))
         (rows device_status
               (upserted env device_status ["device_id"%string] upd s))
  = filter (fun r => negb (Notions.of_device d r)) (rows device_status s).
Proof.
  intros L.
  assert (K : has_key "device_id" (fields_of upd) = true)
    by (apply lookup_has_key; rewrite L; discriminate).
  assert (C : forall old,
             conflicts ["device_id"%string] (wire upd) old
             = Notions.of_device d old).
  { intros old. unfold conflicts, Notions.of_device. cbn [forallb].
    rewrite andb_true_r. unfold fields_of in L.
    destruct (wire upd) eqn:W; try discriminate L.
    cbn [oprop]. now rewrite L. }
  assert (M : forall old, Notions.of_device d (merge_row old upd) = true).
  { intros old. unfold Notions.of_device.
    rewrite (oprop_merge_row _ _ _ K), L. cbn [sql_eq strict_eq].
    apply jsstring_eqb_refl. }
  unfold upserted. cbv zeta.
  rewrite (existsb_same _ _ _ C), (map_ext _ _ (fun old => f_equal
             (fun b : bool => if b then merge_row old upd else old)
             (C old))).
  destruct (existsb _ (rows device_status s)).
  - rewrite rows_set_rows.
    apply filter_map_unselected. intros; apply M.
  - rewrite rows_inserted, filter_app. cbn [filter].
    unfold Notions.of_device at 2.
    rewrite (oprop_stored _ _ _ _ _ K), L. cbn [sql_eq strict_eq].
    rewrite jsstring_eqb_refl. cbn [negb]. apply app_nil_r.
Qed.

Lemma device_rows_count d upd s :
  lookup "device_id" (fields_of upd) = JStr d ->
  List.length
    (filter (Notions.of_device d)
            (rows device_status
                  (upserted env device_status ["device_id"%string]
                            upd s)))
  = Nat.max 1 (List.length (filter (Notions.of_device d)
                                   (rows device_status s))).
Proof.
  intros L. rewrite (device_rows_upserted env d upd s L).
  destruct (filter _ (rows device_status s)) as [|x l]; [reflexivity|].
  rewrite length_map. cbn [List.length]. lia.
Qed.

End OneRow.

(** X18.  One status row per device.  After an accepted report for a
    device whose status upsert succeeds, the device has one status row if
    it had none, and as many as before otherwise: reporting never adds a
    second row for a device; and the rows of the other devices are
    exactly as they were.  This holds for the V6.0 and for the V6.1
    server. *)
Theorem status_row_per_device {rt : JS.Runtime} (env : Db.Env)
        (body : JS.JVal) (d : JS.jsstring) (w : Db.World) :
  JS.oprop body "device_id" = JS.JStr d ->
  succeeds env Db.status_upsert = true ->
  (forall cfg,
      accepted60 cfg body ->
      List.length
        (filter (Notions.of_device d)
                (Db.rows Db.device_status
                         (Db.db (snd (V60.telemetry cfg env body w)))))
      = Nat.max 1 (List.length
                     (filter (Notions.of_device d)
                             (Db.rows Db.device_status (Db.db w))))
      /\ filter (fun r => negb (Notions.of_device d r))
                (Db.rows Db.device_status
                         (Db.db (snd (V60.telemetry cfg env body w))))
         = filter (fun r => negb (Notions.of_device d r))
                  (Db.rows Db.device_status (Db.db w)))
  /\ (forall cfg,
         accepted61 cfg body ->
         List.length
           (filter (Notions.of_device d)
                   (Db.rows Db.device_status
                            (Db.db (snd (V61.telemetry cfg env body w)))))
         = Nat.max 1 (List.length
                        (filter (Notions.of_device d)
                                (Db.rows Db.device_status (Db.db w))))
         /\ filter (fun r => negb (Notions.of_device d r))
                   (Db.rows Db.device_status
                            (Db.db (snd (V61.telemetry cfg env body w))))
            = filter (fun r => negb (Notions.of_device d r))
                     (Db.rows Db.device_status (Db.db w))).
Proof.
  intros Hd S. split.
  - intros cfg Acc.
    destruct (telemetry60_effects cfg env body w Acc)
      as (w3 & _ & _ & R & _).
    rewrite S, Hd in R. rewrite R. clear R.
    assert (L : JS.lookup "device_id"
                          (Db.fields_of
                             (V60.statusUpdate env body (JS.JStr d)))
                = JS.JStr d)
      by (rewrite statusUpdate60_field by discriminate; reflexivity).
    split; [now apply device_rows_count | now apply other_rows_upserted].
  - intros cfg Acc.
    pose proof (telemetry61_status_rows env cfg body w Acc) as R.
    rewrite S in R. rewrite R. clear R.
    assert (L : JS.lookup "device_id"
                          (Db.fields_of (V61.statusUpdate env body))
                = JS.JStr d).
    { rewrite statusUpdate61_field.
      rewrite statusUpdate61_passed
        by (unfold Notions.passed_columns61; simpl; tauto).
      now rewrite Hd. }
    split; [now apply device_rows_count | now apply other_rows_upserted].
Qed.

(** The device of [Samples.store_with_walk] reports again. *)
Lemma status_row_per_device_witness :
  List.length
    (filter (Notions.of_device (JS.str "collar-1"))
            (Db.rows Db.device_status
                     (Db.db (snd (@V60.telemetry Samples.rt0 Samples.open60
                                    (Samples.quiet Samples.later_that_day)
                                    Samples.report60
                                    (Db.fresh Samples.store_with_walk))))))
  = 1%nat.
Proof.
  destruct (@status_row_per_device Samples.rt0
              (Samples.quiet Samples.later_that_day) Samples.report60
              (JS.str "collar-1") (Db.fresh Samples.store_with_walk)
              eq_refl eq_refl) as (H & _).
  destruct (H Samples.open60) as (E & _).
  - split; [reflexivity|]. intros w. reflexivity.
  - exact E.
Defined.

(* ================================================================== *)
(** * Ending a walk: the other cases *)

Section WalkEndCases.
Import JS Db.
Context {rt : Runtime}.
Variable env : Env.
Local Open Scope gw_scope.

Lemma walk_end60_update_failed req w walk_id session msg :
  prop (V60.req_body req) "walk_id" = Some walk_id ->
  filter (fun row => sql_eq (oprop row "id") walk_id)
         (rows walk_sessions (db w)) = [session] ->
  succeeds env walk_select = true ->
  faults env walk_update = Some msg ->
  V60.walk_end env req w
  = ({| status := 500; body := {{ "error" =: JStr msg }} |},
     {| db := db w;
        journal := journal w
                   ++ [(status_select, succeeds env status_select);
                       (walk_select, true); (walk_update, false)];
        console := console w |}).
Proof.
  intros P Found Ssel F2.
  destruct (walk_end60_lookup env req w walk_id P) as (k & K & E).
  unfold V60.walk_end, try_catch. rewrite E, K, Found.
  unfold succeeds in Ssel.
  destruct (faults env walk_select) eqn:F1; [discriminate|].
  assert (In session (filter (fun row => sql_eq (oprop row "id") walk_id)
                             (rows walk_sessions (db w))))
    as I by (rewrite Found; now left).
  apply filter_In in I as [_ Sel].
  destruct (selected_is_object _ _ Sel) as (fo & ->).
  cbn [truthy negb]. cbv zeta. unfold update, bind.
  rewrite (call_failed env _ _ _ _ _ F2).
  cbn [fst snd truthy failure db journal console].
  unfold succeeds at 2. rewrite F1.
  rewrite <- app_assoc. reflexivity.
Qed.

Lemma walk_end61_unconfigured cfg req w :
  V61.supabase cfg = false ->
  V61.walk_end cfg env req w
  = ({| status := 500;
        body := {{ "error" =: jstr "Database not configured" }} |}, w).
Proof.
  intros D. unfold V61.walk_end, V61.walk_end_body, try_catch.
  now rewrite D.
Qed.

Lemma walk_end61_no_body cfg req w :
  V61.supabase cfg = true ->
  nullish (V61.req_body req) = true ->
  V61.walk_end cfg env req w
  = ({| status := 500;
        body := {{ "error" =: jstr "Internal server error" }} |},
     {| db := db w; journal := journal w;
        console := console w ++ [(log_error, "Walk end error:"%string)] |}).
Proof.
  intros D N. unfold V61.walk_end, V61.walk_end_body, try_catch.
  rewrite D. cbn [negb]. unfold bind, get, prop. now rewrite N.
Qed.

Lemma walk_end61_insert_failed cfg req w q started_at msg :
  V61.supabase cfg = true ->
  prop (V61.req_body req) "quality_score" = Some q ->
  Notions.started_at61 env (V61.req_body req) = Some started_at ->
  faults env walk_insert = Some msg ->
  V61.walk_end cfg env req w
  = ({| status := 500; body := {{ "error" =: JStr msg }} |},
     {| db := db w; journal := journal w ++ [(walk_insert, false)];
        console := console w
                   ++ [(log_error, "Walk session error:"%string)] |}).
Proof.
  intros D P S F.
  unfold V61.walk_end, V61.walk_end_body, try_catch.
  rewrite D. cbn [negb].
  assert (E0 : bind (get (V61.req_body req) "quality_score")
                    (fun q => ret (jor q (jnum 0))) w
               = (Ret (jor q (jnum 0)), w))
    by (unfold bind; now rewrite (get_prop _ _ _ w P)).
  rewrite (bind_Ret _ _ _ _ (f_equal fst E0)), E0. cbn [snd].
  pose proof (started_at61_run env (V61.req_body req) w) as E1.
  rewrite S in E1.
  rewrite (bind_Ret _ _ _ _ (f_equal fst E1)), E1. cbn [snd].
  unfold bind, insert_returning.
  rewrite (call_failed env _ _ _ _ _ F).
  cbn [fst snd data error truthy failure]. reflexivity.
Qed.

End WalkEndCases.

(** X19.  Ending a walk of a device whose status cannot be read, on the
    V6.0 server.  When the walk session is found and updated but the
    status query fails or does not select exactly one row, the walk is
    graded as one of no duration, no distance and no stop: the answer is
    200 with score 65, grade C, zero minutes and zero meters, and the
    session is finalized with these values. *)
Theorem walk_end60_without_status {rt : JS.Runtime} (env : Db.Env)
        (req : V60.Request) (w : Db.World) (walk_id session : JS.JVal) :
  JS.prop (V60.req_body req) "walk_id" = Some walk_id ->
  filter (Notions.with_id walk_id) (Db.rows Db.walk_sessions (Db.db w))
  = [session] ->
  succeeds env Db.walk_select = true ->
  succeeds env Db.walk_update = true ->
  snapshot env (V60.params_deviceId req) (Db.db w) = JS.JNull ->
  fst (V60.walk_end env req w)
  = {| Db.status := 200;
       Db.body :=
         JS.wire
           (JS.JObj [("status"%string, JS.jstr "ok");
                     ("walk_id"%string, walk_id);
                     ("grade"%string, JS.jstr "C");
                     ("grade_score"%string, JS.jnum 65);
                     ("duration_minutes"%string, JS.jnum 0);
                     ("distance_meters"%string, JS.jnum 0)]) |}
  /\ exists finalized,
      In finalized
         (Db.rows Db.walk_sessions (Db.db (snd (V60.walk_end env req w))))
      /\ JS.oprop finalized "id" = JS.oprop session "id"
      /\ JS.oprop finalized "ended_at" = JS.JTime (Db.now env)
      /\ JS.oprop finalized "grade" = JS.jstr "C"
      /\ JS.oprop finalized "grade_score" = JS.jnum 65
      /\ JS.oprop finalized "duration_seconds" = JS.jnum 0
      /\ JS.oprop finalized "end_lat" = JS.oprop session "end_lat".
Proof.
  intros P Found Ssel Supd Snap.
  unfold Notions.with_id in Found.
  pose proof (walk_end60_found env req w walk_id session P Found Ssel Supd)
    as R.
  cbv zeta in R. rewrite Snap in R.
  assert (G : V60.gradeScore_of (JS.jor (JS.oprop JS.JNull "walk_duration")
                                        (JS.jnum 0))
                                (JS.jor (JS.oprop JS.JNull "walk_distance")
                                        (JS.jnum 0))
                                (JS.jor (JS.oprop JS.JNull "walk_stops")
                                        (JS.jnum 0))
              = JS.num 65) by (vm_compute; reflexivity).
  rewrite G in R.
  change (V60.grade_of (JS.num 65)) with "C"%string in R.
  rewrite R. clear R G. cbn [fst snd Db.db].
  split; [reflexivity|].
  pose proof (singleton_selected _ _ _ Found) as Sel.
  destruct (selected_is_object _ _ Sel) as (fo & ->).
  eexists. split.
  { unfold Db.updated. rewrite rows_set_rows. apply in_map_iff.
    exists (JS.JObj fo). split.
    - rewrite Sel. reflexivity.
    - assert (I : In (JS.JObj fo)
                     (filter (fun row => Db.sql_eq (JS.oprop row "id")
                                                   walk_id)
                             (Db.rows Db.walk_sessions (Db.db w))))
        by (rewrite Found; now left).
      now apply filter_In in I. }
  unfold V60.sessionUpdate.
  split; [apply oprop_merge_row_kept; cbn [map fst In];
          intuition discriminate|].
  split; [now rewrite oprop_merge_row_sent|].
  split; [now rewrite oprop_merge_row_sent|].
  split; [now rewrite oprop_merge_row_sent|].
  split; [now rewrite oprop_merge_row_sent|].
  unfold Db.merge_row. cbn [JS.oprop]. rewrite lookup_merge_fields.
  reflexivity.
Qed.

(** Ending walk 7 of [Samples.store_with_walk] after the status row of
    the device was lost. *)
Lemma walk_end60_without_status_witness :
  JS.oprop
    (Db.body
       (fst (@V60.walk_end Samples.rt0
               (Samples.quiet Samples.later_that_day)
               (Samples.end_walk60 7)
               (Db.fresh (Db.set_rows Db.device_status []
                                      Samples.store_with_walk)))))
    "grade"
  = JS.jstr "C".
Proof.
  destruct (@walk_end60_without_status Samples.rt0
              (Samples.quiet Samples.later_that_day) (Samples.end_walk60 7)
              (Db.fresh (Db.set_rows Db.device_status []
                                     Samples.store_with_walk))
              (JS.jnum 7) Samples.ended_walk
              eq_refl eq_refl eq_refl eq_refl eq_refl) as (R & _).
  now rewrite R.
Defined.

(** X20.  Ending a walk when the update fails, on the V6.0 server.  When
    the walk session is found but the store refuses the update, the
    answer is 500 with the message of the store, the store is as it was,
    and the calls made are the two queries and the failed update. *)
Theorem walk_end60_update_refused {rt : JS.Runtime} (env : Db.Env)
        (req : V60.Request) (w : Db.World) (walk_id session : JS.JVal)
        (msg : JS.jsstring) :
  JS.prop (V60.req_body req) "walk_id" = Some walk_id ->
  filter (Notions.with_id walk_id) (Db.rows Db.walk_sessions (Db.db w))
  = [session] ->
  succeeds env Db.walk_select = true ->
  Db.faults env Db.walk_update = Some msg ->
  fst (V60.walk_end env req w)
  = {| Db.status := 500;
       Db.body := JS.JObj [("error"%string, JS.JStr msg)] |}
  /\ Db.db (snd (V60.walk_end env req w)) = Db.db w
  /\ calls_since w (snd (V60.walk_end env req w))
     = [(Db.status_select, succeeds env Db.status_select);
        (Db.walk_select, true); (Db.walk_update, false)].
Proof.
  intros P Found Ssel F.
  rewrite (walk_end60_update_failed env req w walk_id session msg
             P Found Ssel F).
  cbn [fst snd Db.db]. split; [reflexivity|]. split; [reflexivity|].
  apply calls_since_app. reflexivity.
Qed.

Lemma walk_end60_update_refused_witness :
  fst (@V60.walk_end Samples.rt0
         (Samples.failing Db.walk_update Samples.later_that_day)
         (Samples.end_walk60 7) (Db.fresh Samples.store_with_walk))
  = {| Db.status := 500;
       Db.body := JS.JObj [("error"%string, JS.jstr "store error")] |}
  /\ Db.db (snd (@V60.walk_end Samples.rt0
                   (Samples.failing Db.walk_update Samples.later_that_day)
                   (Samples.end_walk60 7)
                   (Db.fresh Samples.store_with_walk)))
     = Samples.store_with_walk.
Proof.
  destruct (@walk_end60_update_refused Samples.rt0
              (Samples.failing Db.walk_update Samples.later_that_day)
              (Samples.end_walk60 7) (Db.fresh Samples.store_with_walk)
              (JS.jnum 7) Samples.ended_walk (JS.str "store error")
              eq_refl eq_refl eq_refl eq_refl) as (R & S & _).
  split; [exact R | exact S].
Defined.

(** X21.  The answers of the V6.1 walk-end route, in the order in which
    the handler decides them: 500 "Database not configured" without a
    store client; 500 "Internal server error" when the body is [null] or
    absent, or when the walk cannot be dated; 500 with the message of the
    store when the insert fails; 200 otherwise.  Only in the last case is
    a session stored, and only in the last two is the store called. *)
Theorem walk_end61_outcomes {rt : JS.Runtime} (cfg : V61.Config)
        (env : Db.Env) (req : V61.Request) (w : Db.World) :
  (V61.supabase cfg = false
   /\ V61.walk_end cfg env req w
      = ({| Db.status := 500;
            Db.body := JS.JObj [("error"%string,
                                 JS.jstr "Database not configured")] |}, w))
  \/ (V61.supabase cfg = true
      /\ (JS.nullish (V61.req_body req) = true
          \/ Notions.started_at61 env (V61.req_body req) = None)
      /\ fst (V61.walk_end cfg env req w)
         = {| Db.status := 500;
              Db.body := JS.JObj [("error"%string,
                                   JS.jstr "Internal server error")] |}
      /\ Db.db (snd (V61.walk_end cfg env req w)) = Db.db w
      /\ calls_since w (snd (V61.walk_end cfg env req w)) = [])
  \/ (V61.supabase cfg = true
      /\ JS.nullish (V61.req_body req) = false
      /\ (exists msg,
             Db.faults env Db.walk_insert = Some msg
             /\ fst (V61.walk_end cfg env req w)
                = {| Db.status := 500;
                     Db.body := JS.JObj [("error"%string, JS.JStr msg)] |})
      /\ Db.db (snd (V61.walk_end cfg env req w)) = Db.db w
      /\ calls_since w (snd (V61.walk_end cfg env req w))
         = [(Db.walk_insert, false)])
  \/ (V61.supabase cfg = true
      /\ JS.nullish (V61.req_body req) = false
      /\ Db.status (fst (V61.walk_end cfg env req w)) = 200
      /\ (exists session,
             Db.rows Db.walk_sessions
                     (Db.db (snd (V61.walk_end cfg env req w)))
             = Db.rows Db.walk_sessions (Db.db w) ++ [session])
      /\ calls_since w (snd (V61.walk_end cfg env req w))
         = [(Db.walk_insert, true)]).
Proof.
  destruct (V61.supabase cfg) eqn:D.
  2:{ left. split; [reflexivity|]. now apply walk_end61_unconfigured. }
  right.
  destruct (JS.nullish (V61.req_body req)) eqn:N.
  { left. split; [reflexivity|]. split; [now left|].
    rewrite (walk_end61_no_body env cfg req w D N). cbn [fst snd Db.db].
    split; [reflexivity|]. split; [reflexivity|].
    apply calls_since_app. cbn [Db.journal]. now rewrite app_nil_r. }
  assert (P : JS.prop (V61.req_body req) "quality_score"
              = Some (JS.oprop (V61.req_body req) "quality_score"))
    by (unfold JS.prop; now rewrite N).
  destruct (Notions.started_at61 env (V61.req_body req)) as [s|] eqn:S.
  2:{ left. split; [reflexivity|]. split; [now right|].
      rewrite (walk_end61_throws cfg env req w _ D P S).
      cbn [fst snd Db.db].
      split; [reflexivity|]. split; [reflexivity|].
      apply calls_since_app. cbn [Db.journal]. now rewrite app_nil_r. }
  right.
  destruct (Db.faults env Db.walk_insert) as [msg|] eqn:F.
  - left. split; [reflexivity|]. split; [reflexivity|].
    rewrite (walk_end61_insert_failed env cfg req w _ s msg D P S F).
    cbn [fst snd Db.db].
    split; [exists msg; now split|]. split; [reflexivity|].
    apply calls_since_app. reflexivity.
  - right. split; [reflexivity|]. split; [reflexivity|].
    pose proof (walk_end61_run cfg env req w _ s D P S F) as R.
    cbv zeta in R. rewrite R. cbn [fst snd Db.db Db.status].
    split; [reflexivity|].
    split; [eexists; now rewrite rows_bump_id, rows_set_rows|].
    apply calls_since_app. reflexivity.
Qed.

(* ================================================================== *)
(** * The de-duplication query fails *)

Section FailsOpen.
Import JS Db.
Context {rt : Runtime}.
Variable cfg : V60.Config.
Local Open Scope gw_scope.

Lemma report_anomaly60_unchecked env body d t w :
  flags60 cfg body d t ->
  succeeds env anomaly_select = false ->
  succeeds env anomaly_insert = true ->
  exists e,
    entry e d t (now env)
    /\ rows anomaly_log (db (snd (V60.telemetry cfg env body w)))
       = rows anomaly_log (db w) ++ [e].
Proof.
  intros (Acc & Hd & Ha & Ht) Ssel Sins.
  destruct (telemetry60_effects cfg env body w Acc)
    as (w3 & E & A & _ & _).
  rewrite E.
  destruct (record_anomaly60_run env body (oprop body "device_id") w3)
    as [_ D].
  rewrite D, Hd, Ha, Ht, Ssel, Sins. cbn [negb orb andb].
  eexists. split; [apply anomaly_entry|].
  rewrite rows_inserted, A. reflexivity.
Qed.

End FailsOpen.

(** X22.  The de-duplication of anomalies fails open.  When a report of
    the V6.0 format flags an anomaly and the query that looks for an
    entry of today fails, the handler records the anomaly all the same,
    provided the insert succeeds: the log gains an entry whether or not
    the same anomaly was already recorded for the device today, and the
    report is answered with 200. *)
Theorem anomaly_dedup_fails_open {rt : JS.Runtime} (cfg : V60.Config)
        (env : Db.Env) (body : JS.JVal) (d t : JS.jsstring)
        (w : Db.World) :
  flags60 cfg body d t ->
  succeeds env Db.anomaly_select = false ->
  succeeds env Db.anomaly_insert = true ->
  Db.status (fst (V60.telemetry cfg env body w)) = 200
  /\ exists e,
      entry e d t (Db.now env)
      /\ Db.rows Db.anomaly_log (Db.db (snd (V60.telemetry cfg env body w)))
         = Db.rows Db.anomaly_log (Db.db w) ++ [e].
Proof.
  intros F Ssel Sins. split.
  - destruct F as (Acc & _).
    now rewrite (telemetry60_accepted env cfg body w Acc).
  - now apply report_anomaly60_unchecked.
Qed.

(** The report of [Samples] sent twice on the same day, the second time
    to a store that fails the de-duplication query. *)
Lemma anomaly_dedup_fails_open_witness :
  List.length
    (Db.rows Db.anomaly_log
       (Db.db (snd (@V60.telemetry Samples.rt0 Samples.open60
                      (Samples.failing Db.anomaly_select
                                       Samples.later_that_day)
                      Samples.report60
                      (snd (@V60.telemetry Samples.rt0 Samples.open60
                              (Samples.quiet Samples.morning)
                              Samples.report60
                              (Db.fresh Db.empty_store)))))))
  = 2%nat.
Proof.
  destruct (@anomaly_dedup_fails_open Samples.rt0 Samples.open60
              (Samples.failing Db.anomaly_select Samples.later_that_day)
              Samples.report60 (JS.str "collar-1") (JS.str "low_activity")
              (snd (@V60.telemetry Samples.rt0 Samples.open60
                      (Samples.quiet Samples.morning) Samples.report60
                      (Db.fresh Db.empty_store))))
    as (_ & e & _ & R).
  - split; [|split; [reflexivity | split; reflexivity]].
    split; [reflexivity|]. intros w. reflexivity.
  - reflexivity.
  - reflexivity.
  - rewrite R, length_app. reflexivity.
Defined.

(* ================================================================== *)
(** * Scratches *)

Section Scratches.
Import JS Db.
Context {rt : Runtime}.
Variable env : Env.
Local Open Scope gw_scope.

Lemma record_scratch60_db payload deviceId w :
  let scratch := oprop payload "scratch" in
  let event :=
    {{ "device_id" =: deviceId;
       "frequency_hz" =: oprop scratch "frequency";
       "confidence" =: oprop scratch "confidence";
       "latitude" =: oprop (oprop payload "gps") "lat";
       "longitude" =: oprop (oprop payload "gps") "lon" }} in
  let daily :=
    {{ "device_id" =: deviceId;
       "date" =: JDay (day_of (now env));
       "total_count" =: oprop scratch "today_count";
       "max_frequency" =: oprop scratch "frequency" }} in
  db (snd (V60.record_scratch env payload deviceId w))
  = if truthy (oprop scratch "detected")
    then
      let s1 := if succeeds env scratch_insert
                then inserted env scratch_events event (db w)
                else db w in
      if succeeds env scratch_daily_upsert
      then upserted env scratch_daily ["device_id"; "date"]%string
                    daily s1
      else s1
    else db w.
Proof.
  cbv zeta.
  unfold V60.record_scratch, insert, upsert, succeeds, bind, when.
  destruct (truthy (oprop (oprop payload "scratch") "detected"));
    [|reflexivity].
  destruct (faults env scratch_insert) eqn:E;
    [rewrite (call_failed env _ _ _ _ _ E)
    | rewrite (call_ok env _ _ _ _ E)];
    cbn [truthy failure print ret fst snd];
    (destruct (faults env scratch_daily_upsert) eqn:E';
     [rewrite (call_failed env _ _ _ _ _ E')
     | rewrite (call_ok env _ _ _ _ E')]);
    reflexivity.
Qed.

(** The rows that an upsert takes for the row it is given, after it:
    as many as before, or one when there was none. *)
Lemma upserted_count t keys upd s :
  (forall old, conflicts keys (wire upd) (merge_row old upd) = true) ->
  conflicts keys (wire upd) (stored env t upd s) = true ->
  List.length (filter (conflicts keys (wire upd))
                      (rows t (upserted env t keys upd s)))
  = Nat.max 1 (List.length (filter (conflicts keys (wire upd))
                                   (rows t s))).
Proof.
  intros M N. unfold upserted. cbv zeta.
  destruct (existsb _ (rows t s)) eqn:X.
  - rewrite rows_set_rows.
    rewrite filter_map_selected by (intros; apply M).
    rewrite length_map.
    apply existsb_exists in X as (x & I & Sx).
    assert (I' : In x (filter (conflicts keys (wire upd)) (rows t s)))
      by (apply filter_In; now split).
    destruct (filter _ (rows t s)); [destruct I'|].
    cbn [List.length]. lia.
  - rewrite rows_inserted, filter_app, (existsb_filter _ _ X).
    cbn [filter app]. now rewrite N.
Qed.

(** The store in which an accepted report records its scratch. *)
Lemma telemetry60_scratch_store cfg body w :
  accepted60 cfg body ->
  exists w2,
    rows scratch_events (db w2) = rows scratch_events (db w)
    /\ rows scratch_daily (db w2) = rows scratch_daily (db w)
    /\ forall t,
        t = scratch_events \/ t = scratch_daily ->
        rows t (db (snd (V60.telemetry cfg env body w)))
        = rows t (db (snd (V60.record_scratch
                             env body (oprop body "device_id") w2))).
Proof.
  intros Acc. rewrite (telemetry60_accepted env cfg body w Acc).
  cbn [snd].
  set (d := oprop body "device_id").
  exists (snd (V60.insert_location env body d
                 (snd (V60.update_status env body d
                         (persisting60 cfg body w))))).
  split; [|split].
  - rewrite (insert_location60_keeps env body d scratch_events
               ltac:(discriminate)).
    rewrite (update_status60_keeps env body d scratch_events
               ltac:(discriminate)).
    now destruct (persisting60_same cfg body w) as [-> _].
  - rewrite (insert_location60_keeps env body d scratch_daily
               ltac:(discriminate)).
    rewrite (update_status60_keeps env body d scratch_daily
               ltac:(discriminate)).
    now destruct (persisting60_same cfg body w) as [-> _].
  - intros t T.
    apply (record_anomaly60_keeps env body d t).
    destruct T; subst t; discriminate.
Qed.

Lemma on_day_conflicts d day upd old :
  oprop (wire upd) "device_id" = JStr d ->
  oprop (wire upd) "date" = JDay day ->
  conflicts ["device_id"; "date"]%string (wire upd) old
  = Notions.on_day d day old.
Proof.
  intros Hd Hy. unfold conflicts, Notions.on_day. cbn [forallb].
  now rewrite Hd, Hy, andb_true_r.
Qed.

End Scratches.

(** X23.  Scratches on the V6.0 server.  An accepted report that flags a
    scratch, when its two calls to the store succeed, adds one scratch
    event for the device, with the frequency reported; and it upserts the
    daily aggregate: the device has one aggregate row for today if it had
    none and as many as before otherwise, and an aggregate row of the
    device for today holds the count and the frequency of this report,
    when the report carries them, whatever the earlier reports of the
    day said. *)
Theorem scratch_recorded {rt : JS.Runtime} (cfg : V60.Config)
        (env : Db.Env) (body : JS.JVal) (d : JS.jsstring) (w : Db.World) :
  accepted60 cfg body ->
  JS.oprop body "device_id" = JS.JStr d ->
  JS.truthy (JS.oprop (JS.oprop body "scratch") "detected") = true ->
  succeeds env Db.scratch_insert = true ->
  succeeds env Db.scratch_daily_upsert = true ->
  (exists event,
      Db.rows Db.scratch_events
              (Db.db (snd (V60.telemetry cfg env body w)))
      = Db.rows Db.scratch_events (Db.db w) ++ [event]
      /\ JS.oprop event "device_id" = JS.JStr d
      /\ JS.oprop event "frequency_hz"
         = JS.wire (JS.oprop (JS.oprop body "scratch") "frequency"))
  /\ List.length
       (filter (Notions.on_day d (Db.day_of (Db.now env)))
               (Db.rows Db.scratch_daily
                        (Db.db (snd (V60.telemetry cfg env body w)))))
     = Nat.max 1
         (List.length
            (filter (Notions.on_day d (Db.day_of (Db.now env)))
                    (Db.rows Db.scratch_daily (Db.db w))))
  /\ exists aggregate,
      In aggregate
         (Db.rows Db.scratch_daily
                  (Db.db (snd (V60.telemetry cfg env body w))))
      /\ Notions.on_day d (Db.day_of (Db.now env)) aggregate = true
      /\ (JS.oprop (JS.oprop body "scratch") "today_count"
          <> JS.JUndefined ->
          JS.oprop aggregate "total_count"
          = JS.wire (JS.oprop (JS.oprop body "scratch") "today_count"))
      /\ (JS.oprop (JS.oprop body "scratch") "frequency"
          <> JS.JUndefined ->
          JS.oprop aggregate "max_frequency"
          = JS.wire (JS.oprop (JS.oprop body "scratch") "frequency")).
Proof.
  intros Acc Hd Det Sins Sups.
  destruct (telemetry60_scratch_store env cfg body w Acc)
    as (w2 & Ee & Ed & R).
  rewrite (R Db.scratch_events (or_introl eq_refl)).
  rewrite (R Db.scratch_daily (or_intror eq_refl)).
  clear R.
  pose proof (record_scratch60_db env body (JS.oprop body "device_id") w2)
    as D.
  cbv zeta in D. rewrite Det, Sins, Sups in D. rewrite D, Hd. clear D.
  match goal with
  | |- context [Db.upserted env Db.scratch_daily ?k ?u ?s] =>
      set (daily := u); set (s1 := s)
  end.
  assert (W : forall k, JS.oprop (JS.wire daily) k
                        = JS.wire (JS.oprop daily k)).
  { intros k. unfold daily. rewrite wire_JObj. cbn [JS.oprop].
    apply lookup_wire_fields. apply distinct_sound. reflexivity. }
  assert (C : forall old,
             Db.conflicts ["device_id"; "date"]%string (JS.wire daily) old
             = Notions.on_day d (Db.day_of (Db.now env)) old)
    by (intros old; apply on_day_conflicts; rewrite W; reflexivity).
  assert (K : forall k,
             In k ["device_id"; "date"]%string ->
             Db.has_key k (Db.fields_of daily) = true).
  { intros k I. apply lookup_has_key. unfold Db.fields_of, daily.
    rewrite wire_JObj.
    rewrite lookup_wire_fields by (apply distinct_sound; reflexivity).
    destruct I as [<-|[<-|[]]]; discriminate. }
  assert (Sel : forall r,
             (forall k, Db.has_key k (Db.fields_of daily) = true ->
                        JS.oprop r k = JS.lookup k (Db.fields_of daily)) ->
             Notions.on_day d (Db.day_of (Db.now env)) r = true).
  { intros r F. unfold Notions.on_day.
    rewrite !F by (apply K; simpl; tauto).
    unfold Db.fields_of, daily. rewrite wire_JObj.
    rewrite !lookup_wire_fields by (apply distinct_sound; reflexivity).
    cbn [JS.lookup String.eqb Ascii.eqb Bool.eqb JS.wire Db.sql_eq
         JS.strict_eq].
    now rewrite jsstring_eqb_refl, Z.eqb_refl. }
  assert (Rd : Db.rows Db.scratch_daily s1
               = Db.rows Db.scratch_daily (Db.db w))
    by (unfold s1; rewrite rows_inserted_other by discriminate; exact Ed).
  split; [|split].
  - rewrite rows_upserted_other by discriminate.
    unfold s1. rewrite rows_inserted, Ee.
    eexists. split; [reflexivity|].
    split; now rewrite oprop_stored_wire.
  - rewrite <- (filter_same _ _ _ C), <- (filter_same _ _ (Db.rows _ (Db.db w)) C).
    rewrite <- Rd. apply upserted_count.
    + intros old. rewrite C. apply Sel. intros k H.
      now apply oprop_merge_row.
    + rewrite C. apply Sel. intros k H. now apply oprop_stored.
  - destruct (upserted_row env Db.scratch_daily
                ["device_id"; "date"]%string daily s1) as (r & I & F).
    exists r. split; [exact I|]. split; [now apply Sel|].
    assert (L : forall k,
               JS.oprop daily k <> JS.JUndefined ->
               JS.oprop r k = JS.wire (JS.oprop daily k)).
    { intros k N.
      assert (X : JS.lookup k (Db.fields_of daily)
                  = JS.wire (JS.oprop daily k)).
      { unfold Db.fields_of, daily. rewrite wire_JObj. cbn [JS.oprop].
        apply lookup_wire_fields. apply distinct_sound. reflexivity. }
      rewrite F; [exact X|]. apply lookup_has_key. rewrite X.
      intros U. now apply N, wire_undefined. }
    split; intros N; [apply (L "total_count"%string) |
                      apply (L "max_frequency"%string)]; exact N.
Qed.

(** A report with a scratch, sent to an empty store. *)
Lemma scratch_recorded_witness :
  List.length
    (Db.rows Db.scratch_events
       (Db.db (snd (@V60.telemetry Samples.rt0 Samples.open60
                      (Samples.quiet Samples.morning)
                      Notions.scratch_report
                      (Db.fresh Db.empty_store)))))
  = 1%nat
  /\ List.length
       (filter (Notions.on_day (JS.str "collar-1")
                               (Db.day_of Samples.morning))
               (Db.rows Db.scratch_daily
                  (Db.db (snd (@V60.telemetry Samples.rt0 Samples.open60
                                 (Samples.quiet Samples.morning)
                                 Notions.scratch_report
                                 (Db.fresh Db.empty_store))))))
     = 1%nat.
Proof.
  destruct (@scratch_recorded Samples.rt0 Samples.open60
              (Samples.quiet Samples.morning) Notions.scratch_report
              (JS.str "collar-1") (Db.fresh Db.empty_store))
    as ((event & E & _) & C & _).
  - split; [reflexivity|]. intros w. reflexivity.
  - reflexivity.
  - reflexivity.
  - reflexivity.
  - reflexivity.
  - split; [now rewrite E | exact C].
Defined.
